(** * Community Pulse Bot: the metrics aggregation and scoring engine

    A shallow embedding of the analytics code of the bot
    ([src/health_analyzer.py], [src/analytics/health_analyzer.py],
    [src/analytics/channel_analyzer.py],
    [src/analytics/contributor_analyzer.py]) together with the properties
    stated about it.

    Conventions of the embedding.
    - Python [int] is [Z].
    - Python [float] values that the code obtains by rational arithmetic
      are exact rationals [Q]; the decimal literals of the source ([0.3],
      [0.2], [0.25], ...) are the rationals they denote.  The component
      scores of the entropy variant of [calculate_health_score] go through
      [math.log2] and are therefore real numbers [R].  These exact models
      carry the properties that do not depend on the last place of a
      double.
    - Where the last place decides, [calculate_health_score] of the
      entropy variant is embedded a second time over IEEE 754 binary64
      (modules [Float] and [FloatHealthAnalyzer]): every operation returns
      the double nearest to the exact result, ties to even.
    - A call that may raise returns [M A = exn + A]; [try ... except
      Exception] is [try_except], which is total.
    - The [await]s of the source are sequential, so an [async def] is the
      sequential composition of its queries. *)

From Stdlib Require Import ZArith QArith Qminmax Qround Qabs Reals Lra Lia.
From Stdlib Require Import List String Bool Sorting.Sorted.
From Stdlib Require Import Qpower.
From Stdlib Require Lqa Qreals.
Import ListNotations.

Open Scope Z_scope.

(** ** Python runtime notions shared by all modules *)
Module Py.

(** The exceptions that the modelled code can meet.  [InvalidArgument]
    is the error kind named by the specification; no source line raises
    it. *)
Inductive exn : Type :=
| ZeroDivisionError
| ValueError
| OverflowError
| QueryError (code : Z)
| InvalidArgument.

Definition M (A : Type) : Type := (exn + A)%type.

Definition ret {A} (a : A) : M A := inr a.
Definition raise {A} (e : exn) : M A := inl e.

Definition bind {A B} (m : M A) (k : A -> M B) : M B :=
  match m with
  | inl e => inl e
  | inr a => k a
  end.

(** [try: body  except Exception: handler] *)
Definition try_except {A} (body : M A) (handler : exn -> A) : A :=
  match body with
  | inr a => a
  | inl e => handler e
  end.

Definition raises {A} (m : M A) : Prop := exists e, m = inl e.

(** Strict comparison on rationals, as a boolean. *)
Definition Qltb (x y : Q) : bool :=
  match (x ?= y)%Q with Lt => true | _ => false end.

(** True division [a / b] of two ints. *)
Definition truediv (a b : Z) : M Q :=
  if b =? 0 then raise ZeroDivisionError
  else ret (inject_Z a / inject_Z b)%Q.

(** [round(x)]: nearest integer, ties to the even one. *)
Definition round (x : Q) : Z :=
  let f := Qfloor x in
  match (x - inject_Z f ?= 1 # 2)%Q with
  | Lt => f
  | Gt => f + 1
  | Eq => if Z.even f then f else f + 1
  end.

(** [round(x, 1)]: nearest multiple of one tenth. *)
Definition round1 (x : Q) : Q :=
  Qred (inject_Z (round (x * 10)) / 10)%Q.

(** [round(x)] on a real number. *)
Definition roundR (x : R) : Z :=
  let f := Int_part x in
  if Rlt_dec (x - IZR f) (1 / 2) then f
  else if Rlt_dec (1 / 2) (x - IZR f) then f + 1
  else if Z.even f then f else f + 1.

(** [sum(...)] of ints. *)
Definition sumZ (l : list Z) : Z := fold_left Z.add l 0.

(** [max(...)] of a non-empty sequence of ints; the first element seeds
    the scan, a later one replaces it only when strictly greater. *)
Definition maxZ (x : Z) (l : list Z) : Z :=
  fold_left (fun m y => if m <? y then y else m) l x.

(** [l.sort(key=key, reverse=True)]: a stable sort into non-increasing
    key order; equal keys keep their relative order. *)
Fixpoint insert_desc {A} (key : A -> Q) (x : A) (l : list A) : list A :=
  match l with
  | [] => [x]
  | y :: l' =>
      if Qltb (key y) (key x) then x :: y :: l'
      else y :: insert_desc key x l'
  end.

Definition sort_desc {A} (key : A -> Q) (l : list A) : list A :=
  fold_left (fun acc x => insert_desc key x acc) l [].

(** The order that [sort_desc] establishes: keys do not increase. *)
Definition desc {A} (key : A -> Q) (a b : A) : Prop := (key b <= key a)%Q.

(** [l[-n:]] *)
Definition last_n {A} (n : nat) (l : list A) : list A :=
  skipn (List.length l - n) l.

End Py.

Notation "x <- c1 ;; c2" := (Py.bind c1 (fun x => c2))
  (at level 61, c1 at next level, right associativity).

(** ** [src/database/db_manager.py]: the rows the analytics code reads *)
Module DatabaseManager.
Import Py.

(** A row of [get_channel_stats]. *)
Record ChannelStat : Type := {
  channel_id : Z;
  message_count : Z;
  unique_users : Z
}.

(** A row of [get_user_stats].  The two timestamps are whole seconds
    since the epoch, [None] for a missing value. *)
Record UserStat : Type := {
  user_id : Z;
  u_message_count : Z;
  channels_used : Z;
  first_message : option Z;
  last_message : option Z
}.

(** The dict of [get_message_stats]; [hourly_data] holds (hour, count)
    rows, most active hour first. *)
Record MessageStats : Type := {
  total_messages : Z;
  active_users : Z;
  hourly_data : list (Z * Z)
}.

(** The three queries used by the analyzers under [analytics/]. *)
Record db_manager : Type := {
  get_message_stats : Z -> Z -> M MessageStats;
  get_channel_stats : Z -> Z -> M (list ChannelStat);
  get_user_stats : Z -> Z -> M (list UserStat)
}.

End DatabaseManager.

(** ** [src/analytics/channel_analyzer.py] *)
Module ChannelAnalyzer.
Import Py DatabaseManager.

Record ActiveChannel : Type := {
  a_id : Z;
  a_messages : Z;
  a_users : Z;
  a_engagement : Q
}.

Record DeadChannel : Type := {
  d_id : Z;
  d_messages : Z;
  d_days_inactive : Z;
  d_last_activity : string
}.

Record DecliningChannel : Type := {
  c_id : Z;
  c_messages : Z;
  c_decline_pct : Q;
  c_users : Z
}.

Record Analysis : Type := {
  active : list ActiveChannel;
  dead : list DeadChannel;
  declining : list DecliningChannel
}.

Definition empty_analysis : Analysis :=
  {| active := []; dead := []; declining := [] |}.

(** [avg_messages = total_messages / len(channel_stats) if channel_stats else 0] *)
Definition avg_messages (channel_stats : list ChannelStat) : Q :=
  match channel_stats with
  | [] => 0%Q
  | _ => (inject_Z (sumZ (map message_count channel_stats))
          / inject_Z (Z.of_nat (List.length channel_stats)))%Q
  end.

Inductive bucket : Type := Active | Dead | Declining.

(** The [if / elif / elif] chain of the loop body. *)
Definition bucket_of (avg : Q) (channel : ChannelStat) : option bucket :=
  let mc := message_count channel in
  if Qle_bool avg (inject_Z mc) && (10 <? mc) then Some Active
  else if mc =? 0 then Some Dead
  else if Qltb (inject_Z mc) (avg * (3 # 10)) then Some Declining
  else None.

(** Whether the chain puts [channel] in bucket [b]. *)
Definition in_bucket (b : bucket) (avg : Q) (channel : ChannelStat)
  : bool :=
  match bucket_of avg channel, b with
  | Some Active, Active | Some Dead, Dead
  | Some Declining, Declining => true
  | _, _ => false
  end.

Definition active_entry (channel : ChannelStat) : ActiveChannel :=
  let mc := message_count channel in
  {| a_id := channel_id channel;
     a_messages := mc;
     a_users := unique_users channel;
     a_engagement :=
       if 0 <? mc
       then round1 (inject_Z (unique_users channel) / inject_Z mc * 100)
       else 0%Q |}.

Definition dead_entry (days : Z) (channel : ChannelStat) : DeadChannel :=
  {| d_id := channel_id channel;
     d_messages := 0;
     d_days_inactive := days;
     d_last_activity := "No recent activity"%string |}.

Definition declining_entry (avg : Q) (channel : ChannelStat)
  : DecliningChannel :=
  let mc := message_count channel in
  {| c_id := channel_id channel;
     c_messages := mc;
     c_decline_pct :=
       if Qltb 0 avg then ((avg - inject_Z mc) / avg * 100)%Q else 0%Q;
     c_users := unique_users channel |}.

(** One iteration of [for channel in channel_stats], appending to one of
    the three lists. *)
Definition categorize (days : Z) (avg : Q) (acc : Analysis)
           (channel : ChannelStat) : Analysis :=
  match bucket_of avg channel with
  | Some Active =>
      {| active := active acc ++ [active_entry channel];
         dead := dead acc;
         declining := declining acc |}
  | Some Dead =>
      {| active := active acc;
         dead := dead acc ++ [dead_entry days channel];
         declining := declining acc |}
  | Some Declining =>
      {| active := active acc;
         dead := dead acc;
         declining := declining acc ++ [declining_entry avg channel] |}
  | None => acc
  end.

(** The body of [analyze_channels] once the rows are fetched. *)
Definition analyze_stats (channel_stats : list ChannelStat) (days : Z)
  : Analysis :=
  match channel_stats with
  | [] => empty_analysis
  | _ =>
      let avg := avg_messages channel_stats in
      let acc := fold_left (categorize days avg) channel_stats
                           empty_analysis in
      {| active :=
           firstn 10 (sort_desc (fun x => inject_Z (a_messages x))
                                (active acc));
         dead := firstn 10 (dead acc);
         declining :=
           firstn 10 (sort_desc c_decline_pct (declining acc)) |}
  end.

Definition analyze_channels (db : db_manager) (guild_id days : Z)
  : Analysis :=
  try_except
    (channel_stats <- get_channel_stats db guild_id days ;;
     ret (analyze_stats channel_stats days))
    (fun _ => empty_analysis).

(** The dict returned by [get_channel_trends]. *)
Record ChannelTrend : Type := {
  t_trend : string;
  t_messages : Z;
  t_users : Z;
  t_peak_times : list Z;
  t_recommendations : list string
}.

(** [next((ch for ch in channel_stats if ch['channel_id'] == channel_id), None)] *)
Definition find_channel (channel_stats : list ChannelStat) (channel_id' : Z)
  : option ChannelStat :=
  find (fun ch => channel_id ch =? channel_id') channel_stats.

Definition trend_no_data : ChannelTrend :=
  {| t_trend := "no_data"%string;
     t_messages := 0;
     t_users := 0;
     t_peak_times := [];
     t_recommendations := ["No activity data available"%string] |}.

Definition trend_error : ChannelTrend :=
  {| t_trend := "error"%string;
     t_messages := 0;
     t_users := 0;
     t_peak_times := [];
     t_recommendations := ["Error analyzing channel"%string] |}.

(** The tier chain of [get_channel_trends] for a found row. *)
Definition trend_of_row (channel_data : ChannelStat) : ChannelTrend :=
  let messages := message_count channel_data in
  let users := unique_users channel_data in
  let '(trend, recommendations) :=
    if 100 <? messages
    then ("growing"%string,
          ["Channel is very active"%string;
           "Consider pinning important messages"%string])
    else if 20 <? messages
    then ("stable"%string,
          ["Good activity level"%string;
           "Encourage more user participation"%string])
    else if 0 <? messages
    then ("declining"%string,
          ["Low activity detected"%string;
           "Consider posting engaging content"%string])
    else ("dead"%string,
          ["No recent activity"%string;
           "Channel may need revitalization"%string]) in
  {| t_trend := trend;
     t_messages := messages;
     t_users := users;
     t_peak_times := [];
     t_recommendations := recommendations |}.

Definition get_channel_trends (db : db_manager)
           (guild_id channel_id' days : Z) : ChannelTrend :=
  try_except
    (channel_stats <- get_channel_stats db guild_id days ;;
     match find_channel channel_stats channel_id' with
     | None => ret trend_no_data
     | Some channel_data => ret (trend_of_row channel_data)
     end)
    (fun _ => trend_error).

(** A suggestion dict of [suggest_channel_improvements]; the count
    carried is the one interpolated in the description. *)
Inductive Improvement : Type :=
| ArchiveDeadChannels (dead_count : nat)
| RevitalizeDecliningChannels
| CreateTopicChannels
| ChannelHealthGood
| ImprovementError.

Definition improvement_title (s : Improvement) : string :=
  match s with
  | ArchiveDeadChannels _ => "Archive Dead Channels"
  | RevitalizeDecliningChannels => "Revitalize Declining Channels"
  | CreateTopicChannels => "Create Topic Channels"
  | ChannelHealthGood => "Channel Health Good"
  | ImprovementError => "Error"
  end%string.

(** The three tests of [suggest_channel_improvements] on an analysis. *)
Definition improvements_of (analysis : Analysis) : list Improvement :=
  let dead_count := List.length (dead analysis) in
  let declining_count := List.length (declining analysis) in
  let active_count := List.length (active analysis) in
  let suggestions :=
    (if (3 <? dead_count)%nat then [ArchiveDeadChannels dead_count] else [])
    ++ (if (active_count <? declining_count)%nat
        then [RevitalizeDecliningChannels] else [])
    ++ (if (active_count <? 3)%nat then [CreateTopicChannels] else []) in
  match suggestions with
  | [] => [ChannelHealthGood]
  | _ => suggestions
  end.

(** [suggest_channel_improvements]: the analysis is made with the default
    window of 7 days. *)
Definition suggest_channel_improvements (db : db_manager) (guild_id : Z)
  : list Improvement :=
  try_except
    (let analysis := analyze_channels db guild_id 7 in
     ret (improvements_of analysis))
    (fun _ => [ImprovementError]).


End ChannelAnalyzer.

(** ** [src/analytics/contributor_analyzer.py] *)
Module ContributorAnalyzer.
Import Py DatabaseManager.

Record Contributor : Type := {
  k_user_id : Z;
  k_score : Q;
  k_messages : Z;
  k_channels_used : Z;
  k_engagement : Q;
  k_consistency : Q;
  k_first_message : option Z;
  k_last_message : option Z
}.

Record RisingStar : Type := {
  s_user_id : Z;
  s_messages : Z;
  s_messages_per_day : Q;
  s_channels_used : Z;
  s_potential : string
}.

(** [_calculate_engagement_rate]: tiers on the average number of
    messages per channel used. *)
Definition _calculate_engagement_rate (user : UserStat) : Q :=
  let messages := u_message_count user in
  let channels := channels_used user in
  if channels =? 0 then 0%Q
  else
    let avg_messages_per_channel :=
      (inject_Z messages / inject_Z channels)%Q in
    if Qle_bool 10 avg_messages_per_channel then 100%Q
    else if Qle_bool 5 avg_messages_per_channel then 80%Q
    else if Qle_bool 2 avg_messages_per_channel then 60%Q
    else if Qle_bool 1 avg_messages_per_channel then 40%Q
    else 20%Q.

(** [(last_message - first_message).days]: whole days, rounded down. *)
Definition time_span_days (first last : Z) : Z := (last - first) / 86400.

(** [_calculate_consistency]: tiers on the span between the first and
    the last message. *)
Definition _calculate_consistency (user : UserStat) : Q :=
  match first_message user, last_message user with
  | Some first, Some last =>
      let time_span := time_span_days first last in
      if 14 <=? time_span then 100%Q
      else if 7 <=? time_span then 80%Q
      else if 3 <=? time_span then 60%Q
      else if 1 <=? time_span then 40%Q
      else 20%Q
  | _, _ => 50%Q
  end.

(** [max(u[field] for u in all_users) if all_users else 1] *)
Definition cohort_max (field : UserStat -> Z) (all_users : list UserStat)
  : Z :=
  match all_users with
  | [] => 1
  | u :: us => maxZ (field u) (map field us)
  end.

Definition max_messages := cohort_max u_message_count.
Definition max_channels := cohort_max channels_used.

(** The four summands of [_calculate_contributor_score]. *)
Definition message_score (user : UserStat) (all_users : list UserStat)
  : Q :=
  let mx := max_messages all_users in
  if 0 <? mx
  then Qmin 40 (inject_Z (u_message_count user) / inject_Z mx * 40)
  else 0%Q.

Definition channel_score (user : UserStat) (all_users : list UserStat)
  : Q :=
  let mx := max_channels all_users in
  if 0 <? mx
  then Qmin 30 (inject_Z (channels_used user) / inject_Z mx * 30)
  else 0%Q.

Definition consistency_score (user : UserStat) : Q :=
  (_calculate_consistency user * (2 # 10))%Q.

Definition engagement_score (user : UserStat) : Q :=
  (_calculate_engagement_rate user * (1 # 10))%Q.

Definition _calculate_contributor_score (user : UserStat)
           (all_users : list UserStat) : Q :=
  let total_score :=
    (message_score user all_users + channel_score user all_users
     + consistency_score user + engagement_score user)%Q in
  round1 total_score.

Definition contributor_of (all_users : list UserStat) (user : UserStat)
  : Contributor :=
  {| k_user_id := user_id user;
     k_score := _calculate_contributor_score user all_users;
     k_messages := u_message_count user;
     k_channels_used := channels_used user;
     k_engagement := _calculate_engagement_rate user;
     k_consistency := _calculate_consistency user;
     k_first_message := first_message user;
     k_last_message := last_message user |}.

(** The body of [get_top_contributors] once the rows are fetched. *)
Definition rank_users (user_stats : list UserStat) : list Contributor :=
  match user_stats with
  | [] => []
  | _ =>
      let contributors := map (contributor_of user_stats) user_stats in
      firstn 20 (sort_desc k_score contributors)
  end.

Definition get_top_contributors (db : db_manager) (guild_id days : Z)
  : list Contributor :=
  try_except
    (user_stats <- get_user_stats db guild_id days ;;
     ret (rank_users user_stats))
    (fun _ => []).

Definition rising_star_of (contributor : Contributor)
           (messages_per_day : Q) : RisingStar :=
  {| s_user_id := k_user_id contributor;
     s_messages := k_messages contributor;
     s_messages_per_day := round1 messages_per_day;
     s_channels_used := k_channels_used contributor;
     s_potential :=
       if Qle_bool 5 messages_per_day then "high"%string
       else "medium"%string |}.

(** The rising-star criteria of the loop body. *)
Definition qualifies (messages_per_day : Q) (channels : Z) : bool :=
  Qle_bool 2 messages_per_day && (2 <=? channels).

(** One iteration of [for contributor in recent_contributors]; the
    division by [days] raises when [days] is zero. *)
Definition rising_step (days : Z) (acc : M (list RisingStar))
           (contributor : Contributor) : M (list RisingStar) :=
  rising_stars <- acc ;;
  messages_per_day <- truediv (k_messages contributor) days ;;
  if qualifies messages_per_day (k_channels_used contributor)
  then ret (rising_stars ++ [rising_star_of contributor messages_per_day])
  else ret rising_stars.

Definition identify_rising_stars (db : db_manager) (guild_id days : Z)
  : list RisingStar :=
  try_except
    (let recent_contributors := get_top_contributors db guild_id days in
     rising_stars <-
       fold_left (rising_step days) recent_contributors (ret []) ;;
     ret (firstn 10 (sort_desc s_messages_per_day rising_stars)))
    (fun _ => []).

(** The dict returned by [analyze_contributor_trends]; the keys that only
    the regular result carries are optional. *)
Record ContributorTrend : Type := {
  ct_trend : string;
  ct_score : Q;
  ct_rank : Z;
  ct_total_contributors : option Z;
  ct_messages : option Z;
  ct_channels_used : option Z;
  ct_recommendations : list string
}.

(** [next((user for user in user_stats if user['user_id'] == user_id), None)] *)
Definition find_user (user_stats : list UserStat) (user_id' : Z)
  : option UserStat :=
  find (fun u => user_id u =? user_id') user_stats.

(** [next((i + 1 for i, contrib in enumerate(all_contributors)
          if contrib['user_id'] == user_id), 0)], counting from [i]. *)
Fixpoint rank_from (i : Z) (all_contributors : list Contributor)
         (user_id' : Z) : Z :=
  match all_contributors with
  | [] => 0
  | contrib :: rest =>
      if k_user_id contrib =? user_id' then i + 1
      else rank_from (i + 1) rest user_id'
  end.

Definition rank_of (all_contributors : list Contributor) (user_id' : Z) : Z :=
  rank_from 0 all_contributors user_id'.

Definition contributor_no_data : ContributorTrend :=
  {| ct_trend := "no_data"%string;
     ct_score := 0%Q;
     ct_rank := 0;
     ct_total_contributors := None;
     ct_messages := None;
     ct_channels_used := None;
     ct_recommendations := ["No activity data available"%string] |}.

Definition contributor_error : ContributorTrend :=
  {| ct_trend := "error"%string;
     ct_score := 0%Q;
     ct_rank := 0;
     ct_total_contributors := None;
     ct_messages := None;
     ct_channels_used := None;
     ct_recommendations := ["Error analyzing contributor"%string] |}.

(** The tier chain of [analyze_contributor_trends] on the score. *)
Definition trend_of_score (score : Q) : string * list string :=
  if Qle_bool 80 score
  then ("excellent"%string,
        ["Outstanding contributor!"%string;
         "Consider community recognition"%string])
  else if Qle_bool 60 score
  then ("good"%string,
        ["Great contributions"%string; "Keep up the engagement"%string])
  else if Qle_bool 40 score
  then ("moderate"%string,
        ["Good participation"%string;
         "Try engaging in more channels"%string])
  else ("low"%string,
        ["Encourage more participation"%string;
         "Welcome them to discussions"%string]).

(** [analyze_contributor_trends]: the score is computed against the
    cohort made of the user alone, the rank is read off
    [get_top_contributors]. *)
Definition analyze_contributor_trends (db : db_manager)
           (guild_id user_id' days : Z) : ContributorTrend :=
  try_except
    (user_stats <- get_user_stats db guild_id days ;;
     match find_user user_stats user_id' with
     | None => ret contributor_no_data
     | Some user_data =>
         let all_contributors := get_top_contributors db guild_id days in
         let user_rank := rank_of all_contributors user_id' in
         let score := _calculate_contributor_score user_data [user_data] in
         let '(trend, recommendations) := trend_of_score score in
         ret {| ct_trend := trend;
                ct_score := score;
                ct_rank := user_rank;
                ct_total_contributors :=
                  Some (Z.of_nat (List.length all_contributors));
                ct_messages := Some (u_message_count user_data);
                ct_channels_used := Some (channels_used user_data);
                ct_recommendations := recommendations |}
     end)
    (fun _ => contributor_error).


End ContributorAnalyzer.

(** ** [src/analytics/health_analyzer.py]: the tiered variant used by the
    bot commands *)
Module AnalyticsHealthAnalyzer.
Import Py DatabaseManager.

Record Pulse : Type := {
  trend : Q;
  active_members : Z;
  total_members : Z;
  p_total_messages : Z;
  peak_hours : list Z;
  quiet_channels : list Z;
  low_confidence : bool;
  confidence_warning : option string
}.

(** The dict returned by [_get_previous_period_stats]. *)
Record PreviousStats : Type := { prev_total_messages : option Z }.

(** [_get_previous_period_stats]: no query is made, the total is the
    literal zero. *)
Definition _get_previous_period_stats (guild_id days : Z)
  : PreviousStats :=
  {| prev_total_messages := Some 0 |}.

(** [previous_stats.get('total_messages', 0)] *)
Definition get_total_messages (previous_stats : PreviousStats) : Z :=
  match prev_total_messages previous_stats with
  | Some n => n
  | None => 0
  end.

Definition pulse_error : Pulse :=
  {| trend := 0%Q;
     active_members := 0;
     total_members := 0;
     p_total_messages := 0;
     peak_hours := [];
     quiet_channels := [];
     low_confidence := true;
     confidence_warning := Some "Error retrieving data"%string |}.

Definition get_pulse (db : db_manager) (guild_id days : Z) : Pulse :=
  try_except
    (current_stats <- get_message_stats db guild_id days ;;
     let previous_stats := _get_previous_period_stats guild_id days in
     let current_messages := total_messages current_stats in
     let previous_messages := get_total_messages previous_stats in
     let trend :=
       if 0 <? previous_messages
       then (inject_Z (current_messages - previous_messages)
             / inject_Z previous_messages * 100)%Q
       else 0%Q in
     let peak_hours :=
       match hourly_data current_stats with
       | [] => []
       | rows => map fst (firstn 3 rows)
       end in
     channel_stats <- get_channel_stats db guild_id days ;;
     let quiet_channels := map channel_id (last_n 3 channel_stats) in
     ret {| trend := trend;
            active_members := active_users current_stats;
            total_members := active_users current_stats;
            p_total_messages := current_messages;
            peak_hours := peak_hours;
            quiet_channels := quiet_channels;
            low_confidence := current_messages <? 10;
            confidence_warning :=
              if current_messages <? 10
              then Some "Limited data available"%string
              else None |})
    (fun _ => pulse_error).

Inductive metric_name : Type :=
| Activity | Engagement | Diversity | Consistency.

Record Health : Type := {
  score : Z;
  summary : string;
  metrics : list (metric_name * Z);
  recommendations : list string
}.

Definition _calculate_activity_score (message_stats : MessageStats) : Z :=
  let messages_per_day := (inject_Z (total_messages message_stats) / 7)%Q in
  if Qle_bool 100 messages_per_day then 100
  else if Qle_bool 50 messages_per_day then 80
  else if Qle_bool 20 messages_per_day then 60
  else if Qle_bool 5 messages_per_day then 40
  else if Qle_bool 1 messages_per_day then 20
  else 0.

Definition _calculate_engagement_score (user_stats : list UserStat) : Z :=
  match user_stats with
  | [] => 0
  | _ =>
      let active_users := Z.of_nat (List.length user_stats) in
      let total_messages := sumZ (map u_message_count user_stats) in
      let avg_messages_per_user :=
        if 0 <? active_users
        then (inject_Z total_messages / inject_Z active_users)%Q
        else 0%Q in
      if Qle_bool 20 avg_messages_per_user then 100
      else if Qle_bool 10 avg_messages_per_user then 80
      else if Qle_bool 5 avg_messages_per_user then 60
      else if Qle_bool 2 avg_messages_per_user then 40
      else if Qle_bool 1 avg_messages_per_user then 20
      else 0
  end.

Definition _calculate_diversity_score (channel_stats : list ChannelStat)
  : Z :=
  match channel_stats with
  | [] => 0
  | _ =>
      let active_channels := Z.of_nat (List.length channel_stats) in
      if 10 <=? active_channels then 100
      else if 7 <=? active_channels then 80
      else if 5 <=? active_channels then 60
      else if 3 <=? active_channels then 40
      else if 1 <=? active_channels then 20
      else 0
  end.

Definition _calculate_consistency_score (message_stats : MessageStats)
  : Z :=
  match hourly_data message_stats with
  | [] => 0
  | rows =>
      if sumZ (map snd rows) =? 0 then 0
      else
        let active_hours := Z.of_nat (List.length rows) in
        if 12 <=? active_hours then 100
        else if 8 <=? active_hours then 80
        else if 6 <=? active_hours then 60
        else if 4 <=? active_hours then 40
        else if 2 <=? active_hours then 20
        else 0
  end.

Definition _generate_recommendations
           (activity engagement diversity consistency : Z) : list string :=
  let recommendations :=
    (if activity <? 50
     then ["Increase overall activity with events and discussions"%string]
     else [])
    ++ (if engagement <? 50
        then ["Encourage more user participation with interactive content"%string]
        else [])
    ++ (if diversity <? 50
        then ["Create more topic-specific channels"%string]
        else [])
    ++ (if consistency <? 50
        then ["Promote activity during different time zones"%string]
        else []) in
  match recommendations with
  | [] =>
      ["Great job! Keep maintaining your current engagement strategies"%string]
  | _ => recommendations
  end.

(** [int(x)]: truncation toward zero. *)
Definition int_of (x : Q) : Z := Z.quot (Qnum x) (Z.pos (Qden x)).

Definition health_error : Health :=
  {| score := 0;
     summary := "Unable to calculate health score"%string;
     metrics := [];
     recommendations := ["Check bot permissions and try again"%string] |}.

Definition calculate_health_score (db : db_manager) (guild_id : Z)
  : Health :=
  try_except
    (message_stats <- get_message_stats db guild_id 7 ;;
     channel_stats <- get_channel_stats db guild_id 7 ;;
     user_stats <- get_user_stats db guild_id 30 ;;
     let activity_score := _calculate_activity_score message_stats in
     let engagement_score := _calculate_engagement_score user_stats in
     let diversity_score := _calculate_diversity_score channel_stats in
     let consistency_score := _calculate_consistency_score message_stats in
     let overall_score :=
       int_of (inject_Z activity_score * (3 # 10)
               + inject_Z engagement_score * (3 # 10)
               + inject_Z diversity_score * (2 # 10)
               + inject_Z consistency_score * (2 # 10))%Q in
     let summary :=
       if 80 <=? overall_score
       then "Excellent! Your server is thriving with high activity and engagement."%string
       else if 60 <=? overall_score
       then "Good health! Some areas could use improvement."%string
       else if 40 <=? overall_score
       then "Moderate health. Consider implementing engagement strategies."%string
       else "Needs attention. Low activity detected."%string in
     ret {| score := overall_score;
            summary := summary;
            metrics := [(Activity, activity_score);
                        (Engagement, engagement_score);
                        (Diversity, diversity_score);
                        (Consistency, consistency_score)];
            recommendations :=
              _generate_recommendations activity_score engagement_score
                                        diversity_score consistency_score |})
    (fun _ => health_error).

Record Suggestion : Type := { title : string; description : string }.

Definition suggestion (title description : string) : Suggestion :=
  {| title := title; description := description |}.

Definition generate_suggestions (db : db_manager) (guild_id : Z)
  : list Suggestion :=
  try_except
    (let health_data := calculate_health_score db guild_id in
     let score := score health_data in
     if score <? 40 then
       ret [ suggestion "Boost Activity"
               "Consider hosting events or creating discussion topics to increase engagement";
             suggestion "Welcome New Members"
               "Set up a welcoming system to help new members feel included" ]
     else if score <? 70 then
       ret [ suggestion "Diversify Channels"
               "Create topic-specific channels to encourage different types of discussions";
             suggestion "Regular Events"
               "Schedule weekly events or activities to maintain consistent engagement" ]
     else
       ret [ suggestion "Maintain Momentum"
               "Your server is doing great! Keep up the current strategies";
             suggestion "Community Recognition"
               "Consider highlighting active members to encourage continued participation" ])
    (fun _ => [ suggestion "Error" "Unable to generate suggestions" ]).

End AnalyticsHealthAnalyzer.

(** ** [src/health_analyzer.py]: the entropy and confidence aware variant *)
Module HealthAnalyzer.
Import Py.

(** A row of [get_channel_activity]. *)
Record ChannelActivity : Type := {
  ch_channel_id : Z;
  ch_message_count : Z
}.

(** The dict of [get_join_leave_stats]. *)
Record JoinLeave : Type := {
  joins : Z;
  leaves : Z;
  retention_rate : Q
}.

(** The query methods this variant calls on [self.db].  They belong to
    the storage collaborator: [src/database/db_manager.py] does not
    define them, so the analyzer is parameterised by any provider of
    them. *)
Record StatsProvider : Type := {
  get_message_count : Z -> Z -> M Z;
  get_active_users : Z -> Z -> M Z;
  get_activity_trend : Z -> Z -> M Q;
  get_peak_hours : Z -> Z -> M (list Z);
  get_quiet_channels : Z -> Z -> M (list Z);
  get_join_leave_stats : Z -> Z -> M JoinLeave;
  get_channel_activity : Z -> Z -> M (list ChannelActivity)
}.

(** [_calculate_confidence]: the division is not guarded. *)
Definition _calculate_confidence (message_count days : Z) : M Q :=
  let target_messages := days * 10 in
  q <- truediv message_count target_messages ;;
  ret (Qmin 1 q).

Inductive warning : Type := VeryLimitedData | LimitedData.

Record Pulse : Type := {
  total_messages : Z;
  active_members : Z;
  total_members : Z;
  trend : Q;
  peak_hours : list Z;
  quiet_channels : list Z;
  days_analyzed : Z;
  p_confidence : Q;
  p_low_confidence : bool;
  confidence_warning : option warning
}.

(** [get_pulse]: no handler, a failing query or a failing confidence
    computation reaches the caller. *)
Definition get_pulse (db : StatsProvider) (guild_id days : Z) : M Pulse :=
  total_messages <- get_message_count db guild_id days ;;
  active_members <- get_active_users db guild_id days ;;
  trend <- get_activity_trend db guild_id days ;;
  peak_hours <- get_peak_hours db guild_id days ;;
  quiet_channels <- get_quiet_channels db guild_id days ;;
  let total_members := active_members in
  confidence <- _calculate_confidence total_messages days ;;
  let low_confidence := Qltb confidence (1 # 2) in
  let confidence_warning :=
    if low_confidence
    then if total_messages <? 50 then Some VeryLimitedData
         else Some LimitedData
    else None in
  ret {| total_messages := total_messages;
         active_members := active_members;
         total_members := total_members;
         trend := trend;
         peak_hours := peak_hours;
         quiet_channels := quiet_channels;
         days_analyzed := days;
         p_confidence := confidence;
         p_low_confidence := low_confidence;
         confidence_warning := confidence_warning |}.

(** *** Component scores *)

Inductive metric_name : Type :=
| Activity | Growth | Engagement | ChannelHealth.

(** The [scores] dict, keys in insertion order. *)
Record Scores : Type := {
  s_activity : R;
  s_growth : R;
  s_engagement : R;
  s_channel_health : R
}.

(** The ['metrics'] dict of the result: every score rounded. *)
Record Metrics : Type := {
  m_activity : Z;
  m_growth : Z;
  m_engagement : Z;
  m_channel_health : Z
}.

Definition activity_score (messages_30d active_users_30d : Z) : R :=
  if 0 <? active_users_30d
  then
    let msgs_per_user_per_day :=
      (IZR messages_30d / IZR (active_users_30d * 30))%R in
    Rmin 100 (msgs_per_user_per_day * 20)
  else 0%R.

Definition growth_score (trend : Q) (join_leave : JoinLeave) : R :=
  let growth_score :=
    (50 + Rmin 25 (Rmax (-25) (Q2R trend * (5 / 10)))
     + Rmin 25 (Q2R (retention_rate join_leave) * (25 / 100)))%R in
  Rmax 0 (Rmin 100 growth_score).

Definition engagement_score (active_users_7d active_users_30d : Z) : R :=
  if 0 <? active_users_30d
  then
    let engagement_ratio := (IZR active_users_7d / IZR active_users_30d)%R in
    (engagement_ratio * 100)%R
  else 0%R.

(** [math.log2]: a domain error outside the positive reals. *)
Definition log2 (x : R) : M R :=
  if Rlt_dec 0 x then ret (ln x / ln 2)%R else raise ValueError.

(** True division of two ints, as a real number. *)
Definition truedivR (a b : Z) : M R :=
  if b =? 0 then raise ZeroDivisionError else ret (IZR a / IZR b)%R.

(** One iteration of the entropy loop. *)
Definition entropy_step (total_msgs : Z) (acc : M R)
           (ch : ChannelActivity) : M R :=
  entropy <- acc ;;
  if 0 <? ch_message_count ch
  then
    p <- truedivR (ch_message_count ch) total_msgs ;;
    l <- log2 p ;;
    ret (entropy - p * l)%R
  else ret entropy.

Definition channel_health_score (channel_activity : list ChannelActivity)
  : M R :=
  match channel_activity with
  | [] => ret 0%R
  | _ =>
      let total_msgs := sumZ (map ch_message_count channel_activity) in
      entropy <-
        fold_left (entropy_step total_msgs) channel_activity (ret 0%R) ;;
      max_entropy <-
        (if (1 <? List.length channel_activity)%nat
         then log2 (INR (List.length channel_activity))
         else ret 1%R) ;;
      ret (if Rlt_dec 0 max_entropy
           then (entropy / max_entropy * 100)%R
           else 50%R)
  end.

(** The quantities of the entropy loop in closed form: the share [p] of a
    row, the sum that the loop accumulates, the total share of the rows
    with messages and their number. *)
Definition share (total_msgs : Z) (ch : ChannelActivity) : R :=
  (IZR (ch_message_count ch) / IZR total_msgs)%R.

Fixpoint entropy_sum (total_msgs : Z) (l : list ChannelActivity) : R :=
  match l with
  | [] => 0%R
  | ch :: l' =>
      ((if 0 <? ch_message_count ch
        then - (share total_msgs ch * (ln (share total_msgs ch) / ln 2))
        else 0)
       + entropy_sum total_msgs l')%R
  end.

Fixpoint active_share (total_msgs : Z) (l : list ChannelActivity) : R :=
  match l with
  | [] => 0%R
  | ch :: l' =>
      ((if 0 <? ch_message_count ch then share total_msgs ch else 0)
       + active_share total_msgs l')%R
  end.

Fixpoint active_count (l : list ChannelActivity) : nat :=
  match l with
  | [] => 0%nat
  | ch :: l' =>
      (if 0 <? ch_message_count ch then S (active_count l')
       else active_count l')
  end.

(** [sum(scores[metric] * weights[metric] for metric in scores)] *)
Definition weighted (a g e c : R) : R :=
  (0 + a * (35 / 100) + g * (25 / 100) + e * (25 / 100)
   + c * (15 / 100))%R.

Definition overall_of (scores : Scores) : R :=
  weighted (s_activity scores) (s_growth scores) (s_engagement scores)
           (s_channel_health scores).

(** [min(scores.items(), key=lambda x: x[1])]: the first smallest item. *)
Definition lowest_of (scores : Scores) : metric_name :=
  let step (best : metric_name * R) (item : metric_name * R) :=
    if Rlt_dec (snd item) (snd best) then item else best in
  fst (fold_left step
         [(Growth, s_growth scores); (Engagement, s_engagement scores);
          (ChannelHealth, s_channel_health scores)]
         (Activity, s_activity scores)).

Inductive tier : Type := Excellent | Good | Moderate | Critical.

Definition tier_of (overall_score : R) : tier :=
  if Rle_dec 80 overall_score then Excellent
  else if Rle_dec 60 overall_score then Good
  else if Rle_dec 40 overall_score then Moderate
  else Critical.

(** The lines that can enter [recommendations]. *)
Inductive recommendation : Type :=
| PriorityGuidance (t : tier)
| LowActivity
| DecliningFast
| MembersLeaving
| MostlyLurking
| TooManyChannels
| TooConcentrated.

Definition recommendations_of (overall_score : R) (scores : Scores)
           (trend : Q) (join_leave : JoinLeave)
           (channel_activity : list ChannelActivity)
  : list recommendation :=
  (if Rlt_dec overall_score 80
   then [PriorityGuidance (tier_of overall_score)] else [])
  ++ (if Rlt_dec (s_activity scores) 50 then [LowActivity] else [])
  ++ (if Rlt_dec (s_growth scores) 50
      then (if Qltb trend (-10) then [DecliningFast] else [])
           ++ (if Qltb (retention_rate join_leave) 50
               then [MembersLeaving] else [])
      else [])
  ++ (if Rlt_dec (s_engagement scores) 50 then [MostlyLurking] else [])
  ++ (if Rlt_dec (s_channel_health scores) 50
      then if (10 <? List.length channel_activity)%nat
           then [TooManyChannels] else [TooConcentrated]
      else []).

(** [summary + score_context]: the tier sentence, whether the note on
    scores below 60 follows, and the confidence shown by the data
    quality note when there is one. *)
Record Summary : Type := {
  sentence : tier;
  below_60_note : bool;
  data_quality_note : option Q
}.

Record HealthScore : Type := {
  score : Z;
  metrics : Metrics;
  summary : Summary;
  recommendations : list recommendation;
  lowest_metric : metric_name;
  confidence : Q;
  low_confidence : bool
}.

(** The component scores computed from the fetched data. *)
Definition scores_of (messages_30d active_users_30d active_users_7d : Z)
           (trend : Q) (join_leave : JoinLeave)
           (channel_activity : list ChannelActivity) : M Scores :=
  channel_score <- channel_health_score channel_activity ;;
  ret {| s_activity := activity_score messages_30d active_users_30d;
         s_growth := growth_score trend join_leave;
         s_engagement := engagement_score active_users_7d active_users_30d;
         s_channel_health := channel_score |}.

(** The body of [calculate_health_score] once the data is fetched. *)
Definition health_of (messages_30d active_users_30d active_users_7d : Z)
           (trend : Q) (join_leave : JoinLeave)
           (channel_activity : list ChannelActivity) : M HealthScore :=
  confidence <- _calculate_confidence messages_30d 30 ;;
  let low_confidence := Qltb confidence (1 # 2) in
  scores <- scores_of messages_30d active_users_30d active_users_7d
                      trend join_leave channel_activity ;;
  let overall_score := overall_of scores in
  ret {| score := roundR overall_score;
         metrics :=
           {| m_activity := roundR (s_activity scores);
              m_growth := roundR (s_growth scores);
              m_engagement := roundR (s_engagement scores);
              m_channel_health := roundR (s_channel_health scores) |};
         summary :=
           {| sentence := tier_of overall_score;
              below_60_note :=
                if Rlt_dec overall_score 60 then true else false;
              data_quality_note :=
                if low_confidence then Some confidence else None |};
         recommendations :=
           recommendations_of overall_score scores trend join_leave
                              channel_activity;
         lowest_metric := lowest_of scores;
         confidence := confidence;
         low_confidence := low_confidence |}.

(** [calculate_health_score]: six queries, no handler. *)
Definition calculate_health_score (db : StatsProvider) (guild_id : Z)
  : M HealthScore :=
  messages_30d <- get_message_count db guild_id 30 ;;
  active_users_30d <- get_active_users db guild_id 30 ;;
  active_users_7d <- get_active_users db guild_id 7 ;;
  trend <- get_activity_trend db guild_id 7 ;;
  join_leave <- get_join_leave_stats db guild_id 30 ;;
  channel_activity <- get_channel_activity db guild_id 30 ;;
  health_of messages_30d active_users_30d active_users_7d trend
            join_leave channel_activity.

(** The weighted sum of the four values that the result reports in its
    ['metrics'] mapping. *)
Definition weighted_metrics (m : Metrics) : R :=
  weighted (IZR (m_activity m)) (IZR (m_growth m))
           (IZR (m_engagement m)) (IZR (m_channel_health m)).

(** *** Suggestions *)

(** A suggestion dict; the value carried is the one interpolated in its
    description. *)
Inductive Suggestion : Type :=
| ActivityDecline (magnitude : Q)
| ConsolidateChannels (count : nat)
| ImproveOnboarding (retention : Q)
| OptimizeEventTiming (hour : Z)
| CapitalizeOnGrowth (trend : Q)
| ServerLooksHealthy.

Definition title (s : Suggestion) : string :=
  match s with
  | ActivityDecline _ => "Activity Decline Detected"
  | ConsolidateChannels _ => "Consolidate Channels"
  | ImproveOnboarding _ => "Improve Onboarding"
  | OptimizeEventTiming _ => "Optimize Event Timing"
  | CapitalizeOnGrowth _ => "Capitalize on Growth"
  | ServerLooksHealthy => "Server Looks Healthy"
  end%string.

(** The five patterns, each tested on its own, in source order. *)
Definition pattern1 (trend : Q) : list Suggestion :=
  if Qltb trend (-15) then [ActivityDecline (Qabs trend)] else [].

Definition pattern2 (channel_activity : list ChannelActivity)
  : list Suggestion :=
  let dead_channels :=
    filter (fun ch => ch_message_count ch <? 5) channel_activity in
  if (3 <? List.length dead_channels)%nat
  then [ConsolidateChannels (List.length dead_channels)] else [].

Definition pattern3 (join_leave : JoinLeave) : list Suggestion :=
  if Qltb (retention_rate join_leave) 60 && (10 <? joins join_leave)
  then [ImproveOnboarding (retention_rate join_leave)] else [].

Definition pattern4 (peak_hours : list Z) : list Suggestion :=
  match peak_hours with
  | [] => []
  | h :: _ => [OptimizeEventTiming h]
  end.

Definition pattern5 (trend : Q) : list Suggestion :=
  if Qltb 25 trend then [CapitalizeOnGrowth trend] else [].

(** The body of [generate_suggestions] once the data is fetched. *)
Definition suggestions_of (trend : Q)
           (channel_activity : list ChannelActivity)
           (join_leave : JoinLeave) (peak_hours : list Z)
  : list Suggestion :=
  let suggestions :=
    pattern1 trend ++ pattern2 channel_activity ++ pattern3 join_leave
    ++ pattern4 peak_hours ++ pattern5 trend in
  match suggestions with
  | [] => [ServerLooksHealthy]
  | _ => suggestions
  end.

(** [generate_suggestions]: four queries, no handler. *)
Definition generate_suggestions (db : StatsProvider) (guild_id : Z)
  : M (list Suggestion) :=
  trend <- get_activity_trend db guild_id 7 ;;
  channel_activity <- get_channel_activity db guild_id 30 ;;
  join_leave <- get_join_leave_stats db guild_id 30 ;;
  peak_hours <- get_peak_hours db guild_id 30 ;;
  ret (suggestions_of trend channel_activity join_leave peak_hours).

End HealthAnalyzer.

(** ** Python floats: IEEE 754 binary64

    Where the last place of a double decides (which integer a score
    rounds to, on which side of a threshold it falls) the code is embedded
    over this model rather than over exact numbers. *)
Module Float.
Import Py.

(** A double is a finite value, an infinity or a NaN.  The finite values
    are the rationals [m * 2 ^ e] with [|m| < 2 ^ 53] and
    [-1074 <= e <= 971].  The sign of a zero is not kept: no modelled
    operation tells the two zeros apart. *)
Inductive float : Type :=
| Finite (x : Q)
| Infinity (negative : bool)
| NaN.

(** [floor (log2 |x|)] of a non-zero rational. *)
Definition ilog2 (x : Q) : Z :=
  let d := Z.log2 (Z.abs (Qnum x)) - Z.log2 (Zpos (Qden x)) in
  if Qle_bool (2 ^ d) (Qabs x) then d else d - 1.

(** The exponent of the last place of the doubles next to [x]: 52 places
    below the leading bit, and never below the subnormal spacing. *)
Definition ulp_exponent (x : Q) : Z := Z.max (ilog2 x - 52) (-1074).

(** The double nearest to [x], ties to the even significand; beyond the
    largest double the result is an infinity. *)
Definition rnd (x : Q) : float :=
  if Qeq_bool x 0 then Finite 0
  else
    let e := ulp_exponent x in
    let y := (inject_Z (Py.round (x / 2 ^ e)) * 2 ^ e)%Q in
    if Qle_bool (2 ^ 1024) (Qabs y) then Infinity (Qltb x 0)
    else Finite (Qred y).

(** An int used as a float.  A decimal literal such as [0.35] is
    [rnd (35 # 100)]. *)
Definition of_Z (z : Z) : float := rnd (inject_Z z).

Definition negative (x : Q) : bool := Qltb x 0.

Definition opp (a : float) : float :=
  match a with
  | Finite x => Finite (Qred (- x))
  | Infinity s => Infinity (negb s)
  | NaN => NaN
  end.

(** [a + b], [a - b], [a * b]: the exact result, rounded. *)
Definition add (a b : float) : float :=
  match a, b with
  | NaN, _ | _, NaN => NaN
  | Infinity s, Infinity t => if Bool.eqb s t then Infinity s else NaN
  | Infinity s, Finite _ | Finite _, Infinity s => Infinity s
  | Finite x, Finite y => rnd (x + y)
  end.

Definition sub (a b : float) : float := add a (opp b).

Definition mul (a b : float) : float :=
  match a, b with
  | NaN, _ | _, NaN => NaN
  | Infinity s, Infinity t => Infinity (xorb s t)
  | Infinity s, Finite y | Finite y, Infinity s =>
      if Qeq_bool y 0 then NaN else Infinity (xorb s (negative y))
  | Finite x, Finite y => rnd (x * y)
  end.

(** [a / b] on floats: a zero divisor raises. *)
Definition div (a b : float) : M float :=
  match b with
  | NaN => ret NaN
  | Finite y =>
      if Qeq_bool y 0 then raise ZeroDivisionError
      else match a with
           | Finite x => ret (rnd (x / y))
           | Infinity s => ret (Infinity (xorb s (negative y)))
           | NaN => ret NaN
           end
  | Infinity _ =>
      match a with
      | Finite _ => ret (Finite 0)
      | _ => ret NaN
      end
  end.

(** [a / b] on ints: the exact quotient rounded once; a quotient beyond
    the largest double raises. *)
Definition truediv (a b : Z) : M float :=
  if b =? 0 then raise ZeroDivisionError
  else match rnd (inject_Z a / inject_Z b) with
       | Finite q => ret (Finite q)
       | _ => raise OverflowError
       end.

(** [a < b] and [a >= b]: false as soon as one side is a NaN. *)
Definition ltb (a b : float) : bool :=
  match a, b with
  | NaN, _ | _, NaN => false
  | Finite x, Finite y => Qltb x y
  | Finite _, Infinity s => negb s
  | Infinity s, Finite _ => s
  | Infinity s, Infinity t => s && negb t
  end.

Definition geb (a b : float) : bool :=
  match a, b with
  | NaN, _ | _, NaN => false
  | _, _ => negb (ltb a b)
  end.

(** [min(a, b)] and [max(a, b)]: the second argument replaces the first
    only when it is strictly smaller (greater). *)
Definition min2 (a b : float) : float := if ltb b a then b else a.
Definition max2 (a b : float) : float := if ltb a b then b else a.

(** [round(a)]: the nearest int, ties to the even one; an infinity and a
    NaN raise. *)
Definition round (a : float) : M Z :=
  match a with
  | Finite x => ret (Py.round x)
  | Infinity _ => raise OverflowError
  | NaN => raise ValueError
  end.

(** [math.log2(a)], given the C library's function [log2] for the
    arguments it accepts. *)
Definition math_log2 (log2 : float -> float) (a : float) : M float :=
  match a with
  | NaN => ret NaN
  | _ => if ltb (Finite 0) a then ret (log2 a) else raise ValueError
  end.

End Float.

(** ** [src/health_analyzer.py]: [calculate_health_score] in double
    precision

    The function of [HealthAnalyzer] once more, every operation rounded
    as the interpreter rounds it.  [math.log2] is computed by the C
    library; the model takes it as the parameter [log2]. *)
Module FloatHealthAnalyzer.
Import Py HealthAnalyzer Float.

Record JoinLeave : Type := {
  joins : Z;
  leaves : Z;
  retention_rate : float
}.

Record StatsProvider : Type := {
  get_message_count : Z -> Z -> M Z;
  get_active_users : Z -> Z -> M Z;
  get_activity_trend : Z -> Z -> M float;
  get_peak_hours : Z -> Z -> M (list Z);
  get_quiet_channels : Z -> Z -> M (list Z);
  get_join_leave_stats : Z -> Z -> M JoinLeave;
  get_channel_activity : Z -> Z -> M (list ChannelActivity)
}.

Definition _calculate_confidence (message_count days : Z) : M float :=
  let target_messages := days * 10 in
  q <- Float.truediv message_count target_messages ;;
  ret (min2 (of_Z 1) q).

(** The [scores] dict, keys in insertion order. *)
Record Scores : Type := {
  s_activity : float;
  s_growth : float;
  s_engagement : float;
  s_channel_health : float
}.

Definition activity_score (messages_30d active_users_30d : Z) : M float :=
  if 0 <? active_users_30d
  then
    msgs_per_user_per_day <-
      Float.truediv messages_30d (active_users_30d * 30) ;;
    ret (min2 (of_Z 100) (mul msgs_per_user_per_day (of_Z 20)))
  else ret (of_Z 0).

Definition growth_score (trend : float) (join_leave : JoinLeave) : float :=
  let growth_score := of_Z 50 in
  let growth_score :=
    add growth_score
        (min2 (of_Z 25) (max2 (of_Z (-25)) (mul trend (rnd (5 # 10))))) in
  let growth_score :=
    add growth_score
        (min2 (of_Z 25)
              (mul (retention_rate join_leave) (rnd (25 # 100)))) in
  max2 (of_Z 0) (min2 (of_Z 100) growth_score).

Definition engagement_score (active_users_7d active_users_30d : Z)
  : M float :=
  if 0 <? active_users_30d
  then
    engagement_ratio <- Float.truediv active_users_7d active_users_30d ;;
    ret (mul engagement_ratio (of_Z 100))
  else ret (of_Z 0).

(** One iteration of the entropy loop. *)
Definition entropy_step (log2 : float -> float) (total_msgs : Z)
           (acc : M float) (ch : ChannelActivity) : M float :=
  entropy <- acc ;;
  if 0 <? ch_message_count ch
  then
    p <- Float.truediv (ch_message_count ch) total_msgs ;;
    l <- math_log2 log2 p ;;
    ret (sub entropy (mul p l))
  else ret entropy.

Definition channel_health_score (log2 : float -> float)
           (channel_activity : list ChannelActivity) : M float :=
  match channel_activity with
  | [] => ret (of_Z 0)
  | _ =>
      let total_msgs := sumZ (map ch_message_count channel_activity) in
      entropy <-
        fold_left (entropy_step log2 total_msgs) channel_activity
                  (ret (of_Z 0)) ;;
      max_entropy <-
        (if (1 <? List.length channel_activity)%nat
         then math_log2 log2
                (of_Z (Z.of_nat (List.length channel_activity)))
         else ret (of_Z 1)) ;;
      if ltb (of_Z 0) max_entropy
      then q <- div entropy max_entropy ;; ret (mul q (of_Z 100))
      else ret (of_Z 50)
  end.

(** The [weights] dict. *)
Definition weight (m : metric_name) : float :=
  match m with
  | Activity => rnd (35 # 100)
  | Growth => rnd (25 # 100)
  | Engagement => rnd (25 # 100)
  | ChannelHealth => rnd (15 # 100)
  end.

Definition items (scores : Scores) : list (metric_name * float) :=
  [(Activity, s_activity scores); (Growth, s_growth scores);
   (Engagement, s_engagement scores);
   (ChannelHealth, s_channel_health scores)].

(** [sum(scores[metric] * weights[metric] for metric in scores)]: from
    the int 0, one rounded addition per product, in the order of the
    dict.  This is the plain loop of CPython up to 3.11; from 3.12 on
    [sum] also carries a correction term for the additions of floats. *)
Definition overall_of (scores : Scores) : float :=
  fold_left (fun acc item => add acc (mul (snd item) (weight (fst item))))
            (items scores) (of_Z 0).

(** [min(scores.items(), key=lambda x: x[1])]: the first smallest item. *)
Definition lowest_of (scores : Scores) : metric_name :=
  let step (best item : metric_name * float) :=
    if ltb (snd item) (snd best) then item else best in
  fst (fold_left step (tl (items scores)) (Activity, s_activity scores)).

Definition tier_of (overall_score : float) : tier :=
  if geb overall_score (of_Z 80) then Excellent
  else if geb overall_score (of_Z 60) then Good
  else if geb overall_score (of_Z 40) then Moderate
  else Critical.

Definition recommendations_of (overall_score : float) (scores : Scores)
           (trend : float) (join_leave : JoinLeave)
           (channel_activity : list ChannelActivity)
  : list recommendation :=
  (if ltb overall_score (of_Z 80)
   then [PriorityGuidance (tier_of overall_score)] else [])
  ++ (if ltb (s_activity scores) (of_Z 50) then [LowActivity] else [])
  ++ (if ltb (s_growth scores) (of_Z 50)
      then (if ltb trend (of_Z (-10)) then [DecliningFast] else [])
           ++ (if ltb (retention_rate join_leave) (of_Z 50)
               then [MembersLeaving] else [])
      else [])
  ++ (if ltb (s_engagement scores) (of_Z 50) then [MostlyLurking] else [])
  ++ (if ltb (s_channel_health scores) (of_Z 50)
      then if (10 <? List.length channel_activity)%nat
           then [TooManyChannels] else [TooConcentrated]
      else []).

Record Summary : Type := {
  sentence : tier;
  below_60_note : bool;
  data_quality_note : option float
}.

Record HealthScore : Type := {
  score : Z;
  metrics : Metrics;
  summary : Summary;
  recommendations : list recommendation;
  lowest_metric : metric_name;
  confidence : float;
  low_confidence : bool
}.

(** The component scores, computed in the order of the source. *)
Definition scores_of (log2 : float -> float)
           (messages_30d active_users_30d active_users_7d : Z)
           (trend : float) (join_leave : JoinLeave)
           (channel_activity : list ChannelActivity) : M Scores :=
  activity <- activity_score messages_30d active_users_30d ;;
  engagement <- engagement_score active_users_7d active_users_30d ;;
  channel_score <- channel_health_score log2 channel_activity ;;
  ret {| s_activity := activity;
         s_growth := growth_score trend join_leave;
         s_engagement := engagement;
         s_channel_health := channel_score |}.

(** The body of [calculate_health_score] once the data is fetched; the
    result dict rounds the overall score first, then each component. *)
Definition health_of (log2 : float -> float)
           (messages_30d active_users_30d active_users_7d : Z)
           (trend : float) (join_leave : JoinLeave)
           (channel_activity : list ChannelActivity) : M HealthScore :=
  confidence <- _calculate_confidence messages_30d 30 ;;
  let low_confidence := ltb confidence (rnd (5 # 10)) in
  scores <- scores_of log2 messages_30d active_users_30d active_users_7d
                      trend join_leave channel_activity ;;
  let overall_score := overall_of scores in
  score <- Float.round overall_score ;;
  activity <- Float.round (s_activity scores) ;;
  growth <- Float.round (s_growth scores) ;;
  engagement <- Float.round (s_engagement scores) ;;
  channel_health <- Float.round (s_channel_health scores) ;;
  ret {| score := score;
         metrics := {| m_activity := activity;
                       m_growth := growth;
                       m_engagement := engagement;
                       m_channel_health := channel_health |};
         summary :=
           {| sentence := tier_of overall_score;
              below_60_note := ltb overall_score (of_Z 60);
              data_quality_note :=
                if low_confidence then Some confidence else None |};
         recommendations :=
           recommendations_of overall_score scores trend join_leave
                              channel_activity;
         lowest_metric := lowest_of scores;
         confidence := confidence;
         low_confidence := low_confidence |}.

(** [calculate_health_score]: six queries, no handler. *)
Definition calculate_health_score (log2 : float -> float)
           (db : StatsProvider) (guild_id : Z) : M HealthScore :=
  messages_30d <- get_message_count db guild_id 30 ;;
  active_users_30d <- get_active_users db guild_id 30 ;;
  active_users_7d <- get_active_users db guild_id 7 ;;
  trend <- get_activity_trend db guild_id 7 ;;
  join_leave <- get_join_leave_stats db guild_id 30 ;;
  channel_activity <- get_channel_activity db guild_id 30 ;;
  health_of log2 messages_30d active_users_30d active_users_7d trend
            join_leave channel_activity.

End FloatHealthAnalyzer.

(** ** [src/bot.py]: what the slash commands put in their embeds

    The commands build their answer from the analyzers under
    [analytics/].  The embed is the record of the values shown; the calls
    to the chat platform and the formatting of numbers are left out. *)
Module Bot.
Import Py DatabaseManager.

Inductive arrow : Type := TrendUp | TrendDown | TrendFlat.

(** The fields of the [/pulse] embed.  [e_peak_hours] is [None] for "Not
    enough data", [e_quiet_channels] is [None] when the field is left out,
    [e_footer_warning] is [None] for the plain footer and otherwise holds
    the value of ['confidence_warning'] put in front of it. *)
Record PulseEmbed : Type := {
  e_trend_emoji : arrow;
  e_trend : Q;
  e_active_members : Z;
  e_total_members : Z;
  e_active_pct : Q;
  e_messages : Z;
  e_peak_hours : option (list Z);
  e_quiet_channels : option (list Z);
  e_footer_warning : option (option string)
}.

Definition pulse_embed (pulse_data : AnalyticsHealthAnalyzer.Pulse)
  : PulseEmbed :=
  let trend := AnalyticsHealthAnalyzer.trend pulse_data in
  let active_members := AnalyticsHealthAnalyzer.active_members pulse_data in
  let total_members := AnalyticsHealthAnalyzer.total_members pulse_data in
  {| e_trend_emoji :=
       if Qltb 0 trend then TrendUp
       else if Qltb trend 0 then TrendDown
       else TrendFlat;
     e_trend := trend;
     e_active_members := active_members;
     e_total_members := total_members;
     e_active_pct :=
       if 0 <? total_members
       then (inject_Z active_members / inject_Z total_members * 100)%Q
       else 0%Q;
     e_messages := AnalyticsHealthAnalyzer.p_total_messages pulse_data;
     e_peak_hours :=
       match AnalyticsHealthAnalyzer.peak_hours pulse_data with
       | [] => None
       | peak_hours => Some (firstn 3 peak_hours)
       end;
     e_quiet_channels :=
       match AnalyticsHealthAnalyzer.quiet_channels pulse_data with
       | [] => None
       | quiet_channels => Some (firstn 5 quiet_channels)
       end;
     e_footer_warning :=
       if AnalyticsHealthAnalyzer.low_confidence pulse_data
       then Some (AnalyticsHealthAnalyzer.confidence_warning pulse_data)
       else None |}.

(** The [/pulse] command. *)
Definition pulse (db : db_manager) (guild_id days : Z) : PulseEmbed :=
  pulse_embed (AnalyticsHealthAnalyzer.get_pulse db guild_id days).

Inductive colour : Type := Green | Gold | Orange | Red.

(** The fields of the [/health] embed; [h_recommendations] is [None] when
    the field is left out. *)
Record HealthEmbed : Type := {
  h_colour : colour;
  h_score : Z;
  h_summary : string;
  h_fields : list (AnalyticsHealthAnalyzer.metric_name * Z);
  h_recommendations : option (list string)
}.

Definition health_embed (health_data : AnalyticsHealthAnalyzer.Health)
  : HealthEmbed :=
  let score := AnalyticsHealthAnalyzer.score health_data in
  {| h_colour :=
       if 80 <=? score then Green
       else if 60 <=? score then Gold
       else if 40 <=? score then Orange
       else Red;
     h_score := score;
     h_summary := AnalyticsHealthAnalyzer.summary health_data;
     h_fields := AnalyticsHealthAnalyzer.metrics health_data;
     h_recommendations :=
       match AnalyticsHealthAnalyzer.recommendations health_data with
       | [] => None
       | recommendations => Some (firstn 3 recommendations)
       end |}.

(** The [/health] command. *)
Definition health (db : db_manager) (guild_id : Z) : HealthEmbed :=
  health_embed (AnalyticsHealthAnalyzer.calculate_health_score db guild_id).

End Bot.

(** ** Notions used to state the properties *)

(** The rule that produced a suggestion of the entropy variant, 0 for the
    fallback. *)
Definition rule_index (s : HealthAnalyzer.Suggestion) : Z :=
  match s with
  | HealthAnalyzer.ActivityDecline _ => 1
  | HealthAnalyzer.ConsolidateChannels _ => 2
  | HealthAnalyzer.ImproveOnboarding _ => 3
  | HealthAnalyzer.OptimizeEventTiming _ => 4
  | HealthAnalyzer.CapitalizeOnGrowth _ => 5
  | HealthAnalyzer.ServerLooksHealthy => 0
  end.

(** The score that [scores] holds for a metric. *)
Definition score_named (scores : HealthAnalyzer.Scores)
           (m : HealthAnalyzer.metric_name) : R :=
  match m with
  | HealthAnalyzer.Activity => HealthAnalyzer.s_activity scores
  | HealthAnalyzer.Growth => HealthAnalyzer.s_growth scores
  | HealthAnalyzer.Engagement => HealthAnalyzer.s_engagement scores
  | HealthAnalyzer.ChannelHealth => HealthAnalyzer.s_channel_health scores
  end.

(** The position of a metric in the [scores] dict. *)
Definition metric_position (m : HealthAnalyzer.metric_name) : Z :=
  match m with
  | HealthAnalyzer.Activity => 0
  | HealthAnalyzer.Growth => 1
  | HealthAnalyzer.Engagement => 2
  | HealthAnalyzer.ChannelHealth => 3
  end.

(** The formula of the claim on the score, evaluated in double precision
    on the values that a result reports in its ['metrics'] mapping. *)
Definition claimed_score (m : HealthAnalyzer.Metrics) : Py.M Z :=
  Float.round
    (FloatHealthAnalyzer.overall_of
       {| FloatHealthAnalyzer.s_activity :=
            Float.of_Z (HealthAnalyzer.m_activity m);
          FloatHealthAnalyzer.s_growth :=
            Float.of_Z (HealthAnalyzer.m_growth m);
          FloatHealthAnalyzer.s_engagement :=
            Float.of_Z (HealthAnalyzer.m_engagement m);
          FloatHealthAnalyzer.s_channel_health :=
            Float.of_Z (HealthAnalyzer.m_channel_health m) |}).

(** The six values a tier function of the tiered variant returns. *)
Definition tier_values : list Z := [0; 20; 40; 60; 80; 100].


(** * Sample data used by the statements below *)

(** A store with forty-two messages by five users in one channel. *)
Definition sample_db : DatabaseManager.db_manager :=
  {| DatabaseManager.get_message_stats := fun _ _ =>
       Py.ret {| DatabaseManager.total_messages := 42;
                 DatabaseManager.active_users := 5;
                 DatabaseManager.hourly_data := [(14, 30); (9, 12)] |};
     DatabaseManager.get_channel_stats := fun _ _ =>
       Py.ret [ {| DatabaseManager.channel_id := 1;
                   DatabaseManager.message_count := 42;
                   DatabaseManager.unique_users := 5 |} ];
     DatabaseManager.get_user_stats := fun _ _ => Py.ret [] |}.

(** The user of the contributor scenario: fifty messages over five
    channels, first and last message ten days apart.  *)
Definition scenario_user : DatabaseManager.UserStat :=
  {| DatabaseManager.user_id := 7;
     DatabaseManager.u_message_count := 50;
     DatabaseManager.channels_used := 5;
     DatabaseManager.first_message := Some 1700000000;
     DatabaseManager.last_message := Some (1700000000 + 10 * 86400 + 3600) |}.

(** A provider whose every query answers: eighteen messages by five users
    in four nearly silent channels and one busy one. *)
Definition quiet_channels_activity : list HealthAnalyzer.ChannelActivity :=
  [ {| HealthAnalyzer.ch_channel_id := 1; HealthAnalyzer.ch_message_count := 0 |};
    {| HealthAnalyzer.ch_channel_id := 2; HealthAnalyzer.ch_message_count := 1 |};
    {| HealthAnalyzer.ch_channel_id := 3; HealthAnalyzer.ch_message_count := 2 |};
    {| HealthAnalyzer.ch_channel_id := 4; HealthAnalyzer.ch_message_count := 4 |};
    {| HealthAnalyzer.ch_channel_id := 5; HealthAnalyzer.ch_message_count := 90 |} ].

Definition poor_retention : HealthAnalyzer.JoinLeave :=
  {| HealthAnalyzer.joins := 20;
     HealthAnalyzer.leaves := 12;
     HealthAnalyzer.retention_rate := 40%Q |}.

(** A store and a provider whose connection is down: every query raises. *)
Definition failing_db : DatabaseManager.db_manager :=
  {| DatabaseManager.get_message_stats := fun _ _ => Py.raise (Py.QueryError 1);
     DatabaseManager.get_channel_stats := fun _ _ => Py.raise (Py.QueryError 1);
     DatabaseManager.get_user_stats := fun _ _ => Py.raise (Py.QueryError 1) |}.

Definition failing_provider : HealthAnalyzer.StatsProvider :=
  {| HealthAnalyzer.get_message_count := fun _ _ => Py.raise (Py.QueryError 1);
     HealthAnalyzer.get_active_users := fun _ _ => Py.raise (Py.QueryError 1);
     HealthAnalyzer.get_activity_trend := fun _ _ => Py.raise (Py.QueryError 1);
     HealthAnalyzer.get_peak_hours := fun _ _ => Py.raise (Py.QueryError 1);
     HealthAnalyzer.get_quiet_channels := fun _ _ => Py.raise (Py.QueryError 1);
     HealthAnalyzer.get_join_leave_stats := fun _ _ =>
       Py.raise (Py.QueryError 1);
     HealthAnalyzer.get_channel_activity := fun _ _ =>
       Py.raise (Py.QueryError 1) |}.

(** What [generate_suggestions] of the tiered variant answers for a health
    score below 40. *)
Definition low_score_suggestions : list AnalyticsHealthAnalyzer.Suggestion :=
  [ AnalyticsHealthAnalyzer.suggestion "Boost Activity"
      "Consider hosting events or creating discussion topics to increase engagement";
    AnalyticsHealthAnalyzer.suggestion "Welcome New Members"
      "Set up a welcoming system to help new members feel included" ].

Definition channel (id messages users : Z) : DatabaseManager.ChannelStat :=
  {| DatabaseManager.channel_id := id;
     DatabaseManager.message_count := messages;
     DatabaseManager.unique_users := users |}.

(** The channel scenario: four channels with 100, 0, 0 and 5 messages. *)
Definition scenario_channels : list DatabaseManager.ChannelStat :=
  [channel 1 100 20; channel 2 0 0; channel 3 0 0; channel 4 5 2].

(** Eleven channels without a message. *)
Definition eleven_silent_channels : list DatabaseManager.ChannelStat :=
  map (fun id => channel id 0 0) [1; 2; 3; 4; 5; 6; 7; 8; 9; 10; 11].

Definition user (id messages channels : Z) (first last : Z)
  : DatabaseManager.UserStat :=
  {| DatabaseManager.user_id := id;
     DatabaseManager.u_message_count := messages;
     DatabaseManager.channels_used := channels;
     DatabaseManager.first_message := Some first;
     DatabaseManager.last_message := Some last |}.

(** A fortnight's cohort of twenty-one users.  User 99 wrote 28 messages
    in 2 channels within one day; each of the twenty others wrote 27
    messages in 2 channels spread over thirteen days. *)
Definition crowded_cohort : list DatabaseManager.UserStat :=
  user 99 28 2 1700000000 1700000000
  :: map (fun id => user id 27 2 1700000000 (1700000000 + 13 * 86400))
         [1; 2; 3; 4; 5; 6; 7; 8; 9; 10;
          11; 12; 13; 14; 15; 16; 17; 18; 19; 20].

Definition crowded_db : DatabaseManager.db_manager :=
  {| DatabaseManager.get_message_stats := fun _ _ =>
       Py.ret {| DatabaseManager.total_messages := 568;
                 DatabaseManager.active_users := 21;
                 DatabaseManager.hourly_data := [] |};
     DatabaseManager.get_channel_stats := fun _ _ => Py.ret [];
     DatabaseManager.get_user_stats := fun _ _ => Py.ret crowded_cohort |}.

(** A provider that answers every query from fixed data; the 7-day window
    has its own count of active users. *)
Definition provider_of (messages active_30d active_7d : Z) (trend : Q)
           (join_leave : HealthAnalyzer.JoinLeave)
           (channel_activity : list HealthAnalyzer.ChannelActivity)
  : HealthAnalyzer.StatsProvider :=
  {| HealthAnalyzer.get_message_count := fun _ _ => Py.ret messages;
     HealthAnalyzer.get_active_users := fun _ days =>
       Py.ret (if days =? 7 then active_7d else active_30d);
     HealthAnalyzer.get_activity_trend := fun _ _ => Py.ret trend;
     HealthAnalyzer.get_peak_hours := fun _ _ => Py.ret [14; 20];
     HealthAnalyzer.get_quiet_channels := fun _ _ => Py.ret [];
     HealthAnalyzer.get_join_leave_stats := fun _ _ => Py.ret join_leave;
     HealthAnalyzer.get_channel_activity := fun _ _ =>
       Py.ret channel_activity |}.

Definition full_retention : HealthAnalyzer.JoinLeave :=
  {| HealthAnalyzer.joins := 0;
     HealthAnalyzer.leaves := 0;
     HealthAnalyzer.retention_rate := 100%Q |}.

Definition one_channel (messages : Z) : list HealthAnalyzer.ChannelActivity :=
  [ {| HealthAnalyzer.ch_channel_id := 1;
       HealthAnalyzer.ch_message_count := messages |} ].

(** Eighteen messages in one channel by five users, none of them active in
    the last week, flat trend, full retention. *)
Definition lopsided_provider : HealthAnalyzer.StatsProvider :=
  provider_of 18 5 0 0 full_retention (one_channel 18).

(** The 30-day query saw one active user, the later 7-day query two. *)
Definition late_joiner_provider : HealthAnalyzer.StatsProvider :=
  provider_of 60 1 2 0 full_retention (one_channel 60).

(** Five channels, all two million messages in the third. *)
Definition concentrated_activity : list HealthAnalyzer.ChannelActivity :=
  [ {| HealthAnalyzer.ch_channel_id := 1; HealthAnalyzer.ch_message_count := 0 |};
    {| HealthAnalyzer.ch_channel_id := 2; HealthAnalyzer.ch_message_count := 0 |};
    {| HealthAnalyzer.ch_channel_id := 3;
       HealthAnalyzer.ch_message_count := 2000000 |};
    {| HealthAnalyzer.ch_channel_id := 4; HealthAnalyzer.ch_message_count := 0 |};
    {| HealthAnalyzer.ch_channel_id := 5; HealthAnalyzer.ch_message_count := 0 |} ].

(** A store whose only user is the one of the contributor scenario. *)
Definition scenario_db : DatabaseManager.db_manager :=
  {| DatabaseManager.get_message_stats := fun _ _ =>
       Py.ret {| DatabaseManager.total_messages := 50;
                 DatabaseManager.active_users := 1;
                 DatabaseManager.hourly_data := [(14, 50)] |};
     DatabaseManager.get_channel_stats := fun _ _ => Py.ret [];
     DatabaseManager.get_user_stats := fun _ _ => Py.ret [scenario_user] |}.

Definition scenario_star : ContributorAnalyzer.RisingStar :=
  {| ContributorAnalyzer.s_user_id := 7;
     ContributorAnalyzer.s_messages := 50;
     ContributorAnalyzer.s_messages_per_day := (18 # 5)%Q;
     ContributorAnalyzer.s_channels_used := 5;
     ContributorAnalyzer.s_potential := "medium"%string |}.

(** A store that returns the rows of the channel scenario. *)
Definition scenario_channel_db : DatabaseManager.db_manager :=
  {| DatabaseManager.get_message_stats := fun _ _ =>
       Py.ret {| DatabaseManager.total_messages := 105;
                 DatabaseManager.active_users := 20;
                 DatabaseManager.hourly_data := [(14, 105)] |};
     DatabaseManager.get_channel_stats := fun _ _ =>
       Py.ret scenario_channels;
     DatabaseManager.get_user_stats := fun _ _ => Py.ret [] |}.

(** A stand-in for the C library's [log2] that answers at the powers of
    two, where the library function is exact; the samples below take no
    other logarithm. *)
Definition log2_of_power (x : Float.float) : Float.float :=
  match x with
  | Float.Finite q =>
      if Qeq_bool q (2 ^ Float.ilog2 q) then Float.of_Z (Float.ilog2 q)
      else Float.NaN
  | Float.Infinity false => Float.Infinity false
  | _ => Float.NaN
  end.

(** Channels numbered from 1 with the given message counts. *)
Definition channels_of (counts : list Z)
  : list HealthAnalyzer.ChannelActivity :=
  map (fun ic => {| HealthAnalyzer.ch_channel_id := Z.of_nat (fst ic);
                    HealthAnalyzer.ch_message_count := snd ic |})
      (combine (seq 1 (List.length counts)) counts).

Definition retention_of (rate : Z) : FloatHealthAnalyzer.JoinLeave :=
  {| FloatHealthAnalyzer.joins := 0;
     FloatHealthAnalyzer.leaves := 0;
     FloatHealthAnalyzer.retention_rate := Float.of_Z rate |}.

(** A provider for the double precision model that answers every query
    from fixed data. *)
Definition double_provider_of (messages active_30d active_7d : Z)
           (trend retention : Z) (counts : list Z)
  : FloatHealthAnalyzer.StatsProvider :=
  {| FloatHealthAnalyzer.get_message_count := fun _ _ => Py.ret messages;
     FloatHealthAnalyzer.get_active_users := fun _ days =>
       Py.ret (if days =? 7 then active_7d else active_30d);
     FloatHealthAnalyzer.get_activity_trend := fun _ _ =>
       Py.ret (Float.of_Z trend);
     FloatHealthAnalyzer.get_peak_hours := fun _ _ => Py.ret [14; 20];
     FloatHealthAnalyzer.get_quiet_channels := fun _ _ => Py.ret [];
     FloatHealthAnalyzer.get_join_leave_stats := fun _ _ =>
       Py.ret (retention_of retention);
     FloatHealthAnalyzer.get_channel_activity := fun _ _ =>
       Py.ret (channels_of counts) |}.

(** The lopsided community once more: eighteen messages in one channel by
    five users, none active in the last week, flat trend, full
    retention. *)
Definition lopsided_double_provider : FloatHealthAnalyzer.StatsProvider :=
  double_provider_of 18 5 0 0 100 [18].

(** Thirty messages in one channel by three users, two of them active in
    the last week, flat trend, no retention: in exact arithmetic the
    weighted sum is 31.5. *)
Definition halfway_provider : FloatHealthAnalyzer.StatsProvider :=
  double_provider_of 30 3 2 0 0 [30].


(** * Properties *)

(** ** Rational comparisons *)

Lemma Qltb_lt (x y : Q) : Py.Qltb x y = true <-> (x < y)%Q.
Proof.
  unfold Py.Qltb. rewrite Qlt_alt.
  destruct (x ?= y)%Q; split; congruence.
Qed.

Lemma Qltb_ge (x y : Q) : Py.Qltb x y = false <-> (y <= x)%Q.
Proof.
  split; intro H.
  - apply Qnot_lt_le. intro L. apply Qltb_lt in L. congruence.
  - destruct (Py.Qltb x y) eqn:E; [|reflexivity].
    apply Qltb_lt in E. exfalso. exact (Qlt_not_le _ _ E H).
Qed.

(** ** The pulse of the tiered variant *)

(** C7. The previous-period total of the pulse is the literal zero, so the
    trend of [get_pulse] is 0 for every guild and every window; when both
    queries succeed the result is the computed one (it carries the current
    message total), not the error default. *)
Theorem pulse_trend_always_zero :
  forall (db : DatabaseManager.db_manager) (guild_id days : Z),
    AnalyticsHealthAnalyzer.get_total_messages
      (AnalyticsHealthAnalyzer._get_previous_period_stats guild_id days) = 0
    /\ AnalyticsHealthAnalyzer.trend
         (AnalyticsHealthAnalyzer.get_pulse db guild_id days) = 0%Q
    /\ (forall ms cs,
           DatabaseManager.get_message_stats db guild_id days = inr ms ->
           DatabaseManager.get_channel_stats db guild_id days = inr cs ->
           AnalyticsHealthAnalyzer.p_total_messages
             (AnalyticsHealthAnalyzer.get_pulse db guild_id days)
           = DatabaseManager.total_messages ms).
Proof.
  intros db guild_id days. split; [reflexivity|]. split.
  - unfold AnalyticsHealthAnalyzer.get_pulse, Py.try_except, Py.bind.
    destruct (DatabaseManager.get_message_stats db guild_id days) as [e|ms];
      [reflexivity|].
    destruct (DatabaseManager.get_channel_stats db guild_id days) as [e|cs];
      reflexivity.
  - intros ms cs Hms Hcs.
    unfold AnalyticsHealthAnalyzer.get_pulse, Py.try_except, Py.bind.
    rewrite Hms, Hcs. reflexivity.
Qed.

Lemma pulse_trend_always_zero_witness :
  AnalyticsHealthAnalyzer.trend
    (AnalyticsHealthAnalyzer.get_pulse sample_db 1 7) = 0%Q
  /\ AnalyticsHealthAnalyzer.p_total_messages
       (AnalyticsHealthAnalyzer.get_pulse sample_db 1 7) = 42.
Proof.
  destruct (pulse_trend_always_zero sample_db 1 7) as [_ [Ht Hm]].
  split; [exact Ht|].
  exact (Hm _ _ eq_refl eq_refl).
Defined.

(** ** The confidence model *)

(** C8, as the code has it.  A zero [days] is not validated: the division
    by [days * 10] raises [ZeroDivisionError], and [get_pulse], which has no
    handler, passes it on to its caller.  For a positive [days] and a
    non-negative [message_count] the call succeeds with
    [min(1, message_count / (days * 10))], a value between 0 and 1. *)
Theorem confidence_zero_days_divides_by_zero :
  forall message_count days : Z,
    (days = 0 ->
     HealthAnalyzer._calculate_confidence message_count days
     = inl Py.ZeroDivisionError)
    /\ (forall db guild_id active trend peaks quiet,
           days = 0 ->
           HealthAnalyzer.get_message_count db guild_id days
           = inr message_count ->
           HealthAnalyzer.get_active_users db guild_id days = inr active ->
           HealthAnalyzer.get_activity_trend db guild_id days = inr trend ->
           HealthAnalyzer.get_peak_hours db guild_id days = inr peaks ->
           HealthAnalyzer.get_quiet_channels db guild_id days = inr quiet ->
           HealthAnalyzer.get_pulse db guild_id days
           = inl Py.ZeroDivisionError)
    /\ (0 < days -> 0 <= message_count ->
        exists c : Q,
          HealthAnalyzer._calculate_confidence message_count days = inr c
          /\ c = Qmin 1 (inject_Z message_count / inject_Z (days * 10))
          /\ (0 <= c)%Q /\ (c <= 1)%Q).
Proof.
  intros mc days. split; [|split].
  - intros ->. reflexivity.
  - intros db g active trend peaks quiet -> H1 H2 H3 H4 H5.
    unfold HealthAnalyzer.get_pulse, Py.bind.
    rewrite H1, H2, H3, H4, H5. reflexivity.
  - intros Hd Hm.
    unfold HealthAnalyzer._calculate_confidence, Py.truediv, Py.bind, Py.ret.
    destruct (days * 10 =? 0) eqn:E; [apply Z.eqb_eq in E; lia|].
    eexists. split; [reflexivity|]. split; [reflexivity|]. split.
    + apply Q.min_glb; [discriminate|].
      apply Qle_shift_div_l.
      * unfold Qlt; simpl; lia.
      * rewrite Qmult_0_l. unfold Qle; simpl; lia.
    + apply Q.le_min_l.
Qed.

Lemma confidence_zero_days_divides_by_zero_witness :
  HealthAnalyzer._calculate_confidence 18 0 = inl Py.ZeroDivisionError
  /\ HealthAnalyzer.get_pulse lopsided_provider 1 0
     = inl Py.ZeroDivisionError
  /\ exists c : Q,
       HealthAnalyzer._calculate_confidence 35 7 = inr c
       /\ c = Qmin 1 (inject_Z 35 / inject_Z (7 * 10))
       /\ (0 <= c)%Q /\ (c <= 1)%Q.
Proof.
  destruct (confidence_zero_days_divides_by_zero 18 0) as (H0 & Hp & _).
  destruct (confidence_zero_days_divides_by_zero 35 7) as (_ & _ & H7).
  split; [exact (H0 eq_refl)|].
  split.
  - exact (Hp lopsided_provider 1 5 0%Q [14; 20] [] eq_refl eq_refl eq_refl
              eq_refl eq_refl eq_refl).
  - apply H7; lia.
Defined.

(** C8 fails as stated: with [days = 0] the failure is the division
    error, not [InvalidArgument]. *)
Lemma confidence_zero_days_not_invalid_argument :
  HealthAnalyzer._calculate_confidence 5 0 = inl Py.ZeroDivisionError
  /\ HealthAnalyzer._calculate_confidence 5 0 <> inl Py.InvalidArgument.
Proof.
  split; [reflexivity|discriminate].
Qed.

(** ** Contributor scores *)

(** C5. A user with 50 messages over 5 channels whose first and last
    message are 10 days apart, in a cohort whose maxima are 50 messages and
    5 channels, gets message score 40, channel score 30, consistency
    contribution 16 and engagement contribution 10, and the score 96.0;
    this is the score [get_top_contributors] reports for the user. *)
Theorem contributor_score_scenario :
  forall (user : DatabaseManager.UserStat)
         (all_users : list DatabaseManager.UserStat) (first last : Z),
    DatabaseManager.u_message_count user = 50 ->
    DatabaseManager.channels_used user = 5 ->
    DatabaseManager.first_message user = Some first ->
    DatabaseManager.last_message user = Some last ->
    ContributorAnalyzer.time_span_days first last = 10 ->
    ContributorAnalyzer.max_messages all_users = 50 ->
    ContributorAnalyzer.max_channels all_users = 5 ->
    (ContributorAnalyzer.message_score user all_users == 40)%Q
    /\ (ContributorAnalyzer.channel_score user all_users == 30)%Q
    /\ ContributorAnalyzer._calculate_consistency user = 80%Q
    /\ (ContributorAnalyzer.consistency_score user == 16)%Q
    /\ ContributorAnalyzer._calculate_engagement_rate user = 100%Q
    /\ (ContributorAnalyzer.engagement_score user == 10)%Q
    /\ ContributorAnalyzer._calculate_contributor_score user all_users = 96%Q
    /\ ContributorAnalyzer.k_score
         (ContributorAnalyzer.contributor_of all_users user) = 96%Q.
Proof.
  intros user all_users first last Hm Hc Hf Hl Hspan Hmm Hmc.
  assert (Hms : ContributorAnalyzer.message_score user all_users = 40%Q).
  { unfold ContributorAnalyzer.message_score. rewrite Hmm, Hm. reflexivity. }
  assert (Hcs : ContributorAnalyzer.channel_score user all_users = 30%Q).
  { unfold ContributorAnalyzer.channel_score. rewrite Hmc, Hc. reflexivity. }
  assert (Hco : ContributorAnalyzer._calculate_consistency user = 80%Q).
  { unfold ContributorAnalyzer._calculate_consistency.
    rewrite Hf, Hl, Hspan. reflexivity. }
  assert (Hen : ContributorAnalyzer._calculate_engagement_rate user = 100%Q).
  { unfold ContributorAnalyzer._calculate_engagement_rate.
    rewrite Hm, Hc. reflexivity. }
  assert (Hsc : ContributorAnalyzer._calculate_contributor_score user all_users
                = 96%Q).
  { unfold ContributorAnalyzer._calculate_contributor_score,
      ContributorAnalyzer.consistency_score,
      ContributorAnalyzer.engagement_score.
    rewrite Hms, Hcs, Hco, Hen. reflexivity. }
  repeat split.
  - rewrite Hms. reflexivity.
  - rewrite Hcs. reflexivity.
  - exact Hco.
  - unfold ContributorAnalyzer.consistency_score. rewrite Hco. reflexivity.
  - exact Hen.
  - unfold ContributorAnalyzer.engagement_score. rewrite Hen. reflexivity.
  - exact Hsc.
  - exact Hsc.
Qed.

Lemma contributor_score_scenario_witness :
  ContributorAnalyzer._calculate_contributor_score
    scenario_user [scenario_user] = 96%Q
  /\ map ContributorAnalyzer.k_score
       (ContributorAnalyzer.rank_users [scenario_user]) = [96%Q].
Proof.
  pose proof (contributor_score_scenario scenario_user [scenario_user]
                1700000000 (1700000000 + 10 * 86400 + 3600)
                eq_refl eq_refl eq_refl eq_refl eq_refl eq_refl eq_refl)
    as [_ [_ [_ [_ [_ [_ [Hs Hk]]]]]]].
  split; [exact Hs|].
  vm_compute. reflexivity.
Defined.

(** ** Suggestion rules *)

Lemma pattern1_pattern5_exclusive (trend : Q) :
  HealthAnalyzer.pattern1 trend = [] \/ HealthAnalyzer.pattern5 trend = [].
Proof.
  unfold HealthAnalyzer.pattern1, HealthAnalyzer.pattern5.
  destruct (Py.Qltb trend (-15)) eqn:E1; [|now left].
  destruct (Py.Qltb 25 trend) eqn:E5; [|now right].
  apply Qltb_lt in E1. apply Qltb_lt in E5.
  exfalso. apply (Qlt_irrefl 25).
  apply Qlt_trans with trend; [exact E5|].
  apply Qlt_trans with (-15)%Q; [exact E1|reflexivity].
Qed.

Lemma suggestions_at_most_four trend channel_activity join_leave peak_hours :
  (List.length
     (HealthAnalyzer.suggestions_of trend channel_activity join_leave
                                    peak_hours) <= 4)%nat.
Proof.
  unfold HealthAnalyzer.suggestions_of.
  assert (L2 : (List.length (HealthAnalyzer.pattern2 channel_activity)
                <= 1)%nat).
  { unfold HealthAnalyzer.pattern2.
    destruct (_ <? _)%nat; simpl; lia. }
  assert (L3 : (List.length (HealthAnalyzer.pattern3 join_leave) <= 1)%nat).
  { unfold HealthAnalyzer.pattern3. destruct (_ && _); simpl; lia. }
  assert (L4 : (List.length (HealthAnalyzer.pattern4 peak_hours) <= 1)%nat).
  { destruct peak_hours; simpl; lia. }
  assert (L1 : (List.length (HealthAnalyzer.pattern1 trend) <= 1)%nat).
  { unfold HealthAnalyzer.pattern1. destruct (Py.Qltb _ _); simpl; lia. }
  assert (L5 : (List.length (HealthAnalyzer.pattern5 trend) <= 1)%nat).
  { unfold HealthAnalyzer.pattern5. destruct (Py.Qltb _ _); simpl; lia. }
  assert (L15 : (List.length (HealthAnalyzer.pattern1 trend)
                 + List.length (HealthAnalyzer.pattern5 trend) <= 1)%nat).
  { destruct (pattern1_pattern5_exclusive trend) as [H|H]; rewrite H;
      simpl; lia. }
  match goal with
  | |- context [match ?l with [] => _ | _ :: _ => _ end] =>
      assert (L : (List.length l <= 4)%nat)
        by (rewrite !length_app; lia);
      destruct l; simpl in *; lia
  end.
Qed.

(** C6, as the code has it.  Rule 1 needs [trend < -15] and rule 5 needs
    [trend > 25] of the same trend, so they never fire together and a
    result holds at most four suggestions; rules 1 to 4 can fire together,
    and so can rules 2 to 5, each time in the listed order. *)
Theorem suggestion_rules_at_most_four :
  (forall trend channel_activity join_leave peak_hours,
      (HealthAnalyzer.pattern1 trend = []
       \/ HealthAnalyzer.pattern5 trend = [])
      /\ (List.length
            (HealthAnalyzer.suggestions_of trend channel_activity join_leave
                                           peak_hours) <= 4)%nat)
  /\ HealthAnalyzer.suggestions_of (-20) quiet_channels_activity
       poor_retention [14; 20]
     = [ HealthAnalyzer.ActivityDecline 20;
         HealthAnalyzer.ConsolidateChannels 4;
         HealthAnalyzer.ImproveOnboarding 40;
         HealthAnalyzer.OptimizeEventTiming 14 ]
  /\ HealthAnalyzer.suggestions_of 30 quiet_channels_activity
       poor_retention [14; 20]
     = [ HealthAnalyzer.ConsolidateChannels 4;
         HealthAnalyzer.ImproveOnboarding 40;
         HealthAnalyzer.OptimizeEventTiming 14;
         HealthAnalyzer.CapitalizeOnGrowth 30 ].
Proof.
  split; [|split; reflexivity].
  intros. split.
  - apply pattern1_pattern5_exclusive.
  - apply suggestions_at_most_four.
Qed.

(** C6 fails as stated: no provider makes [generate_suggestions] return
    the five rule suggestions together. *)
Lemma five_rules_never_fire_together :
  ~ exists (db : HealthAnalyzer.StatsProvider) (guild_id : Z)
           (m : Q) (n : nat) (r : Q) (h : Z) (t : Q),
      HealthAnalyzer.generate_suggestions db guild_id
      = inr [ HealthAnalyzer.ActivityDecline m;
              HealthAnalyzer.ConsolidateChannels n;
              HealthAnalyzer.ImproveOnboarding r;
              HealthAnalyzer.OptimizeEventTiming h;
              HealthAnalyzer.CapitalizeOnGrowth t ].
Proof.
  intros (db & g & m & n & r & h & t & H).
  unfold HealthAnalyzer.generate_suggestions, Py.bind, Py.ret in H.
  destruct (HealthAnalyzer.get_activity_trend db g 7) as [e|trend];
    [discriminate|].
  destruct (HealthAnalyzer.get_channel_activity db g 30) as [e|ca];
    [discriminate|].
  destruct (HealthAnalyzer.get_join_leave_stats db g 30) as [e|jl];
    [discriminate|].
  destruct (HealthAnalyzer.get_peak_hours db g 30) as [e|ph];
    [discriminate|].
  pose proof (suggestions_at_most_four trend ca jl ph) as L.
  injection H as H. rewrite H in L. simpl in L. lia.
Qed.

(** ** Failing queries *)

Ltac first_failure :=
  unfold Py.bind;
  repeat match goal with
         | |- context [match ?q with inl _ => _ | inr _ => _ end] =>
             lazymatch q with
             | match _ with inl _ => _ | inr _ => _ end => fail
             | _ => destruct q as [?e|?v] eqn:?Q
             end
         end.

Ltac no_failure H :=
  repeat match type of H with
         | _ \/ _ => destruct H as [H|H]
         end;
  destruct H as [? H]; congruence.

(** C3, as the code has it.  The operations under [analytics/] catch a
    failing query and answer with their default: [analyze_channels] with
    three empty lists, [get_top_contributors] with the empty list, the
    tiered [get_pulse] and [calculate_health_score] with their zero-valued
    error results, and the tiered [generate_suggestions] with the two
    suggestions of a zero score.  The entropy variant has no handler: when
    one of its queries raises, [get_pulse], [calculate_health_score] and
    [generate_suggestions] raise to the caller. *)
Theorem query_failure_handling :
  forall (db : DatabaseManager.db_manager)
         (provider : HealthAnalyzer.StatsProvider) (guild_id days : Z),
    (Py.raises (DatabaseManager.get_channel_stats db guild_id days) ->
     ChannelAnalyzer.analyze_channels db guild_id days
     = ChannelAnalyzer.empty_analysis)
    /\ (Py.raises (DatabaseManager.get_user_stats db guild_id days) ->
        ContributorAnalyzer.get_top_contributors db guild_id days = [])
    /\ (Py.raises (DatabaseManager.get_message_stats db guild_id days)
        \/ Py.raises (DatabaseManager.get_channel_stats db guild_id days) ->
        AnalyticsHealthAnalyzer.get_pulse db guild_id days
        = AnalyticsHealthAnalyzer.pulse_error)
    /\ (Py.raises (DatabaseManager.get_message_stats db guild_id 7)
        \/ Py.raises (DatabaseManager.get_channel_stats db guild_id 7)
        \/ Py.raises (DatabaseManager.get_user_stats db guild_id 30) ->
        AnalyticsHealthAnalyzer.calculate_health_score db guild_id
        = AnalyticsHealthAnalyzer.health_error
        /\ AnalyticsHealthAnalyzer.generate_suggestions db guild_id
           = low_score_suggestions)
    /\ (Py.raises (HealthAnalyzer.get_message_count provider guild_id days)
        \/ Py.raises (HealthAnalyzer.get_active_users provider guild_id days)
        \/ Py.raises (HealthAnalyzer.get_activity_trend provider guild_id days)
        \/ Py.raises (HealthAnalyzer.get_peak_hours provider guild_id days)
        \/ Py.raises (HealthAnalyzer.get_quiet_channels provider guild_id days)
        -> Py.raises (HealthAnalyzer.get_pulse provider guild_id days))
    /\ (Py.raises (HealthAnalyzer.get_message_count provider guild_id 30)
        \/ Py.raises (HealthAnalyzer.get_active_users provider guild_id 30)
        \/ Py.raises (HealthAnalyzer.get_active_users provider guild_id 7)
        \/ Py.raises (HealthAnalyzer.get_activity_trend provider guild_id 7)
        \/ Py.raises (HealthAnalyzer.get_join_leave_stats provider guild_id 30)
        \/ Py.raises (HealthAnalyzer.get_channel_activity provider guild_id 30)
        -> Py.raises (HealthAnalyzer.calculate_health_score provider guild_id))
    /\ (Py.raises (HealthAnalyzer.get_activity_trend provider guild_id 7)
        \/ Py.raises (HealthAnalyzer.get_channel_activity provider guild_id 30)
        \/ Py.raises (HealthAnalyzer.get_join_leave_stats provider guild_id 30)
        \/ Py.raises (HealthAnalyzer.get_peak_hours provider guild_id 30)
        -> Py.raises (HealthAnalyzer.generate_suggestions provider guild_id)).
Proof.
  intros db provider g d.
  assert (Hhealth :
            Py.raises (DatabaseManager.get_message_stats db g 7)
            \/ Py.raises (DatabaseManager.get_channel_stats db g 7)
            \/ Py.raises (DatabaseManager.get_user_stats db g 30) ->
            AnalyticsHealthAnalyzer.calculate_health_score db g
            = AnalyticsHealthAnalyzer.health_error).
  { intro H. unfold AnalyticsHealthAnalyzer.calculate_health_score,
      Py.try_except.
    first_failure; try reflexivity. no_failure H. }
  repeat split.
  - intros [e H]. unfold ChannelAnalyzer.analyze_channels, Py.try_except,
      Py.bind. rewrite H. reflexivity.
  - intros [e H]. unfold ContributorAnalyzer.get_top_contributors,
      Py.try_except, Py.bind. rewrite H. reflexivity.
  - intro H. unfold AnalyticsHealthAnalyzer.get_pulse, Py.try_except.
    first_failure; try reflexivity. no_failure H.
  - exact (Hhealth H).
  - unfold AnalyticsHealthAnalyzer.generate_suggestions.
    rewrite (Hhealth H). reflexivity.
  - intro H. unfold HealthAnalyzer.get_pulse.
    first_failure; try (eexists; reflexivity). no_failure H.
  - intro H. unfold HealthAnalyzer.calculate_health_score.
    first_failure; try (eexists; reflexivity). no_failure H.
  - intro H. unfold HealthAnalyzer.generate_suggestions.
    first_failure; try (eexists; reflexivity). no_failure H.
Qed.

Lemma query_failure_handling_witness :
  ChannelAnalyzer.analyze_channels failing_db 1 7
  = ChannelAnalyzer.empty_analysis
  /\ ContributorAnalyzer.get_top_contributors failing_db 1 7 = []
  /\ AnalyticsHealthAnalyzer.get_pulse failing_db 1 7
     = AnalyticsHealthAnalyzer.pulse_error
  /\ AnalyticsHealthAnalyzer.calculate_health_score failing_db 1
     = AnalyticsHealthAnalyzer.health_error
  /\ AnalyticsHealthAnalyzer.generate_suggestions failing_db 1
     = low_score_suggestions
  /\ Py.raises (HealthAnalyzer.get_pulse failing_provider 1 7)
  /\ Py.raises (HealthAnalyzer.calculate_health_score failing_provider 1)
  /\ Py.raises (HealthAnalyzer.generate_suggestions failing_provider 1).
Proof.
  destruct (query_failure_handling failing_db failing_provider 1 7)
    as (Hc & Ht & Hp & Hh & Hrp & Hrh & Hrs).
  assert (Fd : forall A (q : Py.M A), q = Py.raise (Py.QueryError 1) ->
                                      Py.raises q).
  { intros A q ->. exists (Py.QueryError 1). reflexivity. }
  split; [apply Hc; apply Fd; reflexivity|].
  split; [apply Ht; apply Fd; reflexivity|].
  split; [apply Hp; left; apply Fd; reflexivity|].
  split; [apply Hh; left; apply Fd; reflexivity|].
  split; [apply Hh; left; apply Fd; reflexivity|].
  split; [apply Hrp; left; apply Fd; reflexivity|].
  split; [apply Hrh; left; apply Fd; reflexivity|].
  apply Hrs; left; apply Fd; reflexivity.
Defined.

(** C3 fails as stated: with a failing provider the entropy variant of
    [calculate_health_score] returns no result, the query's exception
    reaches the caller. *)
Lemma health_score_failure_propagates :
  HealthAnalyzer.calculate_health_score failing_provider 1
  = inl (Py.QueryError 1)
  /\ ~ exists result,
         HealthAnalyzer.calculate_health_score failing_provider 1
         = inr result.
Proof.
  split; [reflexivity|].
  intros [result H]. discriminate H.
Qed.

(** ** Sorting and slicing *)

Section Sorting.
Context {A : Type} (key : A -> Q).

Lemma insert_desc_In (x y : A) (l : list A) :
  In y (Py.insert_desc key x l) <-> y = x \/ In y l.
Proof.
  induction l as [|z l IH]; simpl.
  - intuition.
  - destruct (Py.Qltb (key z) (key x)); simpl; [intuition|].
    rewrite IH. intuition.
Qed.

Lemma sort_desc_acc_In (y : A) (l acc : list A) :
  In y (fold_left (fun acc x => Py.insert_desc key x acc) l acc)
  <-> In y l \/ In y acc.
Proof.
  revert acc. induction l as [|x l IH]; intro acc; simpl.
  - intuition.
  - rewrite IH, insert_desc_In. intuition.
Qed.

Lemma sort_desc_In (y : A) (l : list A) :
  In y (Py.sort_desc key l) <-> In y l.
Proof.
  unfold Py.sort_desc. rewrite sort_desc_acc_In. simpl. intuition.
Qed.

Lemma insert_desc_length (x : A) (l : list A) :
  List.length (Py.insert_desc key x l) = S (List.length l).
Proof.
  induction l as [|z l IH]; simpl; [reflexivity|].
  destruct (Py.Qltb (key z) (key x)); simpl; congruence.
Qed.

Lemma sort_desc_length (l : list A) :
  List.length (Py.sort_desc key l) = List.length l.
Proof.
  unfold Py.sort_desc.
  assert (G : forall acc,
             List.length
               (fold_left (fun acc x => Py.insert_desc key x acc) l acc)
             = (List.length l + List.length acc)%nat).
  { induction l as [|x l IH]; intro acc; simpl; [reflexivity|].
    rewrite IH, insert_desc_length. lia. }
  rewrite G. simpl. lia.
Qed.

Lemma insert_desc_sorted (x : A) (l : list A) :
  Sorted (Py.desc key) l -> Sorted (Py.desc key) (Py.insert_desc key x l).
Proof.
  induction 1 as [|z l Hs IH Hd]; simpl.
  - repeat constructor.
  - destruct (Py.Qltb (key z) (key x)) eqn:E.
    + constructor; [constructor; assumption|].
      constructor. unfold Py.desc. apply Qlt_le_weak, Qltb_lt, E.
    + apply Qltb_ge in E. constructor; [exact IH|].
      destruct l as [|w l]; simpl.
      * constructor. exact E.
      * destruct (Py.Qltb (key w) (key x)); constructor;
          [exact E | inversion Hd; assumption].
Qed.

Lemma sort_desc_sorted (l : list A) : Sorted (Py.desc key) (Py.sort_desc key l).
Proof.
  unfold Py.sort_desc.
  assert (G : forall acc, Sorted (Py.desc key) acc ->
             Sorted (Py.desc key)
               (fold_left (fun acc x => Py.insert_desc key x acc) l acc)).
  { induction l as [|x l IH]; intros acc Hacc; simpl; [exact Hacc|].
    apply IH, insert_desc_sorted, Hacc. }
  apply G. constructor.
Qed.

End Sorting.

Lemma Sorted_firstn {A} (R : A -> A -> Prop) (n : nat) (l : list A) :
  Sorted R l -> Sorted R (firstn n l).
Proof.
  intro H. revert n. induction H as [|a l Hs IH Hd]; intro n.
  - rewrite firstn_nil. constructor.
  - destruct n as [|n]; simpl; [constructor|].
    constructor; [apply IH|].
    destruct Hd as [|b l Hab]; destruct n; simpl; constructor; assumption.
Qed.

Lemma Sorted_weaken {A} (R R' : A -> A -> Prop) (l : list A) :
  (forall a b, R a b -> R' a b) -> Sorted R l -> Sorted R' l.
Proof.
  intros HR H. induction H as [|a l Hs IH Hd]; constructor; [exact IH|].
  destruct Hd; constructor; auto.
Qed.

Lemma firstn_In {A} (n : nat) (l : list A) (x : A) :
  In x (firstn n l) -> In x l.
Proof.
  revert n. induction l as [|a l IH]; intros [|n]; simpl; try tauto.
  intros [H|H]; [now left | right; eauto].
Qed.

Lemma firstn_ten_length {A} (l : list A) :
  (List.length (firstn 10 l) <= 10)%nat.
Proof. rewrite length_firstn. apply Nat.le_min_l. Qed.

Lemma NoDup_map_injective {A B} (f : A -> B) (l : list A) (a b : A) :
  NoDup (map f l) -> In a l -> In b l -> f a = f b -> a = b.
Proof.
  induction l as [|x l IH]; simpl; [tauto|].
  intros Hnd Ha Hb Hf. inversion Hnd as [|? ? Hx Hl]; subst.
  destruct Ha as [->|Ha], Hb as [->|Hb].
  - reflexivity.
  - exfalso. apply Hx. rewrite Hf. apply in_map, Hb.
  - exfalso. apply Hx. rewrite <- Hf. apply in_map, Ha.
  - apply IH; assumption.
Qed.

(** ** Channel classification *)

Section Channels.
Import DatabaseManager ChannelAnalyzer.

Lemma bucket_of_active (avg : Q) (ch : ChannelStat) :
  bucket_of avg ch = Some Active
  <-> (avg <= inject_Z (message_count ch))%Q /\ 10 < message_count ch.
Proof.
  unfold bucket_of.
  destruct (Qle_bool avg (inject_Z (message_count ch))) eqn:E1;
    destruct (10 <? message_count ch) eqn:E2; simpl.
  - apply Qle_bool_iff in E1. apply Z.ltb_lt in E2. tauto.
  - apply Z.ltb_ge in E2.
    destruct (message_count ch =? 0);
      [|destruct (Py.Qltb _ _)]; split; try discriminate; lia.
  - assert (N : ~ (avg <= inject_Z (message_count ch))%Q).
    { intro L. apply Qle_bool_iff in L. congruence. }
    destruct (message_count ch =? 0);
      [|destruct (Py.Qltb _ _)]; split; try discriminate; tauto.
  - apply Z.ltb_ge in E2.
    destruct (message_count ch =? 0);
      [|destruct (Py.Qltb _ _)]; split; try discriminate; lia.
Qed.

Lemma bucket_of_dead (avg : Q) (ch : ChannelStat) :
  bucket_of avg ch = Some Dead <-> message_count ch = 0.
Proof.
  destruct (bucket_of avg ch) as [b|] eqn:E.
  - destruct b.
    + apply bucket_of_active in E. split; [discriminate|lia].
    + split; [|reflexivity]. intros _. unfold bucket_of in E.
      destruct (_ && _); [discriminate|].
      destruct (message_count ch =? 0) eqn:Z0;
        [apply Z.eqb_eq, Z0|].
      destruct (Py.Qltb _ _); discriminate.
    + split; [discriminate|]. intro Z0. unfold bucket_of in E.
      destruct (_ && _); [discriminate|].
      rewrite Z0 in E. discriminate.
  - split; [discriminate|]. intro Z0. unfold bucket_of in E.
    destruct (_ && _); [discriminate|].
    rewrite Z0 in E. discriminate.
Qed.

Lemma bucket_of_declining (avg : Q) (ch : ChannelStat) :
  bucket_of avg ch = Some Declining
  <-> (inject_Z (message_count ch) < avg * (3 # 10))%Q
      /\ ~ ((avg <= inject_Z (message_count ch))%Q
            /\ 10 < message_count ch)
      /\ message_count ch <> 0.
Proof.
  rewrite <- bucket_of_active, <- (bucket_of_dead avg).
  unfold bucket_of.
  destruct (_ && _); [split; [discriminate|intuition congruence]|].
  destruct (message_count ch =? 0);
    [split; [discriminate|intuition congruence]|].
  destruct (Py.Qltb _ _) eqn:E.
  - apply Qltb_lt in E. split; [|reflexivity].
    intros _. repeat split; [exact E|discriminate|discriminate].
  - apply Qltb_ge in E. split; [discriminate|].
    intros [L _]. exfalso. exact (Qlt_not_le _ _ L E).
Qed.

Lemma in_bucket_iff (b : bucket) (avg : Q) (ch : ChannelStat) :
  in_bucket b avg ch = true <-> bucket_of avg ch = Some b.
Proof.
  unfold in_bucket.
  destruct (bucket_of avg ch) as [[| |]|]; destruct b;
    split; congruence.
Qed.

(** The loop splits the rows into the three buckets, keeping their
    order. *)
Lemma categorize_fold (days : Z) (avg : Q) (l : list ChannelStat)
      (acc : Analysis) :
  fold_left (categorize days avg) l acc
  = {| active :=
         active acc ++ map active_entry (filter (in_bucket Active avg) l);
       dead :=
         dead acc
         ++ map (dead_entry days) (filter (in_bucket Dead avg) l);
       declining :=
         declining acc
         ++ map (declining_entry avg)
                (filter (in_bucket Declining avg) l) |}.
Proof.
  revert acc. induction l as [|ch l IH]; intro acc; simpl.
  - destruct acc; simpl. rewrite !app_nil_r. reflexivity.
  - rewrite IH. unfold categorize, in_bucket.
    destruct (bucket_of avg ch) as [[| |]|]; simpl;
      rewrite <- ?app_assoc; reflexivity.
Qed.

Lemma analyze_stats_buckets (channel_stats : list ChannelStat) (days : Z) :
  let avg := avg_messages channel_stats in
  analyze_stats channel_stats days
  = {| active :=
         firstn 10
           (Py.sort_desc (fun x => inject_Z (a_messages x))
              (map active_entry
                   (filter (in_bucket Active avg) channel_stats)));
       dead :=
         firstn 10
           (map (dead_entry days)
                (filter (in_bucket Dead avg) channel_stats));
       declining :=
         firstn 10
           (Py.sort_desc c_decline_pct
              (map (declining_entry avg)
                   (filter (in_bucket Declining avg) channel_stats))) |}.
Proof.
  destruct channel_stats as [|ch l]; [reflexivity|].
  unfold analyze_stats. rewrite categorize_fold. reflexivity.
Qed.

Lemma active_sound channel_stats days (e : ActiveChannel) :
  In e (active (analyze_stats channel_stats days)) ->
  exists ch, In ch channel_stats /\ e = active_entry ch
             /\ bucket_of (avg_messages channel_stats) ch = Some Active.
Proof.
  rewrite analyze_stats_buckets. cbn [active dead declining]. intro H.
  apply firstn_In, sort_desc_In, in_map_iff in H.
  destruct H as (ch & <- & H). apply filter_In in H.
  exists ch. rewrite <- in_bucket_iff. tauto.
Qed.

Lemma dead_sound channel_stats days (e : DeadChannel) :
  In e (dead (analyze_stats channel_stats days)) ->
  exists ch, In ch channel_stats /\ e = dead_entry days ch
             /\ bucket_of (avg_messages channel_stats) ch = Some Dead.
Proof.
  rewrite analyze_stats_buckets. cbn [active dead declining]. intro H.
  apply firstn_In, in_map_iff in H.
  destruct H as (ch & <- & H). apply filter_In in H.
  exists ch. rewrite <- in_bucket_iff. tauto.
Qed.

Lemma declining_sound channel_stats days (e : DecliningChannel) :
  In e (declining (analyze_stats channel_stats days)) ->
  exists ch, In ch channel_stats
             /\ e = declining_entry (avg_messages channel_stats) ch
             /\ bucket_of (avg_messages channel_stats) ch
                = Some Declining.
Proof.
  rewrite analyze_stats_buckets. cbn [active dead declining]. intro H.
  apply firstn_In, sort_desc_In, in_map_iff in H.
  destruct H as (ch & <- & H). apply filter_In in H.
  exists ch. rewrite <- in_bucket_iff. tauto.
Qed.

(** With distinct channel ids, an id reported in a bucket belongs to a
    row that the chain put there. *)
Lemma reported_ids channel_stats days (id : Z) :
  let r := analyze_stats channel_stats days in
  let avg := avg_messages channel_stats in
  (In id (map a_id (active r)) ->
   exists ch, In ch channel_stats /\ channel_id ch = id
              /\ bucket_of avg ch = Some Active)
  /\ (In id (map d_id (dead r)) ->
      exists ch, In ch channel_stats /\ channel_id ch = id
                 /\ bucket_of avg ch = Some Dead)
  /\ (In id (map c_id (declining r)) ->
      exists ch, In ch channel_stats /\ channel_id ch = id
                 /\ bucket_of avg ch = Some Declining).
Proof.
  simpl. repeat split; intro H; apply in_map_iff in H;
    destruct H as (e & <- & H).
  - apply active_sound in H. destruct H as (ch & ? & -> & ?).
    exists ch. auto.
  - apply dead_sound in H. destruct H as (ch & ? & -> & ?).
    exists ch. auto.
  - apply declining_sound in H. destruct H as (ch & ? & -> & ?).
    exists ch. auto.
Qed.

Lemma buckets_disjoint channel_stats days (id : Z) :
  let r := analyze_stats channel_stats days in
  NoDup (map channel_id channel_stats) ->
  ~ (In id (map a_id (active r)) /\ In id (map d_id (dead r)))
  /\ ~ (In id (map a_id (active r)) /\ In id (map c_id (declining r)))
  /\ ~ (In id (map d_id (dead r)) /\ In id (map c_id (declining r))).
Proof.
  intros r Hnd.
  destruct (reported_ids channel_stats days id) as (Ha & Hd & Hc).
  repeat split; intros [H1 H2];
    [apply Ha in H1; apply Hd in H2
    |apply Ha in H1; apply Hc in H2
    |apply Hd in H1; apply Hc in H2];
    destruct H1 as (ch1 & I1 & E1 & B1);
    destruct H2 as (ch2 & I2 & E2 & B2);
    assert (ch1 = ch2)
      by (apply (NoDup_map_injective channel_id channel_stats);
          congruence);
    subst ch2; congruence.
Qed.

End Channels.

Section ChannelClaims.
Import DatabaseManager ChannelAnalyzer.

(** C4, as the code has it.  [analyze_channels] averages the message
    counts (0 without channels) and runs every row through the chain:
    dead iff the count is 0, active iff the count is at least the
    average and above 10, declining iff the count is below 0.3 times the
    average and neither of the former.  Each returned list holds the
    first ten rows of its bucket: active by message count descending,
    dead in input order, declining by decline percentage descending.
    Hence a row with count 0 is never reported as active or declining,
    and is reported dead whenever at most ten rows are dead; with
    distinct channel ids the three reported id lists are pairwise
    disjoint; no list is longer than ten; no channels give three empty
    lists; and the counts 100, 0, 0, 5 give one active, two dead and one
    declining channel. *)
Theorem channel_classification :
  forall (channel_stats : list ChannelStat) (days : Z),
    let avg := avg_messages channel_stats in
    let r := analyze_stats channel_stats days in
    (forall db guild_id,
        get_channel_stats db guild_id days = inr channel_stats ->
        analyze_channels db guild_id days = r)
    /\ (avg_messages [] = 0%Q
        /\ (channel_stats <> [] ->
         avg = (inject_Z (Py.sumZ (map message_count channel_stats))
                / inject_Z (Z.of_nat (List.length channel_stats)))%Q))
    /\ (forall ch,
           (bucket_of avg ch = Some Dead <-> message_count ch = 0)
           /\ (bucket_of avg ch = Some Active
               <-> (avg <= inject_Z (message_count ch))%Q
                   /\ 10 < message_count ch)
           /\ (bucket_of avg ch = Some Declining
               <-> (inject_Z (message_count ch) < avg * (3 # 10))%Q
                   /\ ~ ((avg <= inject_Z (message_count ch))%Q
                         /\ 10 < message_count ch)
                   /\ message_count ch <> 0))
    /\ r = {| active :=
                firstn 10
                  (Py.sort_desc (fun x => inject_Z (a_messages x))
                     (map active_entry
                          (filter (in_bucket Active avg) channel_stats)));
              dead :=
                firstn 10
                  (map (dead_entry days)
                       (filter (in_bucket Dead avg) channel_stats));
              declining :=
                firstn 10
                  (Py.sort_desc c_decline_pct
                     (map (declining_entry avg)
                          (filter (in_bucket Declining avg)
                                  channel_stats))) |}
    /\ (forall e, In e (active r) ->
                  10 < a_messages e /\ (avg <= inject_Z (a_messages e))%Q)
    /\ (forall e, In e (dead r) -> d_messages e = 0)
    /\ (forall e, In e (declining r) ->
                  c_messages e <> 0
                  /\ (inject_Z (c_messages e) < avg * (3 # 10))%Q
                  /\ ((0 < avg)%Q ->
                      c_decline_pct e
                      = ((avg - inject_Z (c_messages e)) / avg * 100)%Q))
    /\ ((List.length (filter (in_bucket Dead avg) channel_stats) <= 10)%nat
        -> forall ch, In ch channel_stats -> message_count ch = 0 ->
                      In (channel_id ch) (map d_id (dead r)))
    /\ (NoDup (map channel_id channel_stats) ->
        (forall id,
            ~ (In id (map a_id (active r)) /\ In id (map d_id (dead r)))
            /\ ~ (In id (map a_id (active r))
                  /\ In id (map c_id (declining r)))
            /\ ~ (In id (map d_id (dead r))
                  /\ In id (map c_id (declining r))))
        /\ (forall ch, In ch channel_stats -> message_count ch = 0 ->
                       ~ In (channel_id ch) (map a_id (active r))
                       /\ ~ In (channel_id ch) (map c_id (declining r))))
    /\ Sorted (fun a b => a_messages b <= a_messages a) (active r)
    /\ Sorted (fun a b => (c_decline_pct b <= c_decline_pct a)%Q)
              (declining r)
    /\ (List.length (active r) <= 10)%nat
    /\ (List.length (dead r) <= 10)%nat
    /\ (List.length (declining r) <= 10)%nat
    /\ analyze_stats [] days = empty_analysis
    /\ avg_messages scenario_channels = (105 # 4)%Q
    /\ analyze_stats scenario_channels days
       = {| active := [active_entry (channel 1 100 20)];
            dead := [dead_entry days (channel 2 0 0);
                     dead_entry days (channel 3 0 0)];
            declining := [declining_entry (105 # 4) (channel 4 5 2)] |}.
Proof.
  intros channel_stats days avg r.
  assert (Hr := analyze_stats_buckets channel_stats days).
  cbv zeta in Hr. fold avg r in Hr.
  split.
  { intros db g Hq. unfold analyze_channels, Py.try_except, Py.bind.
    rewrite Hq. reflexivity. }
  split.
  { split; [reflexivity|].
    intro Hne. subst avg. destruct channel_stats; [congruence|reflexivity]. }
  split.
  { intro ch. split; [apply bucket_of_dead|].
    split; [apply bucket_of_active|apply bucket_of_declining]. }
  split; [exact Hr|].
  split.
  { intros e He. apply active_sound in He.
    destruct He as (ch & _ & -> & B). apply bucket_of_active in B.
    simpl. tauto. }
  split.
  { intros e He. apply dead_sound in He.
    destruct He as (ch & _ & -> & _). reflexivity. }
  split.
  { intros e He. apply declining_sound in He.
    destruct He as (ch & _ & -> & B). apply bucket_of_declining in B.
    fold avg in B |- *. destruct B as (B1 & _ & B3).
    cbn [c_messages c_decline_pct declining_entry].
    repeat split; [exact B3|exact B1|].
    intro Hpos. apply Qltb_lt in Hpos. rewrite Hpos. reflexivity. }
  split.
  { intros Hlen ch Hin Hz. rewrite Hr. cbn [dead].
    rewrite firstn_all2 by (rewrite length_map; exact Hlen).
    rewrite map_map. apply in_map_iff. exists ch. split; [reflexivity|].
    apply filter_In. split; [exact Hin|].
    apply in_bucket_iff, bucket_of_dead, Hz. }
  split.
  { intro Hnd. split.
    - intro id. apply buckets_disjoint. exact Hnd.
    - intros ch Hin Hz.
      destruct (reported_ids channel_stats days (channel_id ch))
        as (Ha & _ & Hc).
      assert (Bd : bucket_of avg ch = Some Dead)
        by (apply bucket_of_dead, Hz).
      split; intro H; [apply Ha in H|apply Hc in H];
        destruct H as (ch' & I' & E' & B');
        assert (ch' = ch)
          by (apply (NoDup_map_injective channel_id channel_stats);
              assumption);
        subst ch'; fold avg in B'; congruence. }
  split.
  { rewrite Hr. cbn [active]. apply Sorted_firstn.
    eapply Sorted_weaken; [|apply sort_desc_sorted].
    intros a b Hab. unfold Py.desc in Hab.
    rewrite <- Zle_Qle in Hab. exact Hab. }
  split.
  { rewrite Hr. cbn [declining]. apply Sorted_firstn, sort_desc_sorted. }
  split; [rewrite Hr; apply firstn_ten_length|].
  split; [rewrite Hr; apply firstn_ten_length|].
  split; [rewrite Hr; apply firstn_ten_length|].
  split; [reflexivity|].
  split; reflexivity.
Qed.

Lemma channel_classification_witness :
  let r := analyze_stats scenario_channels 7 in
  analyze_channels scenario_channel_db 1 7 = r
  /\ In 2 (map d_id (dead r))
  /\ ~ In 2 (map a_id (active r))
  /\ ~ In 2 (map c_id (declining r))
  /\ ~ (In 1 (map a_id (active r)) /\ In 1 (map c_id (declining r)))
  /\ c_decline_pct (declining_entry (105 # 4) (channel 4 5 2))
     = ((avg_messages scenario_channels - inject_Z 5)
        / avg_messages scenario_channels * 100)%Q.
Proof.
  intro r.
  destruct (channel_classification scenario_channels 7)
    as (Hdb & _ & _ & _ & _ & _ & Hdecl & Hdead & Hdisj & _).
  assert (Hnd : NoDup (map channel_id scenario_channels)).
  { simpl. repeat constructor; simpl; intuition discriminate. }
  destruct (Hdisj Hnd) as [Hd Hz].
  assert (Hin : In (channel 2 0 0) scenario_channels)
    by (simpl; tauto).
  split; [exact (Hdb scenario_channel_db 1 eq_refl)|].
  split.
  { apply (Hdead ltac:(vm_compute; lia) (channel 2 0 0) Hin eq_refl). }
  split; [apply (Hz (channel 2 0 0) Hin eq_refl)|].
  split; [apply (Hz (channel 2 0 0) Hin eq_refl)|].
  split; [apply (Hd 1)|].
  apply (Hdecl (declining_entry (105 # 4) (channel 4 5 2))).
  - vm_compute. left. reflexivity.
  - reflexivity.
Defined.

(** C4 fails as stated: of eleven channels without a message only ten
    are reported dead; the eleventh has count 0 and is in no list. *)
Lemma silent_channel_beyond_cap :
  let r := analyze_stats eleven_silent_channels 7 in
  In (channel 11 0 0) eleven_silent_channels
  /\ message_count (channel 11 0 0) = 0
  /\ ~ In 11 (map d_id (dead r))
  /\ ~ In 11 (map a_id (active r))
  /\ ~ In 11 (map c_id (declining r)).
Proof.
  vm_compute. repeat split; try tauto.
  - intuition discriminate.
Qed.

End ChannelClaims.

(** ** Rising stars *)

Section RisingStars.
Import DatabaseManager ContributorAnalyzer.

Lemma rising_step_raised (days : Z) (l : list Contributor) (e : Py.exn) :
  fold_left (rising_step days) l (inl e) = inl e.
Proof. induction l as [|c l IH]; simpl; [reflexivity|exact IH]. Qed.

(** Every star the loop produces comes from a listed contributor that
    meets the criteria. *)
Lemma rising_fold_sound (days : Z) (l : list Contributor) :
  forall (acc res : list RisingStar),
    fold_left (rising_step days) l (inr acc) = inr res ->
    forall s, In s res ->
      In s acc
      \/ exists c q,
           In c l /\ Py.truediv (k_messages c) days = inr q
           /\ qualifies q (k_channels_used c) = true
           /\ s = rising_star_of c q.
Proof.
  induction l as [|c l IH]; intros acc res Hfold s Hs;
    cbn [fold_left] in Hfold.
  - injection Hfold as <-. now left.
  - assert (Hstep :
              rising_step days (inr acc) c
              = match Py.truediv (k_messages c) days with
                | inl e => inl e
                | inr q =>
                    if qualifies q (k_channels_used c)
                    then inr (acc ++ [rising_star_of c q])
                    else inr acc
                end).
    { unfold rising_step, Py.bind, Py.ret.
      destruct (Py.truediv (k_messages c) days) as [e|q];
        [reflexivity|].
      destruct (qualifies q (k_channels_used c)); reflexivity. }
    rewrite Hstep in Hfold. clear Hstep.
    destruct (Py.truediv (k_messages c) days) as [e|q] eqn:Hq.
    { rewrite rising_step_raised in Hfold. discriminate. }
    destruct (qualifies q (k_channels_used c)) eqn:Hqual;
      destruct (IH _ _ Hfold s Hs) as [Hin|(c' & q' & Hc' & Hrest)].
    + apply in_app_or in Hin. destruct Hin as [Hin|[<-|[]]];
        [now left|].
      right. exists c, q. simpl. auto.
    + right. exists c', q'. simpl. tauto.
    + now left.
    + right. exists c', q'. simpl. tauto.
Qed.

Lemma top_contributors_at_most_twenty db guild_id days :
  (List.length (get_top_contributors db guild_id days) <= 20)%nat.
Proof.
  unfold get_top_contributors, Py.try_except, Py.bind.
  destruct (get_user_stats db guild_id days) as [e|stats];
    [simpl; lia|].
  unfold Py.ret, rank_users. destruct stats; [simpl; lia|].
  rewrite length_firstn. apply Nat.le_min_l.
Qed.

(** C9. The candidates of [identify_rising_stars] are the contributors
    returned by [get_top_contributors] for the same window, at most
    twenty: every reported star is one of them and meets the criteria.
    In the crowded cohort user 99 meets the criteria (2 messages a day
    in 2 channels) but is ranked twenty-first, so it is neither among the
    top contributors nor among the rising stars. *)
Theorem rising_stars_only_from_top_twenty :
  (forall db guild_id days,
      (List.length (get_top_contributors db guild_id days) <= 20)%nat
      /\ forall s, In s (identify_rising_stars db guild_id days) ->
           exists c q,
             In c (get_top_contributors db guild_id days)
             /\ Py.truediv (k_messages c) days = inr q
             /\ qualifies q (k_channels_used c) = true
             /\ s = rising_star_of c q)
  /\ (In (user 99 28 2 1700000000 1700000000) crowded_cohort
      /\ Py.truediv 28 14 = inr (28 # 14)%Q
      /\ qualifies (28 # 14) 2 = true
      /\ List.length (rank_users crowded_cohort) = 20%nat
      /\ map (fun u => _calculate_contributor_score u crowded_cohort)
             crowded_cohort
         = (84 :: repeat (473 # 5) 20)%Q
      /\ ~ In 99 (map k_user_id (get_top_contributors crowded_db 1 14))
      /\ ~ In 99 (map s_user_id (identify_rising_stars crowded_db 1 14))).
Proof.
  split.
  - intros db g days. split; [apply top_contributors_at_most_twenty|].
    intros s Hs. unfold identify_rising_stars, Py.try_except in Hs.
    unfold Py.bind at 1 in Hs.
    destruct (fold_left (rising_step days)
                        (get_top_contributors db g days) (Py.ret []))
      as [e|stars] eqn:Hfold; [contradiction|].
    cbn [Py.ret] in Hs. apply firstn_In, sort_desc_In in Hs.
    destruct (rising_fold_sound _ _ _ _ Hfold s Hs) as [[]|H].
    exact H.
  - split; [left; reflexivity|].
    split; [reflexivity|].
    split; [reflexivity|].
    split; [vm_compute; reflexivity|].
    split; [vm_compute; reflexivity|].
    split; vm_compute; intuition discriminate.
Qed.

Lemma rising_stars_only_from_top_twenty_witness :
  identify_rising_stars scenario_db 1 14 = [scenario_star]
  /\ exists c q,
       In c (get_top_contributors scenario_db 1 14)
       /\ Py.truediv (k_messages c) 14 = inr q
       /\ qualifies q (k_channels_used c) = true
       /\ scenario_star = rising_star_of c q.
Proof.
  split; [vm_compute; reflexivity|].
  destruct rising_stars_only_from_top_twenty as [H _].
  destruct (H scenario_db 1 14) as [_ Hs].
  apply Hs. vm_compute. left. reflexivity.
Defined.

End RisingStars.

(** ** Rounding of real numbers *)

Open Scope R_scope.

Lemma roundR_near (x : R) (z : Z) :
  IZR z - 1 / 2 < x < IZR z + 1 / 2 -> Py.roundR x = z.
Proof.
  intros [Hlo Hhi]. unfold Py.roundR.
  destruct (Rle_dec (IZR z) x) as [Hz|Hz].
  - assert (E : z = Int_part x) by (apply Int_part_spec; lra).
    rewrite <- E.
    destruct (Rlt_dec (x - IZR z) (1 / 2)); [reflexivity|lra].
  - assert (E : (z - 1)%Z = Int_part x).
    { apply Int_part_spec. rewrite minus_IZR. lra. }
    rewrite <- E. rewrite minus_IZR.
    destruct (Rlt_dec (x - (IZR z - 1)) (1 / 2)); [lra|].
    destruct (Rlt_dec (1 / 2) (x - (IZR z - 1))); [f_equal; lia|lra].
Qed.

Lemma roundR_error (x : R) :
  - (1 / 2) <= IZR (Py.roundR x) - x <= 1 / 2.
Proof.
  unfold Py.roundR.
  destruct (base_Int_part x) as [Hlo Hhi].
  destruct (Rlt_dec (x - IZR (Int_part x)) (1 / 2)); [lra|].
  destruct (Rlt_dec (1 / 2) (x - IZR (Int_part x))).
  - rewrite plus_IZR. lra.
  - destruct (Z.even (Int_part x)); [lra|]. rewrite plus_IZR. lra.
Qed.

Lemma roundR_IZR (z : Z) : Py.roundR (IZR z) = z.
Proof. apply roundR_near. lra. Qed.

(** Settles a goal over [Rmin] and [Rmax] of constants, innermost
    comparison first. *)
Ltac real_cases :=
  unfold Rmin, Rmax;
  repeat match goal with
         | |- context [Rle_dec ?a ?b] =>
             lazymatch a with
             | context [Rle_dec _ _] => fail
             | _ =>
                 lazymatch b with
                 | context [Rle_dec _ _] => fail
                 | _ => destruct (Rle_dec a b); try lra
                 end
             end
         end;
  try lra.

(** ** Channel health of a concentrated community *)

Section ChannelHealth.
Import HealthAnalyzer.

Lemma fold_add_shift (l : list Z) (a : Z) :
  fold_left Z.add l a = (a + Py.sumZ l)%Z.
Proof.
  unfold Py.sumZ. revert a.
  induction l as [|x l IH]; intro a; simpl; [lia|].
  rewrite IH, (IH x). lia.
Qed.

Lemma sumZ_all_zero (l : list ChannelActivity) :
  Forall (fun ch => ch_message_count ch = 0%Z) l ->
  Py.sumZ (map ch_message_count l) = 0%Z.
Proof.
  induction 1 as [|ch l Hch Hl IH]; [reflexivity|].
  unfold Py.sumZ. simpl. rewrite fold_add_shift, IH, Hch. reflexivity.
Qed.

Lemma sumZ_app (l1 l2 : list Z) :
  Py.sumZ (l1 ++ l2) = (Py.sumZ l1 + Py.sumZ l2)%Z.
Proof.
  unfold Py.sumZ at 1. rewrite fold_left_app.
  rewrite fold_add_shift. reflexivity.
Qed.

(** A list with exactly one non-zero count is that row between two runs
    of zero rows. *)
Lemma single_nonzero_split (l : list ChannelActivity) :
  List.length
    (filter (fun ch => negb (ch_message_count ch =? 0)%Z) l) = 1%nat ->
  exists l1 x l2,
    l = l1 ++ x :: l2
    /\ ch_message_count x <> 0%Z
    /\ Forall (fun ch => ch_message_count ch = 0%Z) l1
    /\ Forall (fun ch => ch_message_count ch = 0%Z) l2.
Proof.
  induction l as [|ch l IH]; simpl; [discriminate|].
  destruct (ch_message_count ch =? 0)%Z eqn:E; simpl; intro H.
  - destruct (IH H) as (l1 & x & l2 & -> & Hx & H1 & H2).
    exists (ch :: l1), x, l2. repeat split; try assumption.
    constructor; [apply Z.eqb_eq, E|exact H1].
  - exists [], ch, l. repeat split.
    + apply Z.eqb_neq, E.
    + constructor.
    + injection H as H. apply Forall_forall. intros y Hy.
      destruct (ch_message_count y =? 0)%Z eqn:Ey;
        [apply Z.eqb_eq, Ey|].
      exfalso.
      assert (In y (filter
                      (fun ch => negb (ch_message_count ch =? 0)%Z) l)).
      { apply filter_In. rewrite Ey. auto. }
      apply length_zero_iff_nil in H. rewrite H in *. contradiction.
Qed.

(** A row that holds every message contributes nothing to the entropy,
    and rows without messages are skipped. *)
Lemma entropy_unchanged (total_msgs : Z) (l : list ChannelActivity) :
  total_msgs <> 0%Z ->
  Forall (fun ch => (ch_message_count ch <= 0)%Z
                    \/ ch_message_count ch = total_msgs) l ->
  forall acc : R,
    fold_left (entropy_step total_msgs) l (inr acc) = inr acc.
Proof.
  intros Ht. induction 1 as [|ch l Hch Hl IH]; intro acc;
    [reflexivity|].
  cbn [fold_left].
  assert (Hstep : entropy_step total_msgs (inr acc) ch = inr acc).
  { unfold entropy_step, Py.bind.
    destruct (0 <? ch_message_count ch)%Z eqn:E; [|reflexivity].
    apply Z.ltb_lt in E. destruct Hch as [Hch|Hch]; [lia|].
    rewrite Hch. unfold truedivR.
    destruct (total_msgs =? 0)%Z eqn:E0; [apply Z.eqb_eq in E0; lia|].
    unfold Py.ret, log2.
    assert (Hp : IZR total_msgs / IZR total_msgs = 1).
    { field. apply not_0_IZR, Ht. }
    rewrite Hp.
    destruct (Rlt_dec 0 1); [|lra].
    unfold Py.ret. f_equal. rewrite ln_1. unfold Rdiv. ring. }
  rewrite Hstep. apply IH.
Qed.

Lemma ln_2_pos : 0 < ln 2.
Proof. pose proof ln_lt_2. lra. Qed.

Lemma single_nonzero_health (l : list ChannelActivity) :
  List.length
    (filter (fun ch => negb (ch_message_count ch =? 0)%Z) l) = 1%nat ->
  channel_health_score l = inr 0.
Proof.
  intro H. destruct (single_nonzero_split l H)
    as (l1 & x & l2 & El & Hx & H1 & H2).
  assert (Hsum : Py.sumZ (map ch_message_count l) = ch_message_count x).
  { rewrite El, map_app, sumZ_app. cbn [map].
    change (ch_message_count x :: map ch_message_count l2)
      with ([ch_message_count x] ++ map ch_message_count l2).
    rewrite sumZ_app, !sumZ_all_zero by assumption.
    unfold Py.sumZ. simpl. lia. }
  assert (Hall : Forall (fun ch => (ch_message_count ch <= 0)%Z
                                   \/ ch_message_count ch
                                      = ch_message_count x) l).
  { rewrite El. apply Forall_app. split; [|constructor].
    - eapply Forall_impl; [|exact H1]. simpl. intros; lia.
    - now right.
    - eapply Forall_impl; [|exact H2]. simpl. intros; lia. }
  unfold channel_health_score.
  destruct l as [|ch l']; [discriminate H|].
  rewrite Hsum. unfold Py.ret at 1.
  rewrite (entropy_unchanged _ _ Hx Hall). unfold Py.bind at 1.
  destruct (1 <? List.length (ch :: l'))%nat eqn:En.
  - apply Nat.ltb_lt in En. apply lt_1_INR in En.
    unfold log2. destruct (Rlt_dec 0 (INR (List.length (ch :: l'))));
      [|lra].
    unfold Py.bind, Py.ret. f_equal.
    destruct (Rlt_dec 0 (ln (INR (List.length (ch :: l'))) / ln 2));
      [unfold Rdiv; ring|].
    exfalso. apply n. apply Rdiv_lt_0_compat; [|apply ln_2_pos].
    rewrite <- ln_1. apply ln_increasing; lra.
  - unfold Py.bind, Py.ret. f_equal.
    destruct (Rlt_dec 0 1); [unfold Rdiv; ring|lra].
Qed.

(** *** The entropy of non-negative counts *)

Lemma ln_below_line (x : R) : 0 < x -> ln x <= x - 1.
Proof.
  intro Hx. pose proof (exp_ineq1_le (ln x)) as H.
  rewrite exp_ln in H by assumption. lra.
Qed.

(** The inequality behind the entropy bound, for one share [p] and [n]
    rows. *)
Lemma entropy_term_bound (p n : R) :
  0 < p -> 0 < n -> - (p * ln p) <= p * ln n + (/ n - p).
Proof.
  intros Hp Hn.
  assert (Hpn : 0 < p * n) by (apply Rmult_lt_0_compat; assumption).
  pose proof (ln_below_line (/ (p * n)) (Rinv_0_lt_compat _ Hpn)) as H.
  rewrite ln_Rinv, ln_mult in H by assumption.
  assert (E : p * / (p * n) = / n) by (field; lra).
  assert (H' : p * - (ln p + ln n) <= p * (/ (p * n) - 1))
    by (apply Rmult_le_compat_l; lra).
  lra.
Qed.

Lemma entropy_skipped (total_msgs : Z) (l : list ChannelActivity) :
  Forall (fun ch => (ch_message_count ch <= 0)%Z) l ->
  forall acc : R, fold_left (entropy_step total_msgs) l (inr acc) = inr acc.
Proof.
  induction 1 as [|ch l Hch Hl IH]; intro acc; [reflexivity|].
  cbn [fold_left]. unfold entropy_step at 2, Py.bind.
  destruct (0 <? ch_message_count ch)%Z eqn:E;
    [apply Z.ltb_lt in E; lia|].
  apply IH.
Qed.

(** With a positive total and non-negative counts the loop never raises
    and accumulates [entropy_sum]. *)
Lemma entropy_loop_sum (total_msgs : Z) (l : list ChannelActivity) :
  (0 < total_msgs)%Z ->
  Forall (fun ch => (0 <= ch_message_count ch)%Z) l ->
  forall acc : R,
    fold_left (entropy_step total_msgs) l (inr acc)
    = inr (acc + entropy_sum total_msgs l).
Proof.
  intros Ht. induction 1 as [|ch l Hch Hl IH]; intro acc.
  - simpl. f_equal. ring.
  - cbn [fold_left entropy_sum].
    assert (Hstep :
              entropy_step total_msgs (inr acc) ch
              = inr (acc + (if (0 <? ch_message_count ch)%Z
                            then - (share total_msgs ch
                                    * (ln (share total_msgs ch) / ln 2))
                            else 0))).
    { unfold entropy_step, Py.bind.
      destruct (0 <? ch_message_count ch)%Z eqn:E;
        [|unfold Py.ret; f_equal; ring].
      apply Z.ltb_lt in E. unfold truedivR.
      destruct (total_msgs =? 0)%Z eqn:E0; [apply Z.eqb_eq in E0; lia|].
      unfold Py.ret, log2. fold (share total_msgs ch).
      assert (Hp : 0 < share total_msgs ch).
      { unfold share. apply Rdiv_lt_0_compat; apply IZR_lt; assumption. }
      destruct (Rlt_dec 0 (share total_msgs ch)); [|contradiction].
      reflexivity. }
    rewrite Hstep, IH. f_equal. ring.
Qed.

Lemma active_share_total (total_msgs : Z) (l : list ChannelActivity) :
  Forall (fun ch => (0 <= ch_message_count ch)%Z) l ->
  active_share total_msgs l
  = IZR (Py.sumZ (map ch_message_count l)) / IZR total_msgs.
Proof.
  induction 1 as [|ch l Hch Hl IH].
  - simpl. unfold Py.sumZ. simpl. unfold Rdiv. ring.
  - cbn [active_share map]. unfold Py.sumZ. cbn [fold_left].
    rewrite fold_add_shift, Z.add_0_l, plus_IZR, IH.
    destruct (0 <? ch_message_count ch)%Z eqn:E.
    + unfold share, Rdiv. ring.
    + apply Z.ltb_ge in E.
      assert (ch_message_count ch = 0%Z) by lia.
      rewrite H. unfold Rdiv. ring.
Qed.

Lemma active_count_length (l : list ChannelActivity) :
  (active_count l <= List.length l)%nat.
Proof.
  induction l as [|ch l IH]; simpl; [lia|].
  destruct (0 <? ch_message_count ch)%Z; lia.
Qed.

Lemma sumZ_bounds_rows (l : list ChannelActivity) :
  Forall (fun ch => (0 <= ch_message_count ch)%Z) l ->
  (0 <= Py.sumZ (map ch_message_count l))%Z
  /\ Forall (fun ch => (ch_message_count ch
                        <= Py.sumZ (map ch_message_count l))%Z) l.
Proof.
  induction 1 as [|ch l Hch Hl [IH0 IH]].
  - split; [unfold Py.sumZ; simpl; lia|constructor].
  - cbn [map]. unfold Py.sumZ. cbn [fold_left].
    rewrite fold_add_shift, Z.add_0_l. split; [lia|].
    constructor; [lia|].
    eapply Forall_impl; [|exact IH]. simpl. intros; lia.
Qed.

Lemma entropy_sum_nonneg (total_msgs : Z) (l : list ChannelActivity) :
  (0 < total_msgs)%Z ->
  Forall (fun ch => (ch_message_count ch <= total_msgs)%Z) l ->
  0 <= entropy_sum total_msgs l.
Proof.
  intros Ht. induction 1 as [|ch l Hch Hl IH]; simpl; [lra|].
  destruct (0 <? ch_message_count ch)%Z eqn:E; [|lra].
  apply Z.ltb_lt in E.
  assert (Htot : 0 < IZR total_msgs) by (apply IZR_lt; assumption).
  assert (Hp : 0 < share total_msgs ch).
  { unfold share. apply Rdiv_lt_0_compat; [apply IZR_lt|]; assumption. }
  assert (Hp1 : share total_msgs ch <= 1).
  { unfold share. apply (Rmult_le_reg_r (IZR total_msgs)); [assumption|].
    unfold Rdiv. rewrite Rmult_assoc, Rinv_l by lra.
    apply IZR_le in Hch. lra. }
  pose proof (ln_below_line _ Hp) as Hln.
  pose proof ln_2_pos as H2.
  assert (Hq : ln (share total_msgs ch) / ln 2 <= 0).
  { unfold Rdiv. replace 0 with (0 * / ln 2) by ring.
    apply Rmult_le_compat_r; [|lra].
    apply Rlt_le, Rinv_0_lt_compat, H2. }
  assert (share total_msgs ch * (ln (share total_msgs ch) / ln 2) <= 0).
  { replace 0 with (share total_msgs ch * 0) by ring.
    apply Rmult_le_compat_l; lra. }
  lra.
Qed.

Lemma entropy_sum_bound (total_msgs : Z) (l : list ChannelActivity) (n : R) :
  (0 < total_msgs)%Z -> 0 < n ->
  entropy_sum total_msgs l * ln 2
  <= ln n * active_share total_msgs l
     + (INR (active_count l) / n - active_share total_msgs l).
Proof.
  intros Ht Hn. induction l as [|ch l IH].
  - simpl. unfold Rdiv. lra.
  - cbn [entropy_sum active_share active_count].
    destruct (0 <? ch_message_count ch)%Z eqn:E.
    + apply Z.ltb_lt in E.
      assert (Hp : 0 < share total_msgs ch).
      { unfold share. apply Rdiv_lt_0_compat; apply IZR_lt; assumption. }
      pose proof (entropy_term_bound _ _ Hp Hn) as Hterm.
      pose proof ln_2_pos as H2.
      rewrite S_INR.
      assert (Ediv : share total_msgs ch
                     * (ln (share total_msgs ch) / ln 2) * ln 2
                     = share total_msgs ch * ln (share total_msgs ch))
        by (field; lra).
      unfold Rdiv in *. nra.
    + simpl INR. unfold Rdiv in *. lra.
Qed.

(** For non-negative message counts the Channel Health score is computed
    without error and lies in [0, 100]. *)
Lemma channel_health_bounds (l : list ChannelActivity) :
  Forall (fun ch => (0 <= ch_message_count ch)%Z) l ->
  exists v : R, channel_health_score l = inr v /\ 0 <= v <= 100.
Proof.
  intro Hpos. unfold channel_health_score.
  destruct l as [|ch0 l0]; [exists 0; split; [reflexivity|lra]|].
  set (l := ch0 :: l0) in *.
  destruct (sumZ_bounds_rows l Hpos) as [Hsum Hrows].
  set (total := Py.sumZ (map ch_message_count l)) in *.
  assert (Hlen : (1 <= List.length l)%nat) by (simpl; lia).
  pose proof ln_2_pos as H2.
  assert (Hent : exists e : R,
             fold_left (entropy_step total) l (Py.ret 0) = inr e
             /\ 0 <= e /\ e * ln 2 <= ln (INR (List.length l))).
  { destruct (Z.eq_dec total 0) as [E0|E0].
    - exists 0. split; [|split; [lra|]].
      + apply entropy_skipped.
        eapply Forall_impl; [|exact Hrows]. simpl. intros; lia.
      + rewrite Rmult_0_l. rewrite <- ln_1.
        destruct (Nat.eq_dec (List.length l) 1) as [->|Hn];
          [simpl; lra|].
        apply Rlt_le, ln_increasing; [lra|].
        apply lt_1_INR. lia.
    - assert (Ht : (0 < total)%Z) by lia.
      exists (0 + entropy_sum total l).
      split; [apply entropy_loop_sum; assumption|].
      split; [pose proof (entropy_sum_nonneg total l Ht Hrows); lra|].
      assert (HN : 0 < INR (List.length l)) by (apply lt_0_INR; lia).
      pose proof (entropy_sum_bound total l _ Ht HN) as Hb.
      rewrite active_share_total in Hb by assumption. fold total in Hb.
      assert (E1 : IZR total / IZR total = 1).
      { field. apply not_0_IZR. lia. }
      rewrite E1 in Hb.
      assert (Hc : INR (active_count l) / INR (List.length l) <= 1).
      { apply (Rmult_le_reg_r (INR (List.length l))); [assumption|].
        unfold Rdiv. rewrite Rmult_assoc, Rinv_l by lra.
        pose proof (le_INR _ _ (active_count_length l)). lra. }
      lra. }
  destruct Hent as (e & He & He0 & Heb). rewrite He.
  unfold Py.bind at 1.
  destruct (1 <? List.length l)%nat eqn:En.
  - apply Nat.ltb_lt in En. apply lt_1_INR in En.
    unfold log2. destruct (Rlt_dec 0 (INR (List.length l))); [|lra].
    unfold Py.bind, Py.ret. eexists. split; [reflexivity|].
    assert (Hmax : 0 < ln (INR (List.length l)) / ln 2).
    { apply Rdiv_lt_0_compat; [|assumption].
      rewrite <- ln_1. apply ln_increasing; lra. }
    destruct (Rlt_dec 0 (ln (INR (List.length l)) / ln 2));
      [|contradiction].
    assert (Hratio : 0 <= e / (ln (INR (List.length l)) / ln 2) <= 1).
    { split.
      - apply Rmult_le_pos; [assumption|].
        apply Rlt_le, Rinv_0_lt_compat, Hmax.
      - apply (Rmult_le_reg_r (ln (INR (List.length l)) / ln 2));
          [assumption|].
        unfold Rdiv at 1. rewrite Rmult_assoc, Rinv_l by lra.
        apply (Rmult_le_reg_r (ln 2)); [assumption|].
        unfold Rdiv. rewrite !Rmult_1_r, !Rmult_1_l.
        rewrite Rmult_assoc, Rinv_l by lra. lra. }
    lra.
  - apply Nat.ltb_ge in En.
    assert (El : List.length l = 1%nat) by lia.
    rewrite El in Heb. simpl INR in Heb. rewrite ln_1 in Heb.
    unfold Py.bind, Py.ret. eexists. split; [reflexivity|].
    destruct (Rlt_dec 0 1); [|lra].
    assert (e = 0) by nra. subst e. unfold Rdiv. lra.
Qed.

End ChannelHealth.

Close Scope R_scope.

(** ** Component scores of the sample communities *)

Section HealthScore.
Import HealthAnalyzer.
Open Scope R_scope.

(** The thirty-day confidence never fails. *)
Lemma confidence_30_succeeds (messages_30d : Z) :
  exists c : Q, _calculate_confidence messages_30d 30 = inr c.
Proof. eexists. reflexivity. Qed.

Lemma lopsided_scores :
  scores_of 18 5 0 0 full_retention (one_channel 18)
  = inr {| s_activity := 12 / 5;
           s_growth := 75;
           s_engagement := 0;
           s_channel_health := 0 |}.
Proof.
  unfold scores_of.
  rewrite single_nonzero_health by reflexivity.
  unfold Py.bind, Py.ret. f_equal. f_equal.
  - unfold activity_score. simpl. real_cases.
  - unfold growth_score, Q2R. simpl. real_cases.
  - unfold engagement_score. simpl. lra.
Qed.

Lemma late_joiner_scores :
  scores_of 60 1 2 0 full_retention (one_channel 60)
  = inr {| s_activity := 40;
           s_growth := 75;
           s_engagement := 200;
           s_channel_health := 0 |}.
Proof.
  unfold scores_of.
  rewrite single_nonzero_health by reflexivity.
  unfold Py.bind, Py.ret. f_equal. f_equal.
  - unfold activity_score. simpl. real_cases.
  - unfold growth_score, Q2R. simpl. real_cases.
  - unfold engagement_score. simpl. lra.
Qed.

End HealthScore.

(** ** Rounding to the nearest double *)

Section DoubleRounding.
Import Py Float.
Open Scope Q_scope.

(** [round] moves a rational by at most one half. *)
Lemma round_error (x : Q) :
  inject_Z (Py.round x) - (1 # 2) <= x <= inject_Z (Py.round x) + (1 # 2).
Proof.
  unfold Py.round.
  pose proof (Qfloor_le x) as Hlo. pose proof (Qlt_floor x) as Hhi.
  rewrite inject_Z_plus in Hhi. change (inject_Z 1) with 1 in Hhi.
  set (f := Qfloor x) in *.
  destruct (x - inject_Z f ?= 1 # 2) eqn:E.
  - apply Qeq_alt in E.
    destruct (Z.even f);
      [|rewrite inject_Z_plus; change (inject_Z 1) with 1];
      split; Lqa.lra.
  - apply Qlt_alt in E. split; Lqa.lra.
  - apply Qgt_alt in E. rewrite inject_Z_plus.
    change (inject_Z 1) with 1. split; Lqa.lra.
Qed.

(** The leading bit of a rational of magnitude at most [2 ^ k]. *)
Lemma ilog2_le (x : Q) (k : Z) :
  (0 <= k)%Z -> Qabs x <= 2 ^ k -> (ilog2 x <= k)%Z.
Proof.
  intros Hk H. unfold ilog2.
  set (d := (Z.log2 (Z.abs (Qnum x)) - Z.log2 (Z.pos (Qden x)))%Z).
  assert (Hd : (d <= k)%Z).
  { subst d. destruct x as [p q]. cbn [Qnum Qden].
    change 2 with (inject_Z 2) in H. rewrite <- Zpower_Qpower in H by lia.
    unfold Qle, Qabs in H. cbn [Qnum Qden inject_Z] in H.
    pose proof (Z.log2_nonneg (Z.pos q)) as Hq0.
    destruct (Z.eq_dec (Z.abs p) 0) as [E|E].
    - rewrite E. simpl Z.log2 at 1. lia.
    - assert (Hp : (0 < Z.abs p)%Z) by lia.
      destruct (Z.log2_spec (Z.pos q)) as [_ Hq]; [lia|].
      assert (Hlt : (Z.abs p < 2 ^ (k + Z.succ (Z.log2 (Z.pos q))))%Z).
      { rewrite Z.pow_add_r by lia.
        assert (0 < 2 ^ k)%Z by (apply Z.pow_pos_nonneg; lia).
        nia. }
      apply Z.log2_lt_pow2 in Hlt; lia. }
  destruct (Qle_bool (2 ^ d) (Qabs x)); lia.
Qed.

(** Up to [2 ^ 21] in magnitude a rational rounds to a finite double at
    most [2 ^ -32] away. *)
Lemma rnd_near (x : Q) :
  - (2097152) <= x <= 2097152 ->
  exists y : Q,
    rnd x = Finite y /\ x - (1 # 4294967296) <= y <= x + (1 # 4294967296).
Proof.
  intros Hx. unfold rnd.
  destruct (Qeq_bool x 0) eqn:E0.
  { exists 0. split; [reflexivity|].
    apply Qeq_bool_iff in E0. rewrite E0. split; Lqa.lra. }
  assert (He : (ulp_exponent x <= -31)%Z).
  { unfold ulp_exponent.
    assert (ilog2 x <= 21)%Z; [|lia].
    apply ilog2_le; [lia|].
    apply Qabs_Qle_condition.
    change (2 ^ 21) with (2097152 # 1). exact Hx. }
  set (e := ulp_exponent x) in *.
  assert (Hu : 0 < 2 ^ e) by (apply Qpower_0_lt; reflexivity).
  assert (HU : 2 ^ e <= 1 # 2147483648).
  { change (1 # 2147483648) with (2 ^ (-31)).
    apply Qpower_le_compat_l; [exact He|discriminate]. }
  set (u := 2 ^ e) in *.
  pose proof (round_error (x / u)) as [Hlo Hhi].
  set (m := inject_Z (Py.round (x / u))) in *.
  assert (Ex : x == x / u * u) by (field; Lqa.lra).
  set (t := x / u) in *.
  assert (Hy : x - (1 # 4294967296) <= m * u <= x + (1 # 4294967296)).
  { split; rewrite Ex; Lqa.nra. }
  destruct (Qle_bool (2 ^ 1024) (Qabs (m * u))) eqn:Ov.
  { exfalso. apply Qle_bool_iff in Ov.
    assert (H22 : 2 ^ 22 <= 2 ^ 1024)
      by (apply Qpower_le_compat_l; [lia|discriminate]).
    change (2 ^ 22) with (4194304 # 1) in H22.
    assert (Ha : Qabs (m * u) <= 2097153)
      by (apply Qabs_Qle_condition; split; Lqa.lra).
    Lqa.lra. }
  exists (Qred (m * u)). split; [reflexivity|].
  rewrite Qred_correct. exact Hy.
Qed.

End DoubleRounding.

(** ** The health score in double precision *)

Section DoubleHealthScore.
Import Py HealthAnalyzer Float FloatHealthAnalyzer.

(** A float that [round] accepts is finite. *)
Lemma round_finite (a : float) (z : Z) :
  Float.round a = inr z -> exists x : Q, a = Finite x /\ z = Py.round x.
Proof.
  destruct a as [x|s|]; simpl; intro H; try discriminate.
  injection H as <-. exists x. split; reflexivity.
Qed.

Open Scope Q_scope.

(** For components of at most a million in magnitude the double that
    [sum] accumulates is within a thousandth of the exact weighted sum. *)
Lemma overall_near (a g e c : Q) :
  - (1000001) <= a <= 1000001 -> - (1000001) <= g <= 1000001 ->
  - (1000001) <= e <= 1000001 -> - (1000001) <= c <= 1000001 ->
  exists s : Q,
    overall_of {| s_activity := Finite a; s_growth := Finite g;
                  s_engagement := Finite e; s_channel_health := Finite c |}
    = Finite s
    /\ (35 # 100) * a + (25 # 100) * g + (25 # 100) * e + (15 # 100) * c
       - (1 # 1000)
       <= s
       <= (35 # 100) * a + (25 # 100) * g + (25 # 100) * e + (15 # 100) * c
          + (1 # 1000).
Proof.
  intros Ha Hg He Hc.
  unfold overall_of, items.
  cbn [fold_left fst snd weight s_activity s_growth s_engagement
       s_channel_health].
  replace (rnd (35 # 100))
    with (Finite (3152519739159347 # 9007199254740992))
    by (vm_compute; reflexivity).
  replace (rnd (25 # 100)) with (Finite (1 # 4)) by (vm_compute; reflexivity).
  replace (rnd (15 # 100))
    with (Finite (5404319552844595 # 36028797018963968))
    by (vm_compute; reflexivity).
  replace (of_Z 0) with (Finite 0) by (vm_compute; reflexivity).
  cbn [mul].
  destruct (rnd_near (a * (3152519739159347 # 9007199254740992)))
    as (p1 & -> & H1); [split; Lqa.lra|].
  destruct (rnd_near (g * (1 # 4))) as (p2 & -> & H2); [split; Lqa.lra|].
  destruct (rnd_near (e * (1 # 4))) as (p3 & -> & H3); [split; Lqa.lra|].
  destruct (rnd_near (c * (5404319552844595 # 36028797018963968)))
    as (p4 & -> & H4); [split; Lqa.lra|].
  cbn [add].
  destruct (rnd_near (0 + p1)) as (s1 & -> & S1); [split; Lqa.lra|].
  cbn [add].
  destruct (rnd_near (s1 + p2)) as (s2 & -> & S2); [split; Lqa.lra|].
  cbn [add].
  destruct (rnd_near (s2 + p3)) as (s3 & -> & S3); [split; Lqa.lra|].
  cbn [add].
  destruct (rnd_near (s3 + p4)) as (s4 & -> & S4); [split; Lqa.lra|].
  exists s4. split; [reflexivity|]. split; Lqa.lra.
Qed.

Close Scope Q_scope.

(** A hundred times the score minus the weighted reported values is an
    integer multiple of five, so a distance below 1.05 is at most 1. *)
Lemma reported_gap (scores : Scores) (s a g e c : Z) :
  Float.round (overall_of scores) = inr s ->
  Float.round (s_activity scores) = inr a ->
  Float.round (s_growth scores) = inr g ->
  Float.round (s_engagement scores) = inr e ->
  Float.round (s_channel_health scores) = inr c ->
  (-1000000 <= a <= 1000000) -> (-1000000 <= g <= 1000000) ->
  (-1000000 <= e <= 1000000) -> (-1000000 <= c <= 1000000) ->
  (Rabs (IZR s
         - weighted_metrics {| m_activity := a; m_growth := g;
                               m_engagement := e; m_channel_health := c |})
   <= 1)%R.
Proof.
  intros Hs Ha Hg He Hc Ba Bg Be Bc.
  destruct scores as [fa fg fe fc].
  cbn [s_activity s_growth s_engagement s_channel_health] in *.
  apply round_finite in Ha, Hg, He, Hc.
  destruct Ha as (xa & -> & Ea), Hg as (xg & -> & Eg),
           He as (xe & -> & Ee), Hc as (xc & -> & Ec).
  pose proof (round_error xa) as Ra. pose proof (round_error xg) as Rg.
  pose proof (round_error xe) as Re. pose proof (round_error xc) as Rc.
  rewrite <- Ea in Ra. rewrite <- Eg in Rg.
  rewrite <- Ee in Re. rewrite <- Ec in Rc.
  assert (B : forall (x : Q) (z : Z),
             (-1000000 <= z <= 1000000)%Z ->
             (inject_Z z - (1 # 2) <= x <= inject_Z z + (1 # 2))%Q ->
             (- (1000001) <= x <= 1000001)%Q).
  { intros x z [L U] [L' U']. rewrite Zle_Qle in L, U.
    change (inject_Z (-1000000)) with (- (1000000))%Q in L.
    change (inject_Z 1000000) with 1000000%Q in U.
    split; Lqa.lra. }
  destruct (overall_near xa xg xe xc (B _ _ Ba Ra) (B _ _ Bg Rg)
                         (B _ _ Be Re) (B _ _ Bc Rc)) as (x & Ex & Hx).
  rewrite Ex in Hs. cbn [Float.round] in Hs. injection Hs as Es.
  pose proof (round_error x) as Rs. rewrite Es in Rs.
  set (n := (100 * s - (35 * a + 25 * g + 25 * e + 15 * c))%Z).
  assert (Hn : (inject_Z n == 100 * inject_Z s
                 - (35 * inject_Z a + 25 * inject_Z g + 25 * inject_Z e
                    + 15 * inject_Z c))%Q).
  { subst n. unfold Zminus.
    rewrite !inject_Z_plus, inject_Z_opp, !inject_Z_plus, !inject_Z_mult.
    reflexivity. }
  assert (Lo : (-105 < n)%Z).
  { rewrite Zlt_Qlt, Hn. change (inject_Z (-105)) with (- (105))%Q.
    Lqa.lra. }
  assert (Hi : (n < 105)%Z).
  { rewrite Zlt_Qlt, Hn. change (inject_Z 105) with 105%Q. Lqa.lra. }
  assert (Hb : (-100 <= n <= 100)%Z) by (subst n; lia).
  destruct Hb as [Hb1 Hb2]. apply IZR_le in Hb1, Hb2. subst n.
  rewrite minus_IZR, mult_IZR, !plus_IZR, !mult_IZR in Hb1, Hb2.
  unfold weighted_metrics, weighted.
  cbn [m_activity m_growth m_engagement m_channel_health].
  apply Rabs_le. split; lra.
Qed.

(** The double sum can fall just below a half where the exact sum is the
    half itself: for the halfway community the exact weighted sum is
    31.5, the double one 31.499999999999996, and the score 31. *)
Lemma halfway_result :
  exists r : HealthScore,
    calculate_health_score log2_of_power halfway_provider 1 = inr r
    /\ score r = 31
    /\ metrics r = {| m_activity := 7; m_growth := 50; m_engagement := 67;
                      m_channel_health := 0 |}.
Proof. eexists. split; [vm_compute; reflexivity|]. split; reflexivity. Qed.




End DoubleHealthScore.

Section ComponentScores.
Import HealthAnalyzer.
Open Scope R_scope.

(** C10. When exactly one row of the channel activity has a non-zero
    message count, the Channel Health score is 0, whatever the number of
    rows and the size of the count, and the result of
    [calculate_health_score] reports 0 for it. *)
Theorem concentrated_activity_has_zero_channel_health :
  forall channel_activity : list ChannelActivity,
    List.length
      (filter (fun ch => negb (ch_message_count ch =? 0)%Z)
              channel_activity) = 1%nat ->
    channel_health_score channel_activity = inr 0
    /\ forall messages_30d active_users_30d active_users_7d trend
              join_leave,
         exists r : HealthScore,
           health_of messages_30d active_users_30d active_users_7d trend
                     join_leave channel_activity = inr r
           /\ m_channel_health (metrics r) = 0%Z.
Proof.
  intros ca H. pose proof (single_nonzero_health ca H) as Hz.
  split; [exact Hz|].
  intros m30 a30 a7 trend jl.
  destruct (confidence_30_succeeds m30) as [c Hc].
  unfold health_of, scores_of. rewrite Hc, Hz.
  unfold Py.bind, Py.ret. eexists. split; [reflexivity|].
  cbn [metrics m_channel_health s_channel_health].
  apply roundR_IZR.
Qed.

Lemma concentrated_activity_has_zero_channel_health_witness :
  channel_health_score concentrated_activity = inr 0
  /\ exists r : HealthScore,
       health_of 2000000 40 25 12 full_retention concentrated_activity
       = inr r
       /\ m_channel_health (metrics r) = 0%Z.
Proof.
  destruct (concentrated_activity_has_zero_channel_health
              concentrated_activity eq_refl) as [Hz Hr].
  split; [exact Hz|].
  exact (Hr 2000000%Z 40%Z 25%Z 12%Q full_retention).
Defined.

(** The bounds that do hold: Activity for a non-negative message count,
    Growth always, Engagement when the 7-day users are among the 30-day
    users. *)
Lemma component_bounds (messages_30d active_users_30d active_users_7d : Z)
      (trend : Q) (join_leave : JoinLeave) :
  ((0 <= messages_30d)%Z ->
   0 <= activity_score messages_30d active_users_30d <= 100)
  /\ 0 <= growth_score trend join_leave <= 100
  /\ ((0 <= active_users_7d <= active_users_30d)%Z ->
      0 <= engagement_score active_users_7d active_users_30d <= 100).
Proof.
  repeat split.
  - unfold activity_score.
    destruct (0 <? active_users_30d)%Z eqn:E; [|lra].
    apply Z.ltb_lt in E.
    assert (0 < IZR (active_users_30d * 30)) by (apply IZR_lt; lia).
    assert (0 <= IZR messages_30d) by (apply IZR_le; assumption).
    assert (0 <= IZR messages_30d / IZR (active_users_30d * 30)).
    { apply Rmult_le_pos; [assumption|].
      apply Rlt_le, Rinv_0_lt_compat. assumption. }
    apply Rmin_glb; lra.
  - unfold activity_score.
    destruct (0 <? active_users_30d)%Z; [apply Rmin_l|lra].
  - unfold growth_score. apply Rmax_l.
  - unfold growth_score. apply Rmax_lub; [lra|apply Rmin_l].
  - unfold engagement_score.
    destruct (0 <? active_users_30d)%Z eqn:E; [|lra].
    apply Z.ltb_lt in E.
    assert (0 < IZR active_users_30d) by (apply IZR_lt; lia).
    assert (0 <= IZR active_users_7d) by (apply IZR_le; lia).
    apply Rmult_le_pos; [|lra].
    apply Rmult_le_pos; [assumption|].
    apply Rlt_le, Rinv_0_lt_compat. assumption.
  - unfold engagement_score.
    destruct (0 <? active_users_30d)%Z eqn:E; [|lra].
    apply Z.ltb_lt in E.
    assert (0 < IZR active_users_30d) by (apply IZR_lt; lia).
    assert (IZR active_users_7d <= IZR active_users_30d)
      by (apply IZR_le; lia).
    assert (IZR active_users_7d / IZR active_users_30d <= 1).
    { apply (Rmult_le_reg_r (IZR active_users_30d)); [assumption|].
      unfold Rdiv. rewrite Rmult_assoc, Rinv_l by lra. lra. }
    lra.
Qed.

(** C2 at its failing input.  The 30-day query reports one active user
    and the 7-day query, asked later, two: the Engagement score is 200
    and the result reports 200 for it, above the documented 0-100
    range; no clamp is applied. *)
Theorem engagement_not_clamped :
  engagement_score 2 1 = 200
  /\ ~ (engagement_score 2 1 <= 100)
  /\ exists r : HealthScore,
       calculate_health_score late_joiner_provider 1 = inr r
       /\ m_engagement (metrics r) = 200%Z
       /\ m_activity (metrics r) = 40%Z
       /\ m_growth (metrics r) = 75%Z.
Proof.
  assert (E : engagement_score 2 1 = 200).
  { unfold engagement_score. simpl. lra. }
  split; [exact E|]. split; [rewrite E; lra|].
  destruct (confidence_30_succeeds 60) as [c Hc].
  eexists. split.
  { unfold calculate_health_score, late_joiner_provider, provider_of.
    cbn [get_message_count get_active_users get_activity_trend
         get_join_leave_stats get_channel_activity Py.bind Py.ret
         Z.eqb Pos.eqb].
    unfold health_of. rewrite Hc, late_joiner_scores.
    unfold Py.bind, Py.ret. reflexivity. }
  cbn [metrics m_engagement m_activity m_growth
       s_engagement s_activity s_growth].
  repeat split; apply roundR_IZR.
Qed.

End ComponentScores.

(** * Further properties of the code *)

(** ** Quotients of two ints against rational thresholds *)

Lemma Qle_bool_ratio (n : Z) (d : positive) (a b : Z) :
  0 < b ->
  Qle_bool (n # d) (inject_Z a / inject_Z b) = (n * b <=? a * Z.pos d).
Proof.
  intro Hb. destruct b as [|p|p]; try lia.
  unfold Qle_bool, Qdiv, Qmult, Qinv, inject_Z. simpl.
  rewrite Z.mul_1_r. reflexivity.
Qed.

Lemma Qcompare_ratio (n : Z) (d : positive) (a b : Z) :
  0 < b ->
  (inject_Z a / inject_Z b ?= n # d)%Q = (a * Z.pos d ?= n * b).
Proof.
  intro Hb. destruct b as [|p|p]; try lia.
  unfold Qcompare, Qdiv, Qmult, Qinv, inject_Z. simpl.
  rewrite Z.mul_1_r. reflexivity.
Qed.

Lemma Qltb_ratio (n : Z) (d : positive) (a b : Z) :
  0 < b ->
  Py.Qltb (inject_Z a / inject_Z b) (n # d) = (a * Z.pos d <? n * b).
Proof.
  intro Hb. unfold Py.Qltb, Z.ltb. rewrite Qcompare_ratio by assumption.
  reflexivity.
Qed.

Lemma ratio_le_ratio (a a' b : Z) :
  0 < b -> a <= a' ->
  (inject_Z a / inject_Z b <= inject_Z a' / inject_Z b)%Q.
Proof.
  intros Hb Ha. destruct b as [|p|p]; try lia.
  unfold Qle, Qdiv, Qmult, Qinv, inject_Z. simpl. nia.
Qed.

(** ** The confidence model and the pulse of the entropy variant *)

Section Confidence.
Import HealthAnalyzer.

Lemma confidence_value (message_count days : Z) :
  days <> 0 ->
  _calculate_confidence message_count days
  = inr (Qmin 1 (inject_Z message_count / inject_Z (days * 10))).
Proof.
  intro Hd. unfold _calculate_confidence, Py.truediv, Py.bind, Py.ret.
  destruct (days * 10 =? 0) eqn:E; [apply Z.eqb_eq in E; lia|reflexivity].
Qed.

Lemma Qmin_one_lt_half (q : Q) :
  Py.Qltb (Qmin 1 q) (1 # 2) = Py.Qltb q (1 # 2).
Proof.
  destruct (Py.Qltb q (1 # 2)) eqn:E.
  - apply Qltb_lt. apply Qltb_lt in E.
    apply Qle_lt_trans with q; [apply Q.le_min_r|exact E].
  - apply Qltb_ge. apply Qltb_ge in E.
    apply Q.min_glb; [discriminate|exact E].
Qed.

(** X1. For a positive window the confidence does not decrease when the
    message count grows, is 0 exactly for no message and is 1 exactly from
    ten messages a day on. *)
Theorem confidence_monotone_and_saturating :
  forall days message_count message_count' : Z,
    0 < days -> message_count <= message_count' ->
    exists c c' : Q,
      _calculate_confidence message_count days = inr c
      /\ _calculate_confidence message_count' days = inr c'
      /\ (c <= c')%Q
      /\ ((c == 0)%Q <-> message_count = 0)
      /\ ((c == 1)%Q <-> 10 * days <= message_count).
Proof.
  intros days mc mc' Hd Hle.
  rewrite !confidence_value by lia.
  eexists. eexists. split; [reflexivity|]. split; [reflexivity|].
  assert (Hb : 0 < days * 10) by lia.
  set (q := (inject_Z mc / inject_Z (days * 10))%Q).
  assert (Hq0 : forall (n : Z),
             (q ?= inject_Z n)%Q = (mc ?= n * (days * 10))).
  { intro n. unfold q. change (inject_Z n) with (n # 1).
    rewrite Qcompare_ratio by assumption. rewrite Z.mul_1_r. reflexivity. }
  split; [apply Q.min_le_compat_l, ratio_le_ratio; assumption|].
  split.
  - split.
    + intro H.
      destruct (Q.min_spec 1 q) as [[_ E]|[L E]]; rewrite E in H.
      * discriminate H.
      * apply Qeq_alt in H. change 0%Q with (inject_Z 0) in H.
        rewrite (Hq0 0) in H.
        apply Z.compare_eq_iff in H. lia.
    + intros ->.
      assert (E0 : (q == 0)%Q).
      { apply Qeq_alt. change 0%Q with (inject_Z 0). rewrite (Hq0 0).
        reflexivity. }
      rewrite Q.min_r; [exact E0|]. rewrite E0. discriminate.
  - split.
    + intro H. apply Q.min_l_iff in H. apply Qle_bool_iff in H.
      unfold q in H. rewrite (Qle_bool_ratio 1 1) in H by assumption.
      apply Z.leb_le in H. lia.
    + intro H. apply Q.min_l. apply Qle_bool_iff.
      unfold q. rewrite (Qle_bool_ratio 1 1) by assumption.
      apply Z.leb_le. lia.
Qed.

Lemma confidence_monotone_and_saturating_witness :
  exists c c' : Q,
    _calculate_confidence 35 7 = inr c
    /\ _calculate_confidence 70 7 = inr c'
    /\ (c <= c')%Q
    /\ ((c == 0)%Q <-> 35 = 0)
    /\ ((c == 1)%Q <-> 10 * 7 <= 35).
Proof.
  apply (confidence_monotone_and_saturating 7 35 70); lia.
Defined.

(** X2. For a negative window and a positive message count the confidence
    is a negative number, below the documented range from 0.0 to 1.0. *)
Theorem confidence_negative_for_negative_days :
  forall days message_count : Z,
    days < 0 -> 0 < message_count ->
    exists c : Q,
      _calculate_confidence message_count days = inr c /\ (c < 0)%Q.
Proof.
  intros days mc Hd Hm. rewrite confidence_value by lia.
  eexists. split; [reflexivity|].
  apply Qle_lt_trans
    with (inject_Z mc / inject_Z (days * 10))%Q; [apply Q.le_min_r|].
  destruct (days * 10) as [|p|p] eqn:E; try lia.
  unfold Qlt, Qdiv, Qmult, Qinv, inject_Z. simpl. lia.
Qed.

Lemma confidence_negative_for_negative_days_witness :
  exists c : Q, _calculate_confidence 20 (-7) = inr c /\ (c < 0)%Q.
Proof.
  apply (confidence_negative_for_negative_days (-7) 20); lia.
Defined.

(** The pulse of the entropy variant once its five queries answered. *)
Lemma get_pulse_value db guild_id days total active trend' peaks quiet :
  days <> 0 ->
  get_message_count db guild_id days = inr total ->
  get_active_users db guild_id days = inr active ->
  get_activity_trend db guild_id days = inr trend' ->
  get_peak_hours db guild_id days = inr peaks ->
  get_quiet_channels db guild_id days = inr quiet ->
  exists p : Pulse,
    get_pulse db guild_id days = inr p
    /\ total_messages p = total
    /\ active_members p = active
    /\ total_members p = active
    /\ p_confidence p
       = Qmin 1 (inject_Z total / inject_Z (days * 10))
    /\ p_low_confidence p
       = Py.Qltb (inject_Z total / inject_Z (days * 10)) (1 # 2)
    /\ confidence_warning p
       = if p_low_confidence p
         then if total <? 50 then Some VeryLimitedData else Some LimitedData
         else None.
Proof.
  intros Hd H1 H2 H3 H4 H5. unfold get_pulse, Py.bind.
  rewrite H1, H2, H3, H4, H5, confidence_value by assumption.
  eexists. split; [reflexivity|]. cbn.
  repeat split; try reflexivity; apply Qmin_one_lt_half.
Qed.

(** X3. For a positive window, [get_pulse] flags low confidence exactly
    when there are fewer than five messages a day, and it carries a
    warning exactly when it flags low confidence. *)
Theorem pulse_low_confidence_threshold :
  forall db guild_id days total active trend' peaks quiet,
    0 < days ->
    get_message_count db guild_id days = inr total ->
    get_active_users db guild_id days = inr active ->
    get_activity_trend db guild_id days = inr trend' ->
    get_peak_hours db guild_id days = inr peaks ->
    get_quiet_channels db guild_id days = inr quiet ->
    exists p : Pulse,
      get_pulse db guild_id days = inr p
      /\ (p_low_confidence p = true <-> total < 5 * days)
      /\ (confidence_warning p = None <-> p_low_confidence p = false).
Proof.
  intros db g days total active trend' peaks quiet Hd H1 H2 H3 H4 H5.
  destruct (get_pulse_value db g days total active trend' peaks quiet
              ltac:(lia) H1 H2 H3 H4 H5)
    as (p & Hp & _ & _ & _ & _ & Hlow & Hw).
  exists p. split; [exact Hp|]. split.
  - rewrite Hlow, Qltb_ratio by lia. rewrite Z.ltb_lt. lia.
  - rewrite Hw. destruct (p_low_confidence p);
      [destruct (total <? 50)|]; split; congruence.
Qed.

Lemma pulse_low_confidence_threshold_witness :
  exists p : Pulse,
    get_pulse lopsided_provider 1 7 = inr p
    /\ (p_low_confidence p = true <-> 18 < 5 * 7)
    /\ (confidence_warning p = None <-> p_low_confidence p = false).
Proof.
  apply (pulse_low_confidence_threshold lopsided_provider 1 7 18 0 0%Q
           [14; 20] []); [lia|reflexivity..].
Defined.

(** X4. For a window of at most ten days the only warning [get_pulse] can
    carry is the one for very limited data: a low confidence then means
    fewer than fifty messages. *)
Theorem pulse_short_window_warning :
  forall db guild_id days total active trend' peaks quiet,
    0 < days <= 10 ->
    get_message_count db guild_id days = inr total ->
    get_active_users db guild_id days = inr active ->
    get_activity_trend db guild_id days = inr trend' ->
    get_peak_hours db guild_id days = inr peaks ->
    get_quiet_channels db guild_id days = inr quiet ->
    exists p : Pulse,
      get_pulse db guild_id days = inr p
      /\ confidence_warning p <> Some LimitedData
      /\ (confidence_warning p = Some VeryLimitedData
          <-> total < 5 * days).
Proof.
  intros db g days total active trend' peaks quiet Hd H1 H2 H3 H4 H5.
  destruct (get_pulse_value db g days total active trend' peaks quiet
              ltac:(lia) H1 H2 H3 H4 H5)
    as (p & Hp & _ & _ & _ & _ & Hlow & Hw).
  exists p. split; [exact Hp|].
  rewrite Hw, Hlow, Qltb_ratio by lia.
  destruct (total * 2 <? 1 * (days * 10)) eqn:E.
  - apply Z.ltb_lt in E.
    destruct (total <? 50) eqn:E50; [|apply Z.ltb_ge in E50; lia].
    split; [discriminate|]. split; [lia|reflexivity].
  - apply Z.ltb_ge in E. split; [discriminate|].
    split; [discriminate|lia].
Qed.

Lemma pulse_short_window_warning_witness :
  exists p : Pulse,
    get_pulse lopsided_provider 1 7 = inr p
    /\ confidence_warning p <> Some LimitedData
    /\ (confidence_warning p = Some VeryLimitedData <-> 18 < 5 * 7).
Proof.
  apply (pulse_short_window_warning lopsided_provider 1 7 18 0 0%Q
           [14; 20] []); [lia|reflexivity..].
Defined.

End Confidence.

(** ** The health score of the entropy variant *)

Section HealthScoreRange.
Import HealthAnalyzer.
Open Scope R_scope.

Lemma roundR_between (x : R) (a b : Z) :
  IZR a <= x <= IZR b -> (a <= Py.roundR x <= b)%Z.
Proof.
  intros [Ha Hb]. pose proof (roundR_error x) as [Hlo Hhi].
  split.
  - assert (H : IZR (a - 1) < IZR (Py.roundR x))
      by (rewrite minus_IZR; lra).
    apply lt_IZR in H. lia.
  - assert (H : IZR (Py.roundR x) < IZR (b + 1))
      by (rewrite plus_IZR; lra).
    apply lt_IZR in H. lia.
Qed.

(** X5. For non-negative counts with no more active users in the last 7
    days than in the last 30, the health computation raises nothing, and
    the score and the four reported components lie between 0 and 100. *)
Theorem health_score_within_range :
  forall (messages_30d active_users_30d active_users_7d : Z) (trend : Q)
         (join_leave : JoinLeave) (channel_activity : list ChannelActivity),
    (0 <= messages_30d)%Z ->
    (0 <= active_users_7d <= active_users_30d)%Z ->
    Forall (fun ch => (0 <= ch_message_count ch)%Z) channel_activity ->
    exists r : HealthScore,
      health_of messages_30d active_users_30d active_users_7d trend
                join_leave channel_activity = inr r
      /\ (0 <= score r <= 100)%Z
      /\ (0 <= m_activity (metrics r) <= 100)%Z
      /\ (0 <= m_growth (metrics r) <= 100)%Z
      /\ (0 <= m_engagement (metrics r) <= 100)%Z
      /\ (0 <= m_channel_health (metrics r) <= 100)%Z.
Proof.
  intros m30 a30 a7 trend jl ca Hm Ha Hca.
  destruct (confidence_30_succeeds m30) as [c Hc].
  destruct (channel_health_bounds ca Hca) as (v & Hv & Hvb).
  destruct (component_bounds m30 a30 a7 trend jl) as (HA & HG & HE).
  specialize (HA Hm). specialize (HE Ha).
  unfold health_of, scores_of. rewrite Hc, Hv.
  unfold Py.bind, Py.ret. eexists. split; [reflexivity|].
  cbn [score metrics m_activity m_growth m_engagement m_channel_health
       s_activity s_growth s_engagement s_channel_health overall_of].
  unfold overall_of, weighted.
  cbn [s_activity s_growth s_engagement s_channel_health].
  repeat (split; [apply roundR_between; simpl IZR; lra|]).
  apply roundR_between; simpl IZR; lra.
Qed.

Lemma health_score_within_range_witness :
  exists r : HealthScore,
    health_of 2000000 40 25 12 full_retention concentrated_activity = inr r
    /\ (0 <= score r <= 100)%Z
    /\ (0 <= m_activity (metrics r) <= 100)%Z
    /\ (0 <= m_growth (metrics r) <= 100)%Z
    /\ (0 <= m_engagement (metrics r) <= 100)%Z
    /\ (0 <= m_channel_health (metrics r) <= 100)%Z.
Proof.
  apply health_score_within_range; [lia|lia|].
  repeat constructor; simpl; lia.
Defined.

Lemma tier_and_rounded_score (x : R) :
  match tier_of x with
  | Excellent => (80 <= Py.roundR x)%Z
  | Good => (60 <= Py.roundR x <= 80)%Z
  | Moderate => (40 <= Py.roundR x <= 60)%Z
  | Critical => (Py.roundR x <= 40)%Z
  end.
Proof.
  pose proof (roundR_error x) as [Hlo Hhi].
  assert (Up : forall n : Z, IZR n <= x -> (n <= Py.roundR x)%Z).
  { intros n Hn.
    assert (H : IZR (n - 1) < IZR (Py.roundR x))
      by (rewrite minus_IZR; lra).
    apply lt_IZR in H. lia. }
  assert (Down : forall n : Z, x < IZR n -> (Py.roundR x <= n)%Z).
  { intros n Hn.
    assert (H : IZR (Py.roundR x) < IZR (n + 1))
      by (rewrite plus_IZR; lra).
    apply lt_IZR in H. lia. }
  unfold tier_of.
  destruct (Rle_dec 80 x); [apply Up; assumption|].
  destruct (Rle_dec 60 x); [split; [apply Up|apply Down]; lra|].
  destruct (Rle_dec 40 x); [split; [apply Up|apply Down]; lra|].
  apply Down. lra.
Qed.

(** X6. The summary sentence is chosen from the unrounded score, so it
    agrees with the reported rounded score up to the tier boundary: with
    "excellent" the score is at least 80, with "good" between 60 and 80,
    with "moderate" between 40 and 60, with "critical" at most 40; the
    note on scores below 60 comes with a score of at most 60. *)
Theorem summary_tier_matches_score :
  forall (messages_30d active_users_30d active_users_7d : Z) (trend : Q)
         (join_leave : JoinLeave) (channel_activity : list ChannelActivity)
         (r : HealthScore),
    health_of messages_30d active_users_30d active_users_7d trend
              join_leave channel_activity = inr r ->
    match sentence (summary r) with
    | Excellent => (80 <= score r)%Z
    | Good => (60 <= score r <= 80)%Z
    | Moderate => (40 <= score r <= 60)%Z
    | Critical => (score r <= 40)%Z
    end
    /\ (below_60_note (summary r) = true -> (score r <= 60)%Z)
    /\ (below_60_note (summary r) = false -> (60 <= score r)%Z).
Proof.
  intros m30 a30 a7 trend jl ca r H.
  unfold health_of, Py.bind in H.
  destruct (_calculate_confidence m30 30) as [e|c]; [discriminate|].
  destruct (scores_of m30 a30 a7 trend jl ca) as [e|scores];
    [discriminate|].
  injection H as <-. cbn [summary sentence below_60_note score].
  split; [apply tier_and_rounded_score|].
  pose proof (tier_and_rounded_score (overall_of scores)) as T.
  unfold tier_of in T.
  destruct (Rlt_dec (overall_of scores) 60) as [L|L].
  - split; [|discriminate]. intros _.
    destruct (Rle_dec 80 (overall_of scores)); [lra|].
    destruct (Rle_dec 60 (overall_of scores)); [lra|].
    destruct (Rle_dec 40 (overall_of scores)); lia.
  - split; [discriminate|]. intros _.
    destruct (Rle_dec 80 (overall_of scores)); [lia|].
    destruct (Rle_dec 60 (overall_of scores)); [lia|lra].
Qed.

Lemma summary_tier_matches_score_witness :
  exists r : HealthScore,
    health_of 18 5 0 0 full_retention (one_channel 18) = inr r
    /\ match sentence (summary r) with
       | Excellent => (80 <= score r)%Z
       | Good => (60 <= score r <= 80)%Z
       | Moderate => (40 <= score r <= 60)%Z
       | Critical => (score r <= 40)%Z
       end.
Proof.
  destruct (confidence_30_succeeds 18) as [c Hc].
  assert (H : exists r : HealthScore,
             health_of 18 5 0 0 full_retention (one_channel 18) = inr r).
  { unfold health_of. rewrite Hc, lopsided_scores. eexists. reflexivity. }
  destruct H as [r Hr]. exists r. split; [exact Hr|].
  exact (proj1 (summary_tier_matches_score _ _ _ _ _ _ r Hr)).
Defined.

(** X7. The metric named as lowest has a score that no other score is
    below, and among equal lowest scores it is the first in the order
    Activity, Growth, Engagement, Channel Health. *)
Theorem lowest_metric_is_minimal :
  forall (scores : Scores) (m : metric_name),
    score_named scores (lowest_of scores) <= score_named scores m
    /\ (score_named scores m = score_named scores (lowest_of scores) ->
        (metric_position (lowest_of scores) <= metric_position m)%Z).
Proof.
  intros [a g e c] m. unfold lowest_of. cbn [fold_left fst snd s_activity
    s_growth s_engagement s_channel_health].
  destruct (Rlt_dec g a) as [H1|H1]; cbn [fst snd];
    [destruct (Rlt_dec e g) as [H2|H2]|destruct (Rlt_dec e a) as [H2|H2]];
    cbn [fst snd];
    match goal with
    | |- context [Rlt_dec c ?x] => destruct (Rlt_dec c x) as [H3|H3]
    end;
    cbn [fst snd]; destruct m; simpl; split; try lra; try lia;
    intro Heq; try lia; exfalso; lra.
Qed.

Lemma growth_low_reason (trend : Q) (join_leave : JoinLeave) :
  growth_score trend join_leave < 50 ->
  Py.Qltb trend (-10) = true
  \/ Py.Qltb (retention_rate join_leave) 50 = true.
Proof.
  intro H.
  destruct (Py.Qltb trend (-10)) eqn:Et; [now left|].
  destruct (Py.Qltb (retention_rate join_leave) 50) eqn:Er; [now right|].
  exfalso. apply Qltb_ge, Qreals.Qle_Rle in Et.
  apply Qltb_ge, Qreals.Qle_Rle in Er.
  assert (Q10 : Q2R (-10) = -10) by (unfold Q2R; simpl; lra).
  assert (Q50 : Q2R 50 = 50) by (unfold Q2R; simpl; lra).
  rewrite Q10 in Et. rewrite Q50 in Er.
  revert H. unfold growth_score.
  set (t := Q2R trend) in *. set (q := Q2R (retention_rate join_leave)) in *.
  real_cases.
Qed.



End HealthScoreRange.

(** ** The recommendations in double precision *)

Section Recommendations.
Import Py HealthAnalyzer Float FloatHealthAnalyzer.
Open Scope Q_scope.

(** The leading bit of a rational is not above its magnitude. *)
Lemma ilog2_lower (x : Q) : ~ x == 0 -> 2 ^ ilog2 x <= Qabs x.
Proof.
  intros Hx. unfold ilog2.
  set (d := (Z.log2 (Z.abs (Qnum x)) - Z.log2 (Z.pos (Qden x)))%Z).
  destruct (Qle_bool (2 ^ d) (Qabs x)) eqn:E.
  { apply Qle_bool_iff. exact E. }
  clear E. subst d. destruct x as [p q]. cbn [Qnum Qden].
  assert (Hp : (0 < Z.abs p)%Z).
  { assert (p <> 0)%Z; [|lia]. intros ->. apply Hx. reflexivity. }
  set (lp := Z.log2 (Z.abs p)). set (lq := Z.log2 (Z.pos q)).
  assert (Hlp : (0 <= lp)%Z) by apply Z.log2_nonneg.
  assert (Hlq : (0 <= lq)%Z) by apply Z.log2_nonneg.
  destruct (Z.log2_spec (Z.abs p) Hp) as [P1 _]. fold lp in P1.
  destruct (Z.log2_spec (Z.pos q)) as [_ Q2]; [lia|]. fold lq in Q2.
  assert (E : 2 ^ lp == 2 ^ (lp - lq - 1) * 2 ^ (lq + 1)).
  { rewrite <- Qpower_plus by discriminate. f_equiv. lia. }
  assert (P1' : 2 ^ lp <= inject_Z (Z.abs p)).
  { change 2 with (inject_Z 2). rewrite <- Zpower_Qpower by lia.
    rewrite <- Zle_Qle. exact P1. }
  assert (Q2' : inject_Z (Z.pos q) <= 2 ^ (lq + 1)).
  { change 2 with (inject_Z 2). rewrite <- Zpower_Qpower by lia.
    rewrite <- Zle_Qle. unfold Z.succ in Q2. lia. }
  assert (Hpos : 0 < 2 ^ (lp - lq - 1)) by (apply Qpower_0_lt; reflexivity).
  assert (Hq : 0 < inject_Z (Z.pos q)) by reflexivity.
  assert (Ea : Qabs (p # q) == inject_Z (Z.abs p) / inject_Z (Z.pos q)).
  { unfold Qabs. rewrite (Qmake_Qdiv (Z.abs p) q). reflexivity. }
  rewrite Ea. apply Qle_shift_div_l; [exact Hq|].
  set (w := 2 ^ (lp - lq - 1)) in *. Lqa.nra.
Qed.

(** From [2 ^ 21] on a rational rounds to a double of at least 25 or to
    the positive infinity. *)
Lemma rnd_large (x : Q) :
  2097152 <= x ->
  rnd x = Infinity false \/ exists y : Q, rnd x = Finite y /\ 25 <= y.
Proof.
  intros Hx. unfold rnd.
  destruct (Qeq_bool x 0) eqn:E0.
  { apply Qeq_bool_iff in E0. Lqa.lra. }
  assert (Hn : ~ x == 0) by (apply Qeq_bool_neq; exact E0).
  assert (Hu : 2 ^ ulp_exponent x <= x).
  { pose proof (ilog2_lower x Hn) as Hl.
    rewrite (Qabs_pos x) in Hl by Lqa.lra.
    unfold ulp_exponent.
    destruct (Z.max_spec (ilog2 x - 52) (-1074)) as [[_ ->]|[_ ->]].
    - change (2 ^ (-1074)) with (1 # 2 ^ 1074). 
      assert ((1 # 2 ^ 1074) <= 1) by discriminate. Lqa.lra.
    - assert (2 ^ (ilog2 x - 52) <= 2 ^ ilog2 x)
        by (apply Qpower_le_compat_l; [lia|discriminate]).
      Lqa.lra. }
  set (u := 2 ^ ulp_exponent x) in *.
  assert (Hu0 : 0 < u) by (apply Qpower_0_lt; reflexivity).
  pose proof (round_error (x / u)) as [Hlo Hhi].
  set (m := inject_Z (Py.round (x / u))) in *.
  assert (Ex : x == x / u * u) by (field; Lqa.lra).
  set (t := x / u) in *.
  assert (Hy : 25 <= m * u).
  { assert (x - u * (1 # 2) <= m * u) by (rewrite Ex; Lqa.nra).
    Lqa.lra. }
  destruct (Qle_bool (2 ^ 1024) (Qabs (m * u))).
  - left. f_equal. unfold Qltb.
    destruct (x ?= 0) eqn:C; try reflexivity.
    apply Qlt_alt in C. Lqa.lra.
  - right. exists (Qred (m * u)). split; [reflexivity|].
    rewrite Qred_correct. exact Hy.
Qed.

(** A product with one of the factors [0.5] and [0.25], clipped from
    above at 25, of a number that is not below [l]. *)
Lemma clipped_term (x : float) (w l : Q) :
  0 < w -> w <= 1 -> - (100) <= l <= 100 -> l * w <= 25 ->
  x <> NaN -> ltb x (Finite l) = false ->
  exists y : Q,
    min2 (Finite 25) (mul x (Finite w)) = Finite y
    /\ l * w - (1 # 4294967296) <= y <= 25.
Proof.
  intros Hw Hw1 Hl Hlw Hx Hlt.
  assert (Clip : forall v : Q,
             l * w - (1 # 4294967296) <= v ->
             exists y : Q,
               min2 (Finite 25) (Finite v) = Finite y
               /\ l * w - (1 # 4294967296) <= y <= 25).
  { intros v Hv. unfold min2. cbn [ltb].
    destruct (Qltb v 25) eqn:E.
    - apply Qltb_lt in E. exists v. split; [reflexivity|]. split; Lqa.lra.
    - exists 25. split; [reflexivity|]. split; Lqa.nra. }
  destruct x as [t|s|]; [| |contradiction].
  - cbn [ltb] in Hlt. apply Qltb_ge in Hlt. cbn [mul].
    destruct (Qlt_le_dec 2097152 (t * w)) as [Big|Small].
    + destruct (rnd_large (t * w)) as [->|(y & -> & Hy)]; [Lqa.lra| |].
      * exists 25. split; [reflexivity|]. split; Lqa.nra.
      * apply Clip. Lqa.nra.
    + destruct (rnd_near (t * w)) as (y & -> & Hy); [split; Lqa.nra|].
      apply Clip. Lqa.nra.
  - destruct s; [discriminate Hlt|]. cbn [mul].
    assert (Qeq_bool w 0 = false) as ->.
    { destruct (Qeq_bool w 0) eqn:E; [|reflexivity].
      apply Qeq_bool_iff in E. Lqa.lra. }
    assert (negative w = false) as ->.
    { unfold negative. apply Qltb_ge. Lqa.lra. }
    exists 25. split; [reflexivity|]. split; Lqa.nra.
Qed.

(** A trend of at least -10 and a retention rate of at least 50 give a
    Growth score of at least 50. *)
Lemma growth_not_low (trend : float) (join_leave : JoinLeave) :
  trend <> NaN -> retention_rate join_leave <> NaN ->
  ltb trend (of_Z (-10)) = false ->
  ltb (retention_rate join_leave) (of_Z 50) = false ->
  ltb (growth_score trend join_leave) (of_Z 50) = false.
Proof.
  intros Ht Hr Lt Lr. unfold growth_score.
  replace (of_Z (-10)) with (Finite (-10)) in Lt by (vm_compute; reflexivity).
  replace (of_Z 50) with (Finite 50) in * by (vm_compute; reflexivity).
  replace (of_Z (-25)) with (Finite (-25)) by (vm_compute; reflexivity).
  replace (of_Z 25) with (Finite 25) by (vm_compute; reflexivity).
  replace (of_Z 100) with (Finite 100) by (vm_compute; reflexivity).
  replace (of_Z 0) with (Finite 0) by (vm_compute; reflexivity).
  replace (rnd (5 # 10)) with (Finite (1 # 2)) by (vm_compute; reflexivity).
  replace (rnd (25 # 100)) with (Finite (1 # 4)) by (vm_compute; reflexivity).
  destruct (clipped_term (retention_rate join_leave) (1 # 4) 50)
    as (r & -> & Hr'); try assumption; try (split; Lqa.lra); try Lqa.lra.
  assert (T : exists t : Q,
             min2 (Finite 25) (max2 (Finite (-25)) (mul trend (Finite (1 # 2))))
             = Finite t /\ - (6) <= t <= 25).
  { destruct (clipped_term trend (1 # 2) (-10))
      as (t & E & Ht'); try assumption; try (split; Lqa.lra); try Lqa.lra.
    exists t. split; [|split; Lqa.lra].
    rewrite <- E. f_equal. unfold max2.
    destruct (mul trend (Finite (1 # 2))) as [v|s|] eqn:Em.
    - cbn [ltb]. destruct (Qltb (-25) v) eqn:C; [reflexivity|].
      exfalso. apply Qltb_ge in C.
      unfold min2 in E. cbn [ltb] in E.
      destruct (Qltb v 25) eqn:C'.
      + injection E as ->. Lqa.lra.
      + apply Qltb_ge in C'. Lqa.lra.
    - destruct s; cbn [ltb]; [|reflexivity].
      exfalso. unfold min2 in E. cbn [ltb] in E. discriminate E.
    - unfold min2 in E. cbn [ltb] in E. 
      destruct trend as [x|s|]; [| |contradiction].
      + cbn [mul] in Em. unfold rnd in Em.
        destruct (Qeq_bool (x * (1 # 2)) 0); [discriminate|].
        cbv zeta in Em.
        match type of Em with
        | (if ?b then _ else _) = _ => destruct b; discriminate
        end.
      + cbn [mul] in Em. vm_compute in Em. destruct s; discriminate. }
  destruct T as (t & -> & Ht').
  cbn [add].
  destruct (rnd_near (50 + t)) as (a & -> & Ha); [split; Lqa.lra|].
  cbn [add].
  destruct (rnd_near (a + r)) as (b & -> & Hb); [split; Lqa.lra|].
  assert (M : exists c : Q,
             min2 (Finite 100) (Finite b) = Finite c /\ 56 <= c).
  { unfold min2. cbn [ltb]. destruct (Qltb b 100).
    - exists b. split; [reflexivity|Lqa.lra].
    - exists 100. split; [reflexivity|Lqa.lra]. }
  destruct M as (c & -> & Hc).
  unfold max2. cbn [ltb].
  destruct (Qltb 0 c) eqn:C; [|apply Qltb_ge in C; Lqa.lra].
  cbn [ltb]. apply Qltb_ge. Lqa.lra.
Qed.

Close Scope Q_scope.

(** On finite doubles [>=] is the negation of [<]. *)
Lemma geb_finite (x y : Q) :
  geb (Finite x) (Finite y) = negb (ltb (Finite x) (Finite y)).
Proof. reflexivity. Qed.

(** At 2100 messages, 17 and 11 active users, trend 10, full retention
    and two channels of 1050 messages the exact weighted sum is 80; the
    double one is 79.99999999999999, so the priority line is given
    together with a reported score of 80. *)
Lemma borderline_result :
  exists r : HealthScore,
    health_of log2_of_power 2100 17 11 (of_Z 10) (retention_of 100)
              (channels_of [1050; 1050]) = inr r
    /\ score r = 80
    /\ recommendations r = [PriorityGuidance Good].
Proof. eexists. split; [vm_compute; reflexivity|]. split; reflexivity. Qed.



End Recommendations.

Section UniformChannels.
Import HealthAnalyzer.
Open Scope R_scope.

Lemma sumZ_uniform (c : Z) (l : list ChannelActivity) :
  Forall (fun ch => ch_message_count ch = c) l ->
  Py.sumZ (map ch_message_count l) = (Z.of_nat (List.length l) * c)%Z.
Proof.
  induction 1 as [|ch l Hch Hl IH]; [reflexivity|].
  cbn [map List.length]. unfold Py.sumZ. cbn [fold_left].
  rewrite fold_add_shift, IH, Hch. lia.
Qed.

Lemma entropy_sum_uniform (total_msgs c : Z) (l : list ChannelActivity) :
  (0 < c)%Z ->
  Forall (fun ch => ch_message_count ch = c) l ->
  entropy_sum total_msgs l
  = INR (List.length l)
    * - (IZR c / IZR total_msgs * (ln (IZR c / IZR total_msgs) / ln 2)).
Proof.
  intros Hc. induction 1 as [|ch l Hch Hl IH].
  - simpl. ring.
  - cbn [entropy_sum List.length]. rewrite S_INR, IH.
    unfold share. rewrite Hch.
    destruct (0 <? c)%Z eqn:E; [ring|apply Z.ltb_ge in E; lia].
Qed.

(** In exact arithmetic equal positive counts in two or more channels
    give the largest entropy there is, [log2] of their number. *)
Lemma uniform_channel_health :
  forall (channel_activity : list ChannelActivity) (c : Z),
    (2 <= List.length channel_activity)%nat ->
    (0 < c)%Z ->
    Forall (fun ch => ch_message_count ch = c) channel_activity ->
    channel_health_score channel_activity = inr 100.
Proof.
  intros l c Hn Hc Hall.
  assert (Hnn : Forall (fun ch => (0 <= ch_message_count ch)%Z) l).
  { eapply Forall_impl; [|exact Hall]. simpl. intros; lia. }
  set (n := List.length l) in *.
  assert (HN : 1 < INR n) by (apply lt_1_INR; lia).
  assert (Hsum : Py.sumZ (map ch_message_count l) = (Z.of_nat n * c)%Z)
    by (apply sumZ_uniform; assumption).
  assert (Htot : (0 < Z.of_nat n * c)%Z) by nia.
  unfold channel_health_score.
  destruct l as [|ch0 l0]; [simpl in n; lia|].
  rewrite Hsum. unfold Py.ret at 1.
  rewrite (entropy_loop_sum _ _ Htot Hnn).
  rewrite (entropy_sum_uniform _ c _ Hc Hall).
  fold n. unfold Py.bind at 1.
  destruct (1 <? n)%nat eqn:En; [|apply Nat.ltb_ge in En; lia].
  unfold log2. destruct (Rlt_dec 0 (INR n)); [|lra].
  unfold Py.bind, Py.ret. f_equal.
  assert (Hln : 0 < ln (INR n)).
  { rewrite <- ln_1. apply ln_increasing; lra. }
  pose proof ln_2_pos as H2.
  assert (Hmax : 0 < ln (INR n) / ln 2)
    by (apply Rdiv_lt_0_compat; assumption).
  destruct (Rlt_dec 0 (ln (INR n) / ln 2)); [|contradiction].
  assert (Hp : IZR c / IZR (Z.of_nat n * c) = / INR n).
  { rewrite mult_IZR, <- INR_IZR_INZ. field.
    repeat split; first [lra|apply not_0_IZR; lia]. }
  rewrite Hp, ln_Rinv by lra. field. lra.
Qed.

(** X10. When at least two channels are listed and all of them have the
    same positive message count, the result reports a Channel Health of
    100. *)
Theorem even_activity_reports_full_channel_health :
  forall (messages_30d active_users_30d active_users_7d : Z) (trend : Q)
         (join_leave : JoinLeave) (channel_activity : list ChannelActivity)
         (c : Z) (r : HealthScore),
    (2 <= List.length channel_activity)%nat ->
    (0 < c)%Z ->
    Forall (fun ch => ch_message_count ch = c) channel_activity ->
    health_of messages_30d active_users_30d active_users_7d trend
              join_leave channel_activity = inr r ->
    m_channel_health (metrics r) = 100%Z.
Proof.
  intros m30 a30 a7 trend jl ca c r Hn Hc Hall H.
  unfold health_of, scores_of, Py.bind in H.
  destruct (_calculate_confidence m30 30) as [e|conf]; [discriminate|].
  rewrite (uniform_channel_health ca c Hn Hc Hall) in H.
  injection H as <-.
  cbn [metrics m_channel_health s_channel_health].
  apply roundR_IZR.
Qed.

Lemma even_activity_reports_full_channel_health_witness :
  exists r : HealthScore,
    health_of 120 10 5 0 full_retention
              [ {| ch_channel_id := 1; ch_message_count := 40 |};
                {| ch_channel_id := 2; ch_message_count := 40 |};
                {| ch_channel_id := 3; ch_message_count := 40 |} ] = inr r
    /\ m_channel_health (metrics r) = 100%Z.
Proof.
  set (ca := [ {| ch_channel_id := 1; ch_message_count := 40 |};
               {| ch_channel_id := 2; ch_message_count := 40 |};
               {| ch_channel_id := 3; ch_message_count := 40 |} ]).
  assert (Hn : (2 <= List.length ca)%nat) by (simpl; lia).
  assert (Hall : Forall (fun ch => ch_message_count ch = 40%Z) ca)
    by (repeat constructor).
  destruct (confidence_30_succeeds 120) as [conf Hconf].
  assert (H : exists r : HealthScore,
             health_of 120 10 5 0 full_retention ca = inr r).
  { unfold health_of, scores_of.
    rewrite Hconf, (uniform_channel_health ca 40%Z Hn eq_refl Hall).
    eexists. reflexivity. }
  destruct H as [r Hr]. exists r. split; [exact Hr|].
  exact (even_activity_reports_full_channel_health
           _ _ _ _ _ ca 40%Z r Hn eq_refl Hall Hr).
Defined.

End UniformChannels.

(** ** The suggestions of the entropy variant *)

Section SuggestionOrder.
Import HealthAnalyzer.

(** X11. [generate_suggestions] never answers with an empty list.  The
    "looks healthy" entry is given exactly when no rule fires and then
    stands alone; otherwise the entries come in the order of their rules,
    each rule at most once. *)
Theorem suggestions_nonempty_and_ordered :
  forall (trend : Q) (channel_activity : list ChannelActivity)
         (join_leave : JoinLeave) (peak_hours : list Z),
    let l := suggestions_of trend channel_activity join_leave peak_hours in
    l <> []
    /\ StronglySorted Z.lt (map rule_index l)
    /\ (In ServerLooksHealthy l <-> l = [ServerLooksHealthy])
    /\ (l = [ServerLooksHealthy]
        <-> pattern1 trend = [] /\ pattern2 channel_activity = []
            /\ pattern3 join_leave = [] /\ pattern4 peak_hours = []
            /\ pattern5 trend = []).
Proof.
  intros trend ca jl ph. unfold suggestions_of.
  destruct (pattern1_pattern5_exclusive trend) as [X|X]; rewrite X;
    unfold pattern1, pattern2, pattern3, pattern4, pattern5;
    destruct (Py.Qltb trend (-15)); try discriminate X;
    destruct (Py.Qltb 25 trend); try discriminate X;
    destruct (_ <? _)%nat;
    destruct (Py.Qltb (retention_rate jl) 60 && (10 <? joins jl));
    destruct ph as [|h ph]; cbn [app];
    (split; [discriminate|]);
    (split; [cbn [map rule_index];
             repeat first [apply SSorted_nil | apply SSorted_cons
                          | apply Forall_nil | apply Forall_cons
                          | reflexivity]|]);
    (split; [split; [intro H; cbn [In] in H;
                     repeat (destruct H as [H|H]; try discriminate H);
                     try contradiction; reflexivity
                    |intro H; try discriminate H; left; reflexivity]|]);
    (split; [intro H; try discriminate H; repeat split; reflexivity
            |intros (H1 & H2 & H3 & H4 & H5);
             try discriminate H1; try discriminate H2;
             try discriminate H3; try discriminate H4;
             try discriminate H5; reflexivity]).
Qed.

End SuggestionOrder.

(** ** The tiered variant used by the bot commands *)

Section TieredHealth.
Import DatabaseManager AnalyticsHealthAnalyzer.

Lemma activity_in_tiers (ms : MessageStats) :
  In (_calculate_activity_score ms) tier_values.
Proof.
  unfold _calculate_activity_score, tier_values.
  repeat match goal with
         | |- context [Qle_bool ?a ?b] => destruct (Qle_bool a b)
         end; simpl; tauto.
Qed.

Lemma engagement_in_tiers (us : list UserStat) :
  In (_calculate_engagement_score us) tier_values.
Proof.
  unfold _calculate_engagement_score, tier_values.
  destruct us as [|u us]; [simpl; tauto|].
  repeat match goal with
         | |- context [Qle_bool ?a ?b] => destruct (Qle_bool a b)
         end; simpl; tauto.
Qed.

Lemma diversity_in_tiers (cs : list ChannelStat) :
  In (_calculate_diversity_score cs) tier_values.
Proof.
  unfold _calculate_diversity_score, tier_values.
  destruct cs as [|c cs]; [simpl; tauto|].
  repeat match goal with
         | |- context [?a <=? ?b] => destruct (a <=? b)
         end; simpl; tauto.
Qed.

Lemma consistency_in_tiers (ms : MessageStats) :
  In (_calculate_consistency_score ms) tier_values.
Proof.
  unfold _calculate_consistency_score, tier_values.
  destruct (hourly_data ms) as [|row rows]; [simpl; tauto|].
  destruct (Py.sumZ (map snd (row :: rows)) =? 0); [simpl; tauto|].
  repeat match goal with
         | |- context [?a <=? ?b] => destruct (a <=? b)
         end; simpl; tauto.
Qed.

Lemma tier_value_bounds (v : Z) : In v tier_values -> 0 <= v <= 100.
Proof. unfold tier_values. simpl. intuition lia. Qed.

Lemma inject_Z_bounds (v lo hi : Z) :
  lo <= v <= hi -> (inject_Z lo <= inject_Z v <= inject_Z hi)%Q.
Proof. intros [H1 H2]. split; rewrite <- Zle_Qle; assumption. Qed.

Lemma int_of_bounds (x : Q) (n : Z) :
  (0 <= x)%Q -> (x <= inject_Z n)%Q -> 0 <= int_of x <= n.
Proof.
  destruct x as [p q]. unfold Qle, int_of, inject_Z. simpl.
  rewrite !Z.mul_1_r. intros Hp Hn.
  rewrite Z.quot_div_nonneg by lia. split.
  - apply Z.div_pos; lia.
  - apply Z.div_le_upper_bound; lia.
Qed.

(** X12. The tiered health score lies between 0 and 100 whatever the
    store returns, every reported metric is one of 0, 20, 40, 60, 80 and
    100, and the metrics are either the four named ones or, after a
    failure, none. *)
Theorem tiered_score_within_range :
  forall (db : db_manager) (guild_id : Z),
    let h := calculate_health_score db guild_id in
    0 <= score h <= 100
    /\ Forall (fun kv => In (snd kv) tier_values) (metrics h)
    /\ (map fst (metrics h) = [Activity; Engagement; Diversity; Consistency]
        \/ h = health_error).
Proof.
  intros db g. unfold calculate_health_score, Py.try_except, Py.bind.
  destruct (get_message_stats db g 7) as [e|ms];
    [simpl; repeat split; try lia; auto|].
  destruct (get_channel_stats db g 7) as [e|cs];
    [simpl; repeat split; try lia; auto|].
  destruct (get_user_stats db g 30) as [e|us];
    [simpl; repeat split; try lia; auto|].
  unfold Py.ret. cbn [score metrics].
  pose proof (activity_in_tiers ms) as Ha.
  pose proof (engagement_in_tiers us) as He.
  pose proof (diversity_in_tiers cs) as Hd.
  pose proof (consistency_in_tiers ms) as Hc.
  split; [|split; [|left; reflexivity]];
    [|repeat (apply Forall_cons; [simpl; assumption|]); apply Forall_nil].
  apply tier_value_bounds in Ha, He, Hd, Hc.
  set (a := _calculate_activity_score ms) in *.
  set (e := _calculate_engagement_score us) in *.
  set (d := _calculate_diversity_score cs) in *.
  set (c := _calculate_consistency_score ms) in *.
  assert (Qa : (0 <= inject_Z a <= 100)%Q)
    by (apply (inject_Z_bounds a 0 100); lia).
  assert (Qe : (0 <= inject_Z e <= 100)%Q)
    by (apply (inject_Z_bounds e 0 100); lia).
  assert (Qd : (0 <= inject_Z d <= 100)%Q)
    by (apply (inject_Z_bounds d 0 100); lia).
  assert (Qc : (0 <= inject_Z c <= 100)%Q)
    by (apply (inject_Z_bounds c 0 100); lia).
  apply int_of_bounds; change (inject_Z 100) with 100%Q; Lqa.lra.
Qed.

(** X13. The activity score of the tiered variant does not decrease when
    the week's message total grows; it is 0 exactly below 7 messages and
    100 exactly from 700 messages on. *)
Theorem tiered_activity_monotone :
  forall ms ms' : MessageStats,
    total_messages ms <= total_messages ms' ->
    _calculate_activity_score ms <= _calculate_activity_score ms'
    /\ (_calculate_activity_score ms = 0 <-> total_messages ms < 7)
    /\ (_calculate_activity_score ms = 100 <-> 700 <= total_messages ms).
Proof.
  intros ms ms' Hle. unfold _calculate_activity_score.
  change 7%Q with (inject_Z 7).
  rewrite !Qle_bool_ratio by lia.
  repeat match goal with
         | |- context [?a <=? ?b] =>
             let E := fresh "E" in
             destruct (a <=? b) eqn:E;
             [apply Z.leb_le in E|apply Z.leb_gt in E]
         end; repeat split; intros; try lia; try discriminate.
Qed.

Lemma tiered_activity_monotone_witness :
  let ms := {| total_messages := 42; active_users := 5;
               hourly_data := [] |} in
  let ms' := {| total_messages := 105; active_users := 20;
                hourly_data := [] |} in
  _calculate_activity_score ms <= _calculate_activity_score ms'
  /\ (_calculate_activity_score ms = 0 <-> 42 < 7)
  /\ (_calculate_activity_score ms = 100 <-> 700 <= 42).
Proof.
  apply (tiered_activity_monotone
           {| total_messages := 42; active_users := 5; hourly_data := [] |}
           {| total_messages := 105; active_users := 20;
              hourly_data := [] |}).
  simpl. lia.
Defined.

(** X14. [_generate_recommendations] never returns an empty list and at
    most four lines; the "great job" line is returned exactly when all
    four scores are at least 50, and then alone. *)
Theorem tiered_recommendations_never_empty :
  forall activity engagement diversity consistency : Z,
    let l := _generate_recommendations activity engagement diversity
                                       consistency in
    l <> []
    /\ (List.length l <= 4)%nat
    /\ (In "Great job! Keep maintaining your current engagement strategies"%string l
        <-> 50 <= activity /\ 50 <= engagement /\ 50 <= diversity
            /\ 50 <= consistency)
    /\ (50 <= activity /\ 50 <= engagement /\ 50 <= diversity
        /\ 50 <= consistency ->
        l = ["Great job! Keep maintaining your current engagement strategies"%string]).
Proof.
  intros a e d c. unfold _generate_recommendations.
  destruct (a <? 50) eqn:Ea; destruct (e <? 50) eqn:Ee;
    destruct (d <? 50) eqn:Ed; destruct (c <? 50) eqn:Ec;
    repeat match goal with
           | H : (_ <? _) = true |- _ => apply Z.ltb_lt in H
           | H : (_ <? _) = false |- _ => apply Z.ltb_ge in H
           end;
    cbn [app];
    (split; [discriminate|]);
    (split; [simpl; lia|]);
    (split; [split; [intro H; cbn [In] in H;
                     repeat (destruct H as [H|H]; try discriminate H);
                     try contradiction; lia
                    |intro H; try lia; left; reflexivity]
            |intro H; try lia; reflexivity]).
Qed.

(** X15. Whatever the store returns, the tiered pulse shows at most three
    peak hours and three quiet channels, counts every active member as a
    member, flags low confidence exactly below ten messages and carries a
    warning exactly when it flags low confidence. *)
Theorem tiered_pulse_invariants :
  forall (db : db_manager) (guild_id days : Z),
    let p := get_pulse db guild_id days in
    (List.length (peak_hours p) <= 3)%nat
    /\ (List.length (quiet_channels p) <= 3)%nat
    /\ total_members p = active_members p
    /\ (low_confidence p = true <-> p_total_messages p < 10)
    /\ (confidence_warning p = None <-> low_confidence p = false).
Proof.
  intros db g d. unfold get_pulse, Py.try_except, Py.bind.
  destruct (get_message_stats db g d) as [e|ms];
    [simpl; repeat split; try lia; try discriminate|].
  destruct (get_channel_stats db g d) as [e|cs];
    [simpl; repeat split; try lia; try discriminate|].
  unfold Py.ret.
  cbn [peak_hours quiet_channels total_members active_members
       low_confidence p_total_messages confidence_warning].
  split.
  { destruct (hourly_data ms) as [|row rows]; [simpl; lia|].
    rewrite length_map, length_firstn. apply Nat.le_min_l. }
  split.
  { rewrite length_map. unfold Py.last_n. rewrite length_skipn. lia. }
  split; [reflexivity|].
  split; [apply Z.ltb_lt|].
  destruct (total_messages ms <? 10); split; congruence.
Qed.

End TieredHealth.

(** ** Channel trends and channel improvements *)

Section ChannelTrends.
Import DatabaseManager ChannelAnalyzer.

Lemma find_channel_spec (channel_stats : list ChannelStat) (id : Z) :
  match find_channel channel_stats id with
  | Some ch => In ch channel_stats /\ channel_id ch = id
  | None => ~ In id (map channel_id channel_stats)
  end.
Proof.
  unfold find_channel.
  destruct (find (fun ch => channel_id ch =? id) channel_stats) as [ch|] eqn:F.
  - apply find_some in F. destruct F as [Hin E].
    split; [exact Hin|apply Z.eqb_eq, E].
  - intro Hin. apply in_map_iff in Hin. destruct Hin as (ch & E & Hin).
    pose proof (find_none _ _ F ch Hin) as N. simpl in N.
    apply Z.eqb_neq in N. contradiction.
Qed.

(** X16. [get_channel_trends] answers "error" exactly for a failing
    query and "no_data" when the channel is not among the rows; otherwise
    it reports the counts of a row of that channel, "growing" above 100
    messages, "stable" above 20, "declining" above 0 and "dead" for none. *)
Theorem channel_trend_lookup :
  forall (db : db_manager) (guild_id channel_id' days : Z),
    let t := get_channel_trends db guild_id channel_id' days in
    (Py.raises (get_channel_stats db guild_id days) -> t = trend_error)
    /\ forall channel_stats,
         get_channel_stats db guild_id days = inr channel_stats ->
         t_trend t <> "error"%string
         /\ (~ In channel_id' (map channel_id channel_stats) ->
             t = trend_no_data)
         /\ (In channel_id' (map channel_id channel_stats) ->
             exists ch,
               In ch channel_stats /\ channel_id ch = channel_id'
               /\ t_messages t = message_count ch
               /\ t_users t = unique_users ch
               /\ (t_trend t = "growing"%string <-> 100 < message_count ch)
               /\ (t_trend t = "stable"%string
                   <-> 20 < message_count ch <= 100)
               /\ (t_trend t = "declining"%string
                   <-> 0 < message_count ch <= 20)
               /\ (t_trend t = "dead"%string <-> message_count ch <= 0)).
Proof.
  intros db g id d. unfold get_channel_trends, Py.try_except, Py.bind.
  split.
  { intros [e ->]. reflexivity. }
  intros stats ->.
  pose proof (find_channel_spec stats id) as F.
  destruct (find_channel stats id) as [ch|]; unfold Py.ret.
  - destruct F as [Hin Hid].
    assert (Hrow :
              t_messages (trend_of_row ch) = message_count ch
              /\ t_users (trend_of_row ch) = unique_users ch
              /\ (t_trend (trend_of_row ch) = "growing"%string
                  <-> 100 < message_count ch)
              /\ (t_trend (trend_of_row ch) = "stable"%string
                  <-> 20 < message_count ch <= 100)
              /\ (t_trend (trend_of_row ch) = "declining"%string
                  <-> 0 < message_count ch <= 20)
              /\ (t_trend (trend_of_row ch) = "dead"%string
                  <-> message_count ch <= 0)
              /\ t_trend (trend_of_row ch) <> "error"%string).
    { unfold trend_of_row.
      destruct (100 <? message_count ch) eqn:E1;
        [apply Z.ltb_lt in E1|apply Z.ltb_ge in E1;
         destruct (20 <? message_count ch) eqn:E2;
         [apply Z.ltb_lt in E2|apply Z.ltb_ge in E2;
          destruct (0 <? message_count ch) eqn:E3;
          [apply Z.ltb_lt in E3|apply Z.ltb_ge in E3]]];
        cbn [t_messages t_users t_trend];
        repeat split; intros; try lia; try discriminate. }
    destruct Hrow as (R1 & R2 & R3 & R4 & R5 & R6 & R7).
    split; [exact R7|]. split.
    + intro N. exfalso. apply N. rewrite <- Hid. apply in_map, Hin.
    + intros _. exists ch. repeat split; try assumption;
        first [apply R3|apply R4|apply R5|apply R6]; assumption.
  - split; [discriminate|]. split; [reflexivity|].
    intro Hin. contradiction.
Qed.

Lemma channel_trend_lookup_witness :
  let t := get_channel_trends scenario_channel_db 1 4 7 in
  exists ch,
    In ch scenario_channels /\ channel_id ch = 4
    /\ t_messages t = message_count ch
    /\ (t_trend t = "declining"%string <-> 0 < message_count ch <= 20).
Proof.
  intro t.
  destruct (channel_trend_lookup scenario_channel_db 1 4 7) as [_ H].
  destruct (H scenario_channels eq_refl) as (_ & _ & Hfound).
  assert (Hin : In 4 (map channel_id scenario_channels))
    by (simpl; tauto).
  destruct (Hfound Hin) as (ch & H1 & H2 & H3 & _ & _ & _ & H7 & _).
  exists ch. split; [exact H1|]. split; [exact H2|].
  split; [exact H3|exact H7].
Defined.

Lemma improvements_shape (analysis : Analysis) :
  let l := improvements_of analysis in
  l <> []
  /\ (List.length l <= 3)%nat
  /\ ~ In ImprovementError l
  /\ (In ChannelHealthGood l <-> l = [ChannelHealthGood])
  /\ (l = [ChannelHealthGood]
      <-> (List.length (dead analysis) <= 3)%nat
          /\ (List.length (declining analysis)
              <= List.length (active analysis))%nat
          /\ (3 <= List.length (active analysis))%nat)
  /\ (forall n, In (ArchiveDeadChannels n) l ->
                n = List.length (dead analysis) /\ (3 < n)%nat).
Proof.
  unfold improvements_of.
  destruct (3 <? List.length (dead analysis))%nat eqn:E1;
    destruct (List.length (active analysis)
              <? List.length (declining analysis))%nat eqn:E2;
    destruct (List.length (active analysis) <? 3)%nat eqn:E3;
    repeat match goal with
           | H : (_ <? _)%nat = true |- _ => apply Nat.ltb_lt in H
           | H : (_ <? _)%nat = false |- _ => apply Nat.ltb_ge in H
           end;
    cbn [app];
    (split; [discriminate|]);
    (split; [simpl; lia|]);
    (split; [intro H; cbn [In] in H;
             repeat (destruct H as [H|H]; try discriminate H);
             contradiction|]);
    (split; [split; [intro H; cbn [In] in H;
                     repeat (destruct H as [H|H]; try discriminate H);
                     try contradiction; reflexivity
                    |intro H; try discriminate H; left; reflexivity]|]);
    (split; [split; [intro H; try discriminate H; lia
                    |intro H; try lia; reflexivity]|]);
    intros n H; cbn [In] in H;
    repeat (destruct H as [H|H]; try discriminate H);
    try contradiction; injection H as <-; (split; [reflexivity|lia]).
Qed.

(** X17. [suggest_channel_improvements] never answers with an empty list
    nor with its "Error" entry, and gives at most three suggestions;
    "Channel Health Good" is given only alone; an "Archive Dead Channels"
    suggestion counts between 4 and 10 channels; and when the query
    fails the answer is the single suggestion "Create Topic Channels". *)
Theorem channel_improvements_shape :
  forall (db : db_manager) (guild_id : Z),
    let l := suggest_channel_improvements db guild_id in
    l <> []
    /\ (List.length l <= 3)%nat
    /\ ~ In ImprovementError l
    /\ (In ChannelHealthGood l <-> l = [ChannelHealthGood])
    /\ (forall n, In (ArchiveDeadChannels n) l -> (4 <= n <= 10)%nat)
    /\ (Py.raises (get_channel_stats db guild_id 7) ->
        l = [CreateTopicChannels]).
Proof.
  intros db g. unfold suggest_channel_improvements, Py.try_except, Py.ret.
  destruct (improvements_shape (analyze_channels db g 7))
    as (S1 & S2 & S3 & S4 & _ & S6).
  repeat (split; [assumption|]).
  split.
  - intros n Hn. destruct (S6 n Hn) as [-> Hlt]. split; [lia|].
    unfold analyze_channels, Py.try_except, Py.bind.
    destruct (get_channel_stats db g 7) as [e|stats]; [simpl; lia|].
    unfold Py.ret. rewrite analyze_stats_buckets. cbn [dead].
    apply firstn_ten_length.
  - intros [e He]. unfold analyze_channels, Py.try_except, Py.bind.
    rewrite He. reflexivity.
Qed.

Lemma channel_improvements_shape_witness :
  suggest_channel_improvements failing_db 1 = [CreateTopicChannels].
Proof.
  apply (channel_improvements_shape failing_db 1).
  exists (Py.QueryError 1). reflexivity.
Defined.

(** X18. In the result of the channel analysis every active channel has
    more messages than every declining one; and for non-negative message
    counts the decline percentage of a declining channel lies strictly
    between 70 and 100. *)
Theorem active_above_declining :
  forall (channel_stats : list ChannelStat) (days : Z),
    let r := analyze_stats channel_stats days in
    (forall a c, In a (active r) -> In c (declining r) ->
                 c_messages c < a_messages a)
    /\ (Forall (fun ch => 0 <= message_count ch) channel_stats ->
        forall c, In c (declining r) ->
                  (70 < c_decline_pct c)%Q /\ (c_decline_pct c < 100)%Q).
Proof.
  intros stats days r. split.
  - intros a c Ha Hc.
    apply active_sound in Ha. destruct Ha as (cha & _ & -> & Ba).
    apply declining_sound in Hc. destruct Hc as (chc & _ & -> & Bc).
    apply bucket_of_active in Ba. apply bucket_of_declining in Bc.
    destruct Ba as [Ba1 Ba2]. destruct Bc as (Bc1 & _ & _).
    cbn [a_messages active_entry c_messages declining_entry].
    rewrite Zlt_Qlt in Ba2. rewrite Zlt_Qlt.
    change (inject_Z 10) with 10%Q in Ba2. Lqa.lra.
  - intros Hnn c Hc.
    apply declining_sound in Hc. destruct Hc as (ch & Hin & -> & B).
    apply bucket_of_declining in B. destruct B as (B1 & _ & B3).
    assert (Hpos : 0 < message_count ch).
    { rewrite Forall_forall in Hnn. specialize (Hnn ch Hin). lia. }
    rewrite Zlt_Qlt in Hpos. change (inject_Z 0) with 0%Q in Hpos.
    set (avg := avg_messages stats) in *.
    assert (Havg : (0 < avg)%Q) by Lqa.lra.
    cbn [c_decline_pct declining_entry].
    rewrite (proj2 (Qltb_lt 0 avg) Havg).
    set (m := inject_Z (message_count ch)) in *.
    assert (Hlo : ((7 # 10) < (avg - m) / avg)%Q)
      by (apply Qlt_shift_div_l; [assumption|Lqa.lra]).
    assert (Hhi : ((avg - m) / avg < 1)%Q)
      by (apply Qlt_shift_div_r; [assumption|Lqa.lra]).
    split; Lqa.lra.
Qed.

Lemma active_above_declining_witness :
  Forall (fun c => (70 < c_decline_pct c)%Q /\ (c_decline_pct c < 100)%Q)
         (declining (analyze_stats scenario_channels 7)).
Proof.
  apply Forall_forall.
  apply (proj2 (active_above_declining scenario_channels 7)).
  repeat constructor; simpl; lia.
Defined.

End ChannelTrends.

(** ** Rounding of rationals *)

Lemma round_between (x : Q) (a b : Z) :
  (inject_Z a <= x)%Q -> (x <= inject_Z b)%Q -> a <= Py.round x <= b.
Proof.
  intros Ha Hb. unfold Py.round.
  pose proof (Qfloor_le x) as Hf. pose proof (Qlt_floor x) as Hc.
  assert (Hfa : a <= Qfloor x).
  { assert (H : (inject_Z a < inject_Z (Qfloor x + 1))%Q)
      by (eapply Qle_lt_trans; eassumption).
    rewrite <- Zlt_Qlt in H. lia. }
  assert (Hfb : Qfloor x <= b).
  { assert (H : (inject_Z (Qfloor x) <= inject_Z b)%Q)
      by (eapply Qle_trans; eassumption).
    rewrite <- Zle_Qle in H. exact H. }
  assert (Hup : (inject_Z (Qfloor x) < x)%Q -> Qfloor x + 1 <= b).
  { intro H.
    assert (H' : (inject_Z (Qfloor x) < inject_Z b)%Q)
      by (eapply Qlt_le_trans; eassumption).
    rewrite <- Zlt_Qlt in H'. lia. }
  destruct (x - inject_Z (Qfloor x) ?= 1 # 2)%Q eqn:C.
  - apply Qeq_alt in C.
    destruct (Z.even (Qfloor x)); [lia|].
    split; [lia|]. apply Hup. Lqa.lra.
  - lia.
  - apply Qgt_alt in C. split; [lia|]. apply Hup. Lqa.lra.
Qed.

Lemma round1_between (x : Q) (a b : Z) :
  (inject_Z a <= x)%Q -> (x <= inject_Z b)%Q ->
  (inject_Z a <= Py.round1 x)%Q /\ (Py.round1 x <= inject_Z b)%Q.
Proof.
  intros Ha Hb. unfold Py.round1. rewrite Qred_correct.
  assert (H : a * 10 <= Py.round (x * 10) <= b * 10).
  { apply round_between; rewrite inject_Z_mult;
      change (inject_Z 10) with 10%Q; Lqa.lra. }
  destruct H as [H1 H2].
  rewrite Zle_Qle, inject_Z_mult in H1. rewrite Zle_Qle, inject_Z_mult in H2.
  change (inject_Z 10) with 10%Q in *.
  set (r := inject_Z (Py.round (x * 10))) in *.
  split.
  - apply Qle_shift_div_l; [reflexivity|exact H1].
  - apply Qle_shift_div_r; [reflexivity|exact H2].
Qed.

Lemma ratio_nonneg (a b : Z) :
  0 <= a -> 0 < b -> (0 <= inject_Z a / inject_Z b)%Q.
Proof.
  intros Ha Hb. destruct b as [|p|p]; try lia.
  unfold Qle, Qdiv, Qmult, Qinv, inject_Z. simpl. lia.
Qed.

Lemma ratio_self (a : Z) : a <> 0 -> (inject_Z a / inject_Z a == 1)%Q.
Proof.
  intro Ha. apply Qmult_inv_r. unfold Qeq, inject_Z. simpl. lia.
Qed.

(** ** Contributor scores and ranking *)

Section ContributorScores.
Import DatabaseManager ContributorAnalyzer.

Lemma consistency_values (user : UserStat) :
  (20 <= _calculate_consistency user)%Q
  /\ (_calculate_consistency user <= 100)%Q.
Proof.
  unfold _calculate_consistency.
  destruct (first_message user), (last_message user);
    repeat match goal with
           | |- context [?a <=? ?b] => destruct (a <=? b)
           end; split; discriminate.
Qed.

Lemma engagement_values (user : UserStat) :
  (0 <= _calculate_engagement_rate user)%Q
  /\ (_calculate_engagement_rate user <= 100)%Q
  /\ (channels_used user <> 0 -> (20 <= _calculate_engagement_rate user)%Q).
Proof.
  unfold _calculate_engagement_rate.
  destruct (channels_used user =? 0) eqn:E.
  - apply Z.eqb_eq in E. repeat split; try discriminate. intro; contradiction.
  - repeat match goal with
           | |- context [Qle_bool ?a ?b] => destruct (Qle_bool a b)
           end; repeat split; try discriminate; intros _; discriminate.
Qed.

Lemma message_score_bounds (user : UserStat) (all_users : list UserStat) :
  (message_score user all_users <= 40)%Q
  /\ (0 <= u_message_count user -> (0 <= message_score user all_users)%Q).
Proof.
  unfold message_score.
  destruct (0 <? max_messages all_users) eqn:E.
  - apply Z.ltb_lt in E. split; [apply Q.le_min_l|].
    intro Hm. apply Q.min_glb; [discriminate|].
    pose proof (ratio_nonneg _ _ Hm E). Lqa.lra.
  - split; [discriminate|intros _; discriminate].
Qed.

Lemma channel_score_bounds (user : UserStat) (all_users : list UserStat) :
  (channel_score user all_users <= 30)%Q
  /\ (0 <= channels_used user -> (0 <= channel_score user all_users)%Q).
Proof.
  unfold channel_score.
  destruct (0 <? max_channels all_users) eqn:E.
  - apply Z.ltb_lt in E. split; [apply Q.le_min_l|].
    intro Hm. apply Q.min_glb; [discriminate|].
    pose proof (ratio_nonneg _ _ Hm E). Lqa.lra.
  - split; [discriminate|intros _; discriminate].
Qed.

(** X19. No sub-score exceeds its cap: 40 for messages, 30 for channels,
    20 for consistency and 10 for engagement.  For a user with
    non-negative counts, measured against any cohort, each sub-score is
    non-negative, the consistency part is at least 4, and the rounded
    total lies between 4 and 100. *)
Theorem contributor_score_within_caps :
  forall (user : UserStat) (all_users : list UserStat),
    ((message_score user all_users <= 40)%Q
     /\ (channel_score user all_users <= 30)%Q
     /\ (4 <= consistency_score user <= 20)%Q
     /\ (0 <= engagement_score user <= 10)%Q
     /\ (_calculate_contributor_score user all_users <= 100)%Q)
    /\ (0 <= u_message_count user -> 0 <= channels_used user ->
        (0 <= message_score user all_users)%Q
        /\ (0 <= channel_score user all_users)%Q
        /\ (4 <= _calculate_contributor_score user all_users)%Q).
Proof.
  intros user all_users.
  destruct (message_score_bounds user all_users) as [Hm1 Hm0].
  destruct (channel_score_bounds user all_users) as [Hc1 Hc0].
  destruct (consistency_values user) as [Hk0 Hk1].
  destruct (engagement_values user) as (He0 & He1 & _).
  assert (Hk : (4 <= consistency_score user <= 20)%Q)
    by (unfold consistency_score; split; Lqa.lra).
  assert (He : (0 <= engagement_score user <= 10)%Q)
    by (unfold engagement_score; split; Lqa.lra).
  split.
  - repeat (split; [first [assumption|apply Hk|apply He]|]).
    unfold _calculate_contributor_score.
    destruct (Qlt_le_dec
                (message_score user all_users + channel_score user all_users
                 + consistency_score user + engagement_score user)
                (inject_Z (-1000))) as [Hlow|Hlow].
    + unfold Py.round1. rewrite Qred_correct.
      apply Qle_shift_div_r; [reflexivity|].
      assert (H : Py.round
                    ((message_score user all_users
                      + channel_score user all_users
                      + consistency_score user + engagement_score user)
                     * 10) <= -10000).
      { apply (round_between _ (Qfloor
                   ((message_score user all_users
                     + channel_score user all_users
                     + consistency_score user + engagement_score user)
                    * 10)) (-10000)).
        - apply Qfloor_le.
        - change (inject_Z (-10000)) with (-10000)%Q.
          change (inject_Z (-1000)) with (-1000)%Q in Hlow. Lqa.lra. }
      rewrite Zle_Qle in H. change (inject_Z (-10000)) with (-10000)%Q in H.
      Lqa.lra.
    + apply (round1_between _ (-1000) 100); [exact Hlow|].
      change (inject_Z 100) with 100%Q. Lqa.lra.
  - intros Hm Hc. specialize (Hm0 Hm). specialize (Hc0 Hc).
    split; [exact Hm0|]. split; [exact Hc0|].
    unfold _calculate_contributor_score.
    apply (round1_between _ 4 100);
      [change (inject_Z 4) with 4%Q|change (inject_Z 100) with 100%Q];
      Lqa.lra.
Qed.

Lemma contributor_score_within_caps_witness :
  (0 <= message_score scenario_user crowded_cohort)%Q
  /\ (0 <= channel_score scenario_user crowded_cohort)%Q
  /\ (4 <= _calculate_contributor_score scenario_user crowded_cohort)%Q.
Proof.
  apply (contributor_score_within_caps scenario_user crowded_cohort);
    simpl; lia.
Defined.

(** X20. When the query answers, [get_top_contributors] returns the
    contributors in non-increasing order of score, twenty of them or, if
    there are fewer rows, as many as there are rows; each entry is built
    from a row, and with at most twenty rows every row has its entry. *)
Theorem top_contributors_sorted_and_complete :
  forall (db : db_manager) (guild_id days : Z) (user_stats : list UserStat),
    get_user_stats db guild_id days = inr user_stats ->
    let top := get_top_contributors db guild_id days in
    Sorted (fun a b => (k_score b <= k_score a)%Q) top
    /\ List.length top = Nat.min 20 (List.length user_stats)
    /\ (forall c, In c top ->
                  exists u, In u user_stats
                            /\ c = contributor_of user_stats u)
    /\ ((List.length user_stats <= 20)%nat ->
        forall u, In u user_stats ->
                  In (contributor_of user_stats u) top).
Proof.
  intros db g d stats Hq.
  unfold get_top_contributors, Py.try_except, Py.bind. rewrite Hq.
  unfold Py.ret, rank_users.
  destruct stats as [|u0 us]; [simpl; repeat split; try constructor;
                               intros; contradiction|].
  set (stats := u0 :: us) in *.
  split; [apply Sorted_firstn; apply (sort_desc_sorted k_score)|].
  split; [rewrite length_firstn, sort_desc_length, length_map; reflexivity|].
  split.
  - intros c Hc. apply firstn_In, sort_desc_In, in_map_iff in Hc.
    destruct Hc as (u & <- & Hu). exists u. auto.
  - intros Hlen u Hu.
    rewrite firstn_all2
      by (rewrite sort_desc_length, length_map; exact Hlen).
    apply sort_desc_In, in_map, Hu.
Qed.

Lemma top_contributors_sorted_and_complete_witness :
  let top := get_top_contributors crowded_db 1 14 in
  Sorted (fun a b => (k_score b <= k_score a)%Q) top
  /\ List.length top = 20%nat.
Proof.
  destruct (top_contributors_sorted_and_complete crowded_db 1 14
              crowded_cohort eq_refl) as (H1 & H2 & _).
  split; [exact H1|exact H2].
Defined.

End ContributorScores.

(** ** Ties in the ranking *)

Section Stability.
Context {A : Type} (key : A -> Q).

Lemma desc_transitive : Relations_1.Transitive (Py.desc key).
Proof.
  intros a b c Hab Hbc. unfold Py.desc in *.
  eapply Qle_trans; eassumption.
Qed.

Lemma filter_none (f : A -> bool) (l : list A) :
  (forall x, In x l -> f x = false) -> filter f l = [].
Proof.
  induction l as [|a l IH]; intro H; [reflexivity|].
  simpl. rewrite (H a) by (left; reflexivity).
  apply IH. intros x Hx. apply H. right. exact Hx.
Qed.

(** Inserting into a sorted list puts the new element behind the ones with
    the same key. *)
Lemma insert_desc_keeps_ties (k : Q) (x : A) (l : list A) :
  StronglySorted (Py.desc key) l ->
  filter (fun e => Qeq_bool (key e) k) (Py.insert_desc key x l)
  = filter (fun e => Qeq_bool (key e) k) l
    ++ (if Qeq_bool (key x) k then [x] else []).
Proof.
  induction 1 as [|y l Hs IH Hall]; simpl.
  - destruct (Qeq_bool (key x) k); reflexivity.
  - destruct (Py.Qltb (key y) (key x)) eqn:E.
    + apply Qltb_lt in E. simpl.
      destruct (Qeq_bool (key x) k) eqn:Ex.
      * apply Qeq_bool_iff in Ex.
        assert (Hy : Qeq_bool (key y) k = false).
        { destruct (Qeq_bool (key y) k) eqn:Ey; [|reflexivity].
          apply Qeq_bool_iff in Ey. rewrite Ey, <- Ex in E.
          exfalso. exact (Qlt_irrefl _ E). }
        rewrite Hy. rewrite filter_none; [reflexivity|].
        intros e He. rewrite Forall_forall in Hall.
        specialize (Hall e He). unfold Py.desc in Hall.
        destruct (Qeq_bool (key e) k) eqn:Ee; [|reflexivity].
        apply Qeq_bool_iff in Ee. rewrite Ee, <- Ex in Hall.
        exfalso. exact (Qlt_not_le _ _ E Hall).
      * rewrite app_nil_r. reflexivity.
    + simpl. rewrite IH.
      destruct (Qeq_bool (key y) k); reflexivity.
Qed.

Lemma sort_desc_keeps_ties (k : Q) (l : list A) :
  filter (fun e => Qeq_bool (key e) k) (Py.sort_desc key l)
  = filter (fun e => Qeq_bool (key e) k) l.
Proof.
  unfold Py.sort_desc.
  assert (G : forall acc,
             Sorted (Py.desc key) acc ->
             filter (fun e => Qeq_bool (key e) k)
                    (fold_left (fun acc x => Py.insert_desc key x acc) l acc)
             = filter (fun e => Qeq_bool (key e) k) acc
               ++ filter (fun e => Qeq_bool (key e) k) l).
  { induction l as [|x l IH]; intros acc Hacc; simpl.
    - rewrite app_nil_r. reflexivity.
    - rewrite IH by (apply insert_desc_sorted; exact Hacc).
      rewrite insert_desc_keeps_ties
        by (apply Sorted_StronglySorted; [apply desc_transitive|exact Hacc]).
      rewrite <- app_assoc. f_equal.
      destruct (Qeq_bool (key x) k); reflexivity. }
  rewrite G by constructor. reflexivity.
Qed.

End Stability.

Section ContributorTrends.
Import DatabaseManager ContributorAnalyzer.

(** X21. The ranking is stable: with at most twenty rows, the
    contributors that share a score appear in the order of their rows. *)
Theorem equal_scores_keep_row_order :
  forall (user_stats : list UserStat) (k : Q),
    (List.length user_stats <= 20)%nat ->
    filter (fun c => Qeq_bool (k_score c) k) (rank_users user_stats)
    = filter (fun c => Qeq_bool (k_score c) k)
             (map (contributor_of user_stats) user_stats).
Proof.
  intros stats k Hlen. unfold rank_users.
  destruct stats as [|u0 us]; [reflexivity|].
  rewrite firstn_all2 by (rewrite sort_desc_length, length_map; exact Hlen).
  apply sort_desc_keeps_ties.
Qed.

Lemma equal_scores_keep_row_order_witness :
  map k_user_id
      (filter (fun c => Qeq_bool (k_score c) 96)
              (rank_users (tl crowded_cohort)))
  = [1; 2; 3; 4; 5; 6; 7; 8; 9; 10; 11; 12; 13; 14; 15; 16; 17; 18; 19; 20].
Proof.
  rewrite (equal_scores_keep_row_order (tl crowded_cohort) 96)
    by (simpl; lia).
  vm_compute. reflexivity.
Defined.

Lemma find_user_spec (user_stats : list UserStat) (id : Z) :
  match find_user user_stats id with
  | Some u => In u user_stats /\ user_id u = id
  | None => ~ In id (map user_id user_stats)
  end.
Proof.
  unfold find_user.
  destruct (find (fun u => user_id u =? id) user_stats) as [u|] eqn:F.
  - apply find_some in F. destruct F as [Hin E].
    split; [exact Hin|apply Z.eqb_eq, E].
  - intro Hin. apply in_map_iff in Hin. destruct Hin as (u & E & Hin).
    pose proof (find_none _ _ F u Hin) as N. simpl in N.
    apply Z.eqb_neq in N. contradiction.
Qed.

Lemma rank_from_spec (l : list Contributor) (id : Z) :
  forall i : Z,
    0 <= i ->
    (rank_from i l id = 0 /\ ~ In id (map k_user_id l))
    \/ (i < rank_from i l id <= i + Z.of_nat (List.length l)
        /\ In id (map k_user_id l)).
Proof.
  induction l as [|c l IH]; intros i Hi.
  - left. simpl. tauto.
  - cbn [rank_from map List.length In].
    destruct (k_user_id c =? id) eqn:E.
    + apply Z.eqb_eq in E. right. split; [lia|now left].
    + apply Z.eqb_neq in E.
      destruct (IH (i + 1) ltac:(lia)) as [[H0 Hn]|[Hr Hin]].
      * left. split; [exact H0|]. intros [H|H]; contradiction.
      * right. split; [lia|now right].
Qed.

Lemma self_cohort_score (u : UserStat) :
  0 < u_message_count u -> 0 < channels_used u ->
  (76 <= _calculate_contributor_score u [u])%Q.
Proof.
  intros Hm Hc.
  assert (Hms : (40 <= message_score u [u])%Q).
  { unfold message_score, max_messages, cohort_max, Py.maxZ. cbn [map fold_left].
    rewrite (proj2 (Z.ltb_lt _ _) Hm).
    apply Q.min_glb; [discriminate|].
    rewrite ratio_self by lia. discriminate. }
  assert (Hcs : (30 <= channel_score u [u])%Q).
  { unfold channel_score, max_channels, cohort_max, Py.maxZ. cbn [map fold_left].
    rewrite (proj2 (Z.ltb_lt _ _) Hc).
    apply Q.min_glb; [discriminate|].
    rewrite ratio_self by lia. discriminate. }
  destruct (consistency_values u) as [Hk0 Hk1].
  destruct (engagement_values u) as (_ & He1 & He).
  specialize (He ltac:(lia)).
  destruct (message_score_bounds u [u]) as [Hm1 _].
  destruct (channel_score_bounds u [u]) as [Hc1 _].
  unfold _calculate_contributor_score.
  apply (round1_between _ 76 100);
    [change (inject_Z 76) with 76%Q|change (inject_Z 100) with 100%Q];
    unfold consistency_score, engagement_score in *; Lqa.lra.
Qed.

(** X22. [analyze_contributor_trends] answers "no_data" for a user that
    is not among the rows.  For a user found with at least one message in
    at least one channel the score, taken against the user alone, is at
    least 76, so the trend is "excellent" or "good" and never "moderate"
    or "low"; the rank is the position among the top contributors, at
    most 20, and 0 exactly when the user is not among them. *)
Theorem contributor_trend_of_found_user :
  forall (db : db_manager) (guild_id user_id' days : Z)
         (user_stats : list UserStat),
    get_user_stats db guild_id days = inr user_stats ->
    let t := analyze_contributor_trends db guild_id user_id' days in
    let top := get_top_contributors db guild_id days in
    (~ In user_id' (map user_id user_stats) -> t = contributor_no_data)
    /\ forall u,
         find_user user_stats user_id' = Some u ->
         0 < u_message_count u -> 0 < channels_used u ->
         (76 <= ct_score t)%Q
         /\ (ct_trend t = "excellent"%string \/ ct_trend t = "good"%string)
         /\ 0 <= ct_rank t <= 20
         /\ (ct_rank t = 0 <-> ~ In user_id' (map k_user_id top))
         /\ ct_messages t = Some (u_message_count u).
Proof.
  intros db g id d stats Hq t top. subst t top.
  unfold analyze_contributor_trends, Py.try_except, Py.bind. rewrite Hq.
  pose proof (find_user_spec stats id) as F.
  split.
  - intro N. destruct (find_user stats id) as [u|]; [|reflexivity].
    exfalso. apply N. destruct F as [Hin <-]. apply in_map, Hin.
  - intros u Hu Hm Hc. rewrite Hu.
    pose proof (self_cohort_score u Hm Hc) as Hs.
    destruct (trend_of_score (_calculate_contributor_score u [u]))
      as [trend recs] eqn:Et.
    unfold Py.ret.
    cbn [ct_score ct_trend ct_rank ct_messages].
    split; [exact Hs|]. split.
    { unfold trend_of_score in Et.
      destruct (Qle_bool 80 (_calculate_contributor_score u [u]));
        [injection Et as <- _; now left|].
      assert (H60 : Qle_bool 60 (_calculate_contributor_score u [u]) = true).
      { apply Qle_bool_iff. Lqa.lra. }
      rewrite H60 in Et. injection Et as <- _. now right. }
    pose proof (top_contributors_at_most_twenty db g d) as Hlen.
    unfold rank_of.
    destruct (rank_from_spec (get_top_contributors db g d) id 0 ltac:(lia))
      as [[H0 Hn]|[Hr Hin]].
    + rewrite H0. split; [lia|]. split; [tauto|reflexivity].
    + split; [lia|]. split; [|reflexivity].
      split; [intro H; lia|intro H; contradiction].
Qed.

Lemma contributor_trend_of_found_user_witness :
  let t := analyze_contributor_trends scenario_db 1 7 30 in
  (76 <= ct_score t)%Q
  /\ (ct_trend t = "excellent"%string \/ ct_trend t = "good"%string)
  /\ 0 <= ct_rank t <= 20.
Proof.
  destruct (contributor_trend_of_found_user scenario_db 1 7 30
              [scenario_user] eq_refl) as [_ H].
  destruct (H scenario_user eq_refl ltac:(simpl; lia) ltac:(simpl; lia))
    as (H1 & H2 & H3 & _).
  split; [exact H1|]. split; [exact H2|exact H3].
Defined.

Lemma rising_fold_zero_days (l : list Contributor) (acc : list RisingStar) :
  l <> [] ->
  fold_left (rising_step 0) l (inr acc) = inl Py.ZeroDivisionError.
Proof.
  destruct l as [|c l]; [congruence|]. intros _.
  cbn [fold_left]. apply rising_step_raised.
Qed.

(** X23. [identify_rising_stars] returns at most ten stars, in
    non-increasing order of messages per day, each with at least two
    channels; for a positive window each has at least two messages a day
    and is tagged "high" exactly from five messages a day on; for a zero
    window the division error is swallowed and the list is empty. *)
Theorem rising_stars_shape :
  forall (db : db_manager) (guild_id days : Z),
    let l := identify_rising_stars db guild_id days in
    (List.length l <= 10)%nat
    /\ Sorted (fun a b => (s_messages_per_day b <= s_messages_per_day a)%Q) l
    /\ (days = 0 -> l = [])
    /\ forall s, In s l ->
         2 <= s_channels_used s
         /\ (0 < days ->
             2 * days <= s_messages s
             /\ (s_potential s = "high"%string <-> 5 * days <= s_messages s)).
Proof.
  intros db g days. unfold identify_rising_stars, Py.try_except.
  unfold Py.bind at 1.
  destruct (fold_left (rising_step days) (get_top_contributors db g days)
                      (Py.ret [])) as [e|stars] eqn:Hfold.
  { simpl. repeat split; try lia; try constructor; intros; contradiction. }
  cbn [Py.ret].
  split; [apply firstn_ten_length|].
  split; [apply Sorted_firstn, (sort_desc_sorted s_messages_per_day)|].
  split.
  { intros ->. destruct (get_top_contributors db g 0) as [|c top] eqn:Et.
    - simpl in Hfold. injection Hfold as <-. reflexivity.
    - unfold Py.ret in Hfold.
      rewrite rising_fold_zero_days in Hfold by discriminate.
      discriminate. }
  intros s Hs. apply firstn_In, sort_desc_In in Hs.
  destruct (rising_fold_sound _ _ _ _ Hfold s Hs)
    as [[]|(c & q & _ & Hq & Hqual & ->)].
  unfold qualifies in Hqual. apply andb_prop in Hqual.
  destruct Hqual as [Hq2 Hc2]. apply Z.leb_le in Hc2.
  cbn [s_channels_used s_messages s_potential rising_star_of].
  split; [exact Hc2|]. intro Hd.
  unfold Py.truediv in Hq.
  destruct (days =? 0) eqn:E0; [discriminate|].
  injection Hq as <-.
  rewrite (Qle_bool_ratio 2 1) in Hq2 by assumption.
  apply Z.leb_le in Hq2. split; [lia|].
  rewrite (Qle_bool_ratio 5 1) by assumption.
  destruct (5 * days <=? k_messages c * 1) eqn:E5;
    [apply Z.leb_le in E5|apply Z.leb_gt in E5];
    split; intro H; try lia; try reflexivity; discriminate.
Qed.

Lemma rising_stars_shape_witness :
  identify_rising_stars scenario_db 1 0 = []
  /\ forall s, In s (identify_rising_stars scenario_db 1 14) ->
               2 * 14 <= s_messages s.
Proof.
  split.
  - apply (rising_stars_shape scenario_db 1 0). reflexivity.
  - intros s Hs.
    destruct (rising_stars_shape scenario_db 1 14) as (_ & _ & _ & H).
    destruct (H s Hs) as [_ H']. apply H'. lia.
Defined.

End ContributorTrends.

(** ** What the bot commands show *)

Section BotCommands.
Import DatabaseManager AnalyticsHealthAnalyzer Bot.

Lemma recommendations_nonempty (a e d c : Z) :
  _generate_recommendations a e d c <> [].
Proof.
  unfold _generate_recommendations.
  destruct (a <? 50), (e <? 50), (d <? 50), (c <? 50); discriminate.
Qed.

(** X24. Whatever the store returns, the [/pulse] embed shows the flat
    trend arrow, an active share of 100 percent when there is an active
    member and of 0 percent otherwise, at most three peak hours and three
    quiet channels, and never a footer built from a missing warning. *)
Theorem pulse_embed_always_flat :
  forall (db : db_manager) (guild_id days : Z),
    let e := pulse db guild_id days in
    e_trend_emoji e = TrendFlat
    /\ e_total_members e = e_active_members e
    /\ (0 < e_active_members e -> (e_active_pct e == 100)%Q)
    /\ (e_active_members e <= 0 -> e_active_pct e = 0%Q)
    /\ e_footer_warning e <> Some None
    /\ (forall l, e_peak_hours e = Some l -> (1 <= List.length l <= 3)%nat)
    /\ (forall l, e_quiet_channels e = Some l ->
                  (1 <= List.length l <= 3)%nat).
Proof.
  intros db g d. unfold pulse, get_pulse, Py.try_except, Py.bind.
  destruct (get_message_stats db g d) as [err|ms];
    [cbn; repeat split; intros; try lia; try discriminate|].
  destruct (get_channel_stats db g d) as [err|cs];
    [cbn; repeat split; intros; try lia; try discriminate|].
  unfold Py.ret, pulse_embed.
  cbn [trend active_members total_members p_total_messages peak_hours
       quiet_channels low_confidence confidence_warning
       e_trend_emoji e_total_members e_active_members e_active_pct
       e_footer_warning e_peak_hours e_quiet_channels get_total_messages
       _get_previous_period_stats prev_total_messages].
  split; [reflexivity|]. split; [reflexivity|]. split.
  { intro H. rewrite (proj2 (Z.ltb_lt _ _) H).
    rewrite ratio_self by lia. reflexivity. }
  split.
  { intro H. destruct (0 <? active_users ms) eqn:E;
      [apply Z.ltb_lt in E; lia|reflexivity]. }
  split.
  { destruct (total_messages ms <? 10); discriminate. }
  split.
  - intros l Hl.
    destruct (hourly_data ms) as [|row rows] eqn:Eh; [discriminate|].
    destruct (map fst (firstn 3 (row :: rows))) as [|h hs] eqn:Em;
      [discriminate|].
    injection Hl as <-.
    assert (Hlen : (List.length (h :: hs) <= 3)%nat).
    { rewrite <- Em, length_map, length_firstn. apply Nat.le_min_l. }
    change (1 <= List.length (firstn 3 (h :: hs)) <= 3)%nat.
    rewrite length_firstn. cbn [List.length] in *. lia.
  - intros l Hl.
    destruct (map channel_id (Py.last_n 3 cs)) as [|q qs] eqn:Em;
      [discriminate|].
    injection Hl as <-.
    assert (Hlen : (List.length (q :: qs) <= 3)%nat).
    { rewrite <- Em, length_map. unfold Py.last_n.
      rewrite length_skipn. lia. }
    change (1 <= List.length (firstn 5 (q :: qs)) <= 3)%nat.
    rewrite length_firstn. cbn [List.length] in *. lia.
Qed.

(** X25. Whatever the store returns, the colour of the [/health] embed
    and its summary sentence name the same tier (red also goes with the
    sentence of a failed computation), the score shown lies between 0 and
    100, and the embed always has a recommendations field of one to three
    lines. *)
Theorem health_embed_colour_matches_summary :
  forall (db : db_manager) (guild_id : Z),
    let e := health db guild_id in
    match h_colour e with
    | Green =>
        h_summary e
        = "Excellent! Your server is thriving with high activity and engagement."%string
        /\ 80 <= h_score e
    | Gold =>
        h_summary e
        = "Good health! Some areas could use improvement."%string
        /\ 60 <= h_score e < 80
    | Orange =>
        h_summary e
        = "Moderate health. Consider implementing engagement strategies."%string
        /\ 40 <= h_score e < 60
    | Red =>
        (h_summary e = "Needs attention. Low activity detected."%string
         \/ h_summary e = "Unable to calculate health score"%string)
        /\ h_score e < 40
    end
    /\ (exists l, h_recommendations e = Some l
                  /\ (1 <= List.length l <= 3)%nat).
Proof.
  intros db g. unfold health, calculate_health_score, Py.try_except, Py.bind.
  destruct (get_message_stats db g 7) as [err|ms];
    [split; [cbn; split; [now right|lia]
           |eexists; split; [reflexivity|simpl; lia]]|].
  destruct (get_channel_stats db g 7) as [err|cs];
    [split; [cbn; split; [now right|lia]
           |eexists; split; [reflexivity|simpl; lia]]|].
  destruct (get_user_stats db g 30) as [err|us];
    [split; [cbn; split; [now right|lia]
           |eexists; split; [reflexivity|simpl; lia]]|].
  unfold Py.ret, health_embed.
  cbn [score summary recommendations h_colour h_summary h_score
       h_recommendations].
  split.
  2:{ pose proof (recommendations_nonempty
                    (_calculate_activity_score ms)
                    (_calculate_engagement_score us)
                    (_calculate_diversity_score cs)
                    (_calculate_consistency_score ms)) as Hne.
      destruct (_generate_recommendations _ _ _ _) as [|r0 rs];
        [congruence|].
      eexists. split; [reflexivity|].
      change (1 <= List.length (firstn 3 (r0 :: rs)) <= 3)%nat.
      rewrite length_firstn. cbn [List.length]. lia. }
  match goal with
  | |- context [80 <=? ?x] => set (s := x)
  end.
  destruct (80 <=? s) eqn:E1;
    [apply Z.leb_le in E1; split; [reflexivity|lia]|apply Z.leb_gt in E1].
  destruct (60 <=? s) eqn:E2;
    [apply Z.leb_le in E2; split; [reflexivity|lia]|apply Z.leb_gt in E2].
  destruct (40 <=? s) eqn:E3;
    [apply Z.leb_le in E3; split; [reflexivity|lia]|apply Z.leb_gt in E3].
  split; [now left|lia].
Qed.

(** X26. The tiered [generate_suggestions] always answers with exactly
    two suggestions chosen by the health score (below 40, below 70, or
    from 70 on) and never with its "Error" entry, whatever the store
    returns. *)
Theorem tiered_suggestions_come_in_pairs :
  forall (db : db_manager) (guild_id : Z),
    let l := generate_suggestions db guild_id in
    let s := score (calculate_health_score db guild_id) in
    List.length l = 2%nat
    /\ ~ In "Error"%string (map title l)
    /\ (map title l = ["Boost Activity"; "Welcome New Members"]%string
        <-> s < 40)
    /\ (map title l = ["Diversify Channels"; "Regular Events"]%string
        <-> 40 <= s < 70)
    /\ (map title l = ["Maintain Momentum"; "Community Recognition"]%string
        <-> 70 <= s).
Proof.
  intros db g. unfold generate_suggestions, Py.try_except.
  set (s := score (calculate_health_score db g)).
  destruct (s <? 40) eqn:E1;
    [apply Z.ltb_lt in E1|apply Z.ltb_ge in E1;
     destruct (s <? 70) eqn:E2;
     [apply Z.ltb_lt in E2|apply Z.ltb_ge in E2]];
    unfold Py.ret; cbn [map title suggestion List.length];
    (split; [reflexivity|]);
    (split; [intros [H|[H|[]]]; discriminate H|]);
    repeat split; intros; try lia; try discriminate; try reflexivity.
Qed.

End BotCommands.
